(** * perfkitbenchmarker/benchmark_spec.py: the benchmark resource plan

    A shallow embedding of [BenchmarkSpec] (construction from flags or from a
    node topology, [Prepare], [Delete], [PickleSpec], [GetSpecFromFile]) and
    of the module-level provider tables, followed by the properties of the
    design document that concern them.

    Python objects with identity (virtual machines, networks) live in stores
    owned by the plan and are named by their index; dictionaries are finite
    maps, except the option dictionary of a node section, whose iteration
    order decides the order of the disk specs and which is an association
    list.  Exceptions are values of [exn]; a computation is a function from
    the machine state to a result and the state it leaves behind, so that
    whatever was mutated before an exception stays mutated. *)

From Stdlib Require Import ZArith Ascii String List Lia.
From stdpp Require Import base option list gmap fin_maps strings pretty.

Local Open Scope Z_scope.

(** ** Python values and exceptions *)

Module Py.

(** The exceptions the module can raise or let through. *)
Inductive exn : Type :=
| KeyError (key : string)
| IndexError
| ValueError (msg : string)
| TypeError
| AttributeError (attr : string)
| IOError (path : string)
| UnpicklingError
| ProviderError (msg : string).

(** An attribute that holds [None], a [str] or a [list] of [str] depending on
    the construction mode and on how far [__init__] has run ([zones], [image]
    and [machine_type] start as lists in topology mode and end as the joined
    string). *)
Inductive value : Type :=
| VNone
| VStr (s : string)
| VList (l : list string).

Definition ascii_colon : ascii := ":"%char.

(** [s.split(sep)] for a one-character separator. *)
Fixpoint split_go (sep : ascii) (cur : string) (s : string) : list string :=
  match s with
  | EmptyString => [String.rev cur]
  | String c s' =>
      if Ascii.eqb c sep then String.rev cur :: split_go sep EmptyString s'
      else split_go sep (String c cur) s'
  end.

Definition split (sep : ascii) (s : string) : list string :=
  split_go sep EmptyString s.

(** [sep.join(l)]. *)
Fixpoint join (sep : string) (l : list string) : string :=
  match l with
  | [] => ""
  | [x] => x
  | x :: l' => x +:+ sep +:+ join sep l'
  end.

(** [s.startswith(p)]. *)
Definition startswith (s p : string) : bool := String.prefix p s.

(** [sub in s] on two strings. *)
Definition str_contains (s sub : string) : bool :=
  match String.index 0 sub s with
  | Some _ => true
  | None => false
  end.

(** Whitespace accepted around a decimal literal by [int]. *)
Definition is_space (c : ascii) : bool :=
  let n := nat_of_ascii c in
  ((n =? 32) || ((9 <=? n) && (n <=? 13)))%nat.

Fixpoint lstrip (s : string) : string :=
  match s with
  | String c s' => if is_space c then lstrip s' else s
  | EmptyString => EmptyString
  end.

Definition strip (s : string) : string :=
  String.rev (lstrip (String.rev (lstrip s))).

Definition digit_of (c : ascii) : option Z :=
  let n := nat_of_ascii c in
  if ((48 <=? n) && (n <=? 57))%nat then Some (Z.of_nat n - 48) else None.

Fixpoint digits_go (acc : Z) (s : string) : option Z :=
  match s with
  | EmptyString => Some acc
  | String c s' =>
      match digit_of c with
      | Some d => digits_go (10 * acc + d) s'
      | None => None
      end
  end.

Definition digits (s : string) : option Z :=
  match s with
  | EmptyString => None
  | _ => digits_go 0 s
  end.

(** [int(s)] on a [str]: optional surrounding whitespace, an optional sign
    and at least one decimal digit; anything else is a [ValueError]. *)
Definition int (s : string) : exn + Z :=
  let bad := inl (ValueError ("invalid literal for int() with base 10: " +:+ s)) in
  match strip s with
  | String "-" s' => match digits s' with Some n => inr (- n) | None => bad end
  | String "+" s' => match digits s' with Some n => inr n | None => bad end
  | s' => match digits s' with Some n => inr n | None => bad end
  end.

(** [range(n)] as the list of its indices; empty when [n <= 0]. *)
Definition range (n : Z) : list nat := seq 0 (Z.to_nat n).

(** [d[k]] on a dictionary. *)
Definition getitem {V} (d : gmap string V) (k : string) : exn + V :=
  match d !! k with
  | Some v => inr v
  | None => inl (KeyError k)
  end.

(** [d[k]] and [k in d] on an option dictionary kept in iteration order. *)
Fixpoint alist_get (d : list (string * string)) (k : string) : option string :=
  match d with
  | [] => None
  | (k', v) :: d' => if String.eqb k' k then Some v else alist_get d' k
  end.

Definition alist_getitem (d : list (string * string)) (k : string) : exn + string :=
  match alist_get d k with
  | Some v => inr v
  | None => inl (KeyError k)
  end.

(** [x in v]: membership in a list, substring test on a string; [None] is
    not iterable. *)
Definition contains (v : value) (x : string) : exn + bool :=
  match v with
  | VNone => inl TypeError
  | VStr s => inr (str_contains s x)
  | VList l => inr (bool_decide (x ∈ l))
  end.

(** [v.append(x)]: only lists have it. *)
Definition append (v : value) (x : string) : exn + value :=
  match v with
  | VList l => inr (VList (l ++ [x]))
  | _ => inl (AttributeError "append")
  end.

(** [v[0]]: first element of a list, first character of a string. *)
Definition first (v : value) : exn + string :=
  match v with
  | VNone => inl TypeError
  | VStr (String c _) => inr (String c EmptyString)
  | VStr EmptyString => inl IndexError
  | VList (x :: _) => inr x
  | VList [] => inl IndexError
  end.

(** [len(v)] and [v[i]] for an integer [i]; a negative index counts from
    the end. *)
Definition len (v : value) : exn + Z :=
  match v with
  | VNone => inl TypeError
  | VStr s => inr (Z.of_nat (String.length s))
  | VList l => inr (Z.of_nat (length l))
  end.

Definition item (v : value) (i : Z) : exn + string :=
  match v with
  | VNone => inl TypeError
  | VStr s =>
      let i' := if i <? 0 then i + Z.of_nat (String.length s) else i in
      if i' <? 0 then inl IndexError
      else match String.get (Z.to_nat i') s with
           | Some c => inr (String c EmptyString)
           | None => inl IndexError
           end
  | VList l =>
      let i' := if i <? 0 then i + Z.of_nat (length l) else i in
      if i' <? 0 then inl IndexError
      else match l !! Z.to_nat i' with
           | Some x => inr x
           | None => inl IndexError
           end
  end.

(** [sep.join(v)]: a list is joined, a string is spelled out character by
    character, [None] is not iterable. *)
Definition chars (s : string) : list string :=
  (λ c, String c EmptyString) <$> list_ascii_of_string s.

Definition join_value (sep : string) (v : value) : exn + string :=
  match v with
  | VNone => inl TypeError
  | VStr s => inr (join sep (chars s))
  | VList l => inr (join sep l)
  end.

End Py.

Import Py.

(** ** Module-level constants and provider tables *)

Definition GCP : string := "GCP".
Definition AZURE : string := "Azure".
Definition AWS : string := "AWS".

(** The provider classes the tables refer to; constructing one is an
    allocation, no cloud resource is touched. *)
Inductive class : Type :=
| GceVirtualMachine | GceNetwork | GceFirewall
| AzureVirtualMachine | AzureNetwork | AzureFirewall
| AwsVirtualMachine | AwsNetwork | AwsFirewall.

(** One entry of [DEFAULTS]: the keys [IMAGE], [MACHINE_TYPE] and [ZONE]. *)
Record defaults_entry : Type := {
  IMAGE : option string;
  MACHINE_TYPE : string;
  ZONE : string
}.

(** One entry of [CLASSES]: the keys [VIRTUAL_MACHINE], [NETWORK] and
    [FIREWALL]. *)
Record classes_entry : Type := {
  VIRTUAL_MACHINE : class;
  NETWORK : class;
  FIREWALL : class
}.

Definition DEFAULTS : gmap string defaults_entry :=
  {[ GCP := {| IMAGE := Some "debian-7-backports";
               MACHINE_TYPE := "n1-standard-1";
               ZONE := "us-central1-a" |};
     AZURE := {| IMAGE := Some ("b39f27a8b8c64d52b05eac6a62ebad85__Ubuntu-"
                                +:+ "14_04-LTS-amd64-server-20140724-en-us-30GB");
                 MACHINE_TYPE := "small";
                 ZONE := "East US" |};
     AWS := {| IMAGE := None;
               MACHINE_TYPE := "m3.medium";
               ZONE := "us-east-1a" |} ]}.

Definition CLASSES : gmap string classes_entry :=
  {[ GCP := {| VIRTUAL_MACHINE := GceVirtualMachine;
               NETWORK := GceNetwork;
               FIREWALL := GceFirewall |};
     AZURE := {| VIRTUAL_MACHINE := AzureVirtualMachine;
                 NETWORK := AzureNetwork;
                 FIREWALL := AzureFirewall |};
     AWS := {| VIRTUAL_MACHINE := AwsVirtualMachine;
               NETWORK := AwsNetwork;
               FIREWALL := AwsFirewall |} ]}.

Definition STANDARD : string := "standard".
Definition SSD : string := "ssd".
Definition IOPS : string := "iops".

(** [DISK_TYPE]: logical disk type to the provider's name for it; a value
    of [None] is Python's [None]. *)
Definition DISK_TYPE : gmap string (gmap string (option string)) :=
  {[ GCP := {[ STANDARD := Some "pd-standard"; SSD := Some "pd-ssd" ]};
     AWS := {[ STANDARD := Some "standard"; SSD := Some "gp2";
               IOPS := Some "io1" ]};
     AZURE := {[ STANDARD := None ]} ]}.

(** [DISK_TYPE[cloud][disk_type]]. *)
Definition disk_alias (cloud disk_type : string) : exn + option string :=
  match getitem DISK_TYPE cloud with
  | inl e => inl e
  | inr aliases => getitem aliases disk_type
  end.

Definition SSH_PORT : Z := 22.

(** ** Objects *)

(** [virtual_machine.BaseVirtualMachineSpec]; [spec_network] names the
    network object in the plan's network store. *)
Record BaseVirtualMachineSpec : Type := {
  spec_project : option string;
  spec_zone : string;
  spec_machine_type : value;
  spec_image : value;
  spec_network : nat
}.

(** [disk.BaseDiskSpec]. *)
Record BaseDiskSpec : Type := {
  disk_size : Z;
  disk_type : option string;
  mount_point : string
}.

(** A network object: [network_class(zone)]. *)
Record Network : Type := {
  network_class : class;
  network_zone : string
}.

(** The firewall object: [firewall_class(self.project)]. *)
Record Firewall : Type := {
  firewall_class : class;
  firewall_project : option string
}.

(** A virtual machine object is either one handed out by the static pool or
    [vm_class(vm_spec)]; both carry the mutable list [disk_specs]. *)
Inductive vm_kind : Type :=
| StaticVirtualMachine
| Instance (cls : class) (spec : BaseVirtualMachineSpec).

Record VirtualMachine : Type := {
  kind : vm_kind;
  disk_specs : list BaseDiskSpec
}.

(** The result of [config_reader.ConfigLoader]: the sections of the ini file
    with their options, and the names of the node sections. *)
Record ConfigLoader : Type := {
  sections : list (string * list (string * string));
  node_sections : list string
}.

(** A value of [vm_dict]: its own list, or the very list object [self.vms]
    (after [self.vm_dict['default'] = self.vms]). *)
Inductive vm_list : Type :=
| SelfVms
| Own (l : list nat).

(** ** The plan *)

(** The attributes of a [BenchmarkSpec].  Virtual machines and networks are
    named by their index in [vm_objects] and [network_objects].  An
    attribute typed [option] is [None] until it is assigned. *)
Record BenchmarkSpec : Type := {
  config : option ConfigLoader;
  vms : list nat;
  vm_dict : gmap string vm_list;
  networks : gmap string nat;
  cloud : string;
  project : option string;
  zones : value;
  image : value;
  machine_type : value;
  num_vms : option Z;
  scratch_disk_size : option Z;
  scratch_disk_type : option string;
  vm_spec : option BaseVirtualMachineSpec;
  firewall : option Firewall;
  file_name : option string;
  deleted : option bool;
  vm_objects : list VirtualMachine;
  network_objects : list Network
}.

(** The members of a node group, as [self.vm_dict[name]] reads them. *)
Definition group (self : BenchmarkSpec) (name : string) : option (list nat) :=
  match vm_dict self !! name with
  | Some SelfVms => Some (vms self)
  | Some (Own l) => Some l
  | None => None
  end.

(** [vm.disk_specs] for the object named [vm]. *)
Definition vm_disk_specs (self : BenchmarkSpec) (vm : nat) : list BaseDiskSpec :=
  match vm_objects self !! vm with
  | Some o => disk_specs o
  | None => []
  end.

(** ** Flags and arguments *)

(** [FLAGS]; [FLAGS_benchmark_config_pair] maps a benchmark name to the
    configuration loaded from the file paired with it, an unset list or
    string flag is [[]] or [None]. *)
Record Flags : Type := {
  FLAGS_benchmark_config_pair : gmap string ConfigLoader;
  FLAGS_cloud : string;
  FLAGS_project : option string;
  FLAGS_zones : list string;
  FLAGS_image : option string;
  FLAGS_machine_type : option string;
  FLAGS_num_vms : Z;
  FLAGS_scratch_disk_size : Z;
  FLAGS_scratch_disk_type : string;
  FLAGS_run_stage : string
}.

Record BenchmarkInfo : Type := {
  info_name : string;
  info_num_machines : option Z;
  info_scratch_disk : Z
}.

(** ** The outside world *)

(** Calls into the provider bindings and into [perfkitbenchmarker_lib]. *)
Inductive Call : Type :=
| VmCreate (vm : nat)
| VmWaitForBootCompletion (vm : nat)
| VmAptUpdate (vm : nat)
| VmCreateScratchDisk (vm : nat) (d : BaseDiskSpec)
| VmDelete (vm : nat)
| VmDeleteScratchDisks (vm : nat)
| BurnCpu (vm : nat)
| FirewallAllowPort (fw : Firewall) (vm : nat) (port : Z)
| FirewallDisallowAllPorts (fw : Firewall)
| NetworkCreate (net : nat)
| NetworkDelete (net : nat).

(** What an observer sees, in order: provider calls and log records. *)
Inductive Event : Type :=
| Called (c : Call)
| LogInfo (msg : string)
| LogError (msg : string).

(** The collaborators that are not part of this module, as parameters:
    [static_virtual_machine.StaticVirtualMachine.GetStaticVirtualMachine]
    (a virtual machine of the static pool, named by its index in
    [vm_objects], or [None]), the methods of the provider bindings and
    [perfkitbenchmarker_lib.BurnCpu] ([provider_call]), the attribute
    [vm.ip_address], [vm_util.GetTempDir], the constant
    [ini_constants.OPTION_PD_PREFIX], and [pickle.dump] and [pickle.load]
    over the content of a file.  A provider call either returns or raises,
    and changes the world; it does not touch the attributes of the plan. *)
Class Externals (World Blob : Type) : Type := {
  GetStaticVirtualMachine : World → option nat * World;
  provider_call : Call → World → option exn * World;
  ip_address : nat → World → string;
  GetTempDir : World → string;
  OPTION_PD_PREFIX : string;
  pickle_dump : BenchmarkSpec → Blob;
  pickle_load : Blob → exn + BenchmarkSpec
}.

Record File (Blob : Type) : Type := {
  f_readable : bool;
  f_writable : bool;
  f_data : Blob
}.
Arguments f_readable {Blob} _.
Arguments f_writable {Blob} _.
Arguments f_data {Blob} _.

(** The process: the world behind the providers, the file system, and the
    events so far (oldest first). *)
Record Process (World Blob : Type) : Type := {
  world : World;
  files : gmap string (File Blob);
  trace : list Event
}.
Arguments world {World Blob} _.
Arguments files {World Blob} _.
Arguments trace {World Blob} _.

(** A method runs on the plan and the process. *)
Record Machine (World Blob : Type) : Type := {
  self : BenchmarkSpec;
  proc : Process World Blob
}.
Arguments self {World Blob} _.
Arguments proc {World Blob} _.

(** ** Computations *)

Definition M (S A : Type) : Type := S → (exn + A) * S.

Global Instance M_ret {S} : MRet (M S) := λ A x s, (inr x, s).

Global Instance M_bind {S} : MBind (M S) := λ A B f m s,
  match m s with
  | (inr x, s') => f x s'
  | (inl e, s') => (inl e, s')
  end.

Global Instance M_throw {S} : MThrow exn (M S) := λ A e s, (inl e, s).

Definition get {S} : M S S := λ s, (inr s, s).
Definition put {S} (s : S) : M S unit := λ _, (inr tt, s).

(** Lift the outcome of a pure operation: return its value or raise. *)
Definition check {S A} (r : exn + A) : M S A :=
  match r with
  | inr x => mret x
  | inl e => mthrow e
  end.

(** [try: m  except Exception as e: h e]. *)
Definition try_except {S A} (m : M S A) (h : exn → M S A) : M S A := λ s,
  match m s with
  | (inr x, s') => (inr x, s')
  | (inl e, s') => h e s'
  end.

(** [for x in l: body x]. *)
Fixpoint for_each {S A} (l : list A) (body : A → M S unit) : M S unit :=
  match l with
  | [] => mret tt
  | x :: l' => body x ;; for_each l' body
  end.

(** [[f x for x in l]]. *)
Fixpoint comprehension {S A B} (l : list A) (f : A → M S B) : M S (list B) :=
  match l with
  | [] => mret []
  | x :: l' => y ← f x; ys ← comprehension l' f; mret (y :: ys)
  end.

(** Modelled from the spec: [perfkitbenchmarker_lib.RunThreaded], which is
    not in this module.  The target is invoked for every item and the call
    returns when all have finished; one item's failure does not stop the
    others and is returned, not raised.  The items run here in list order;
    no property below depends on the order across items. *)
Fixpoint RunThreaded {S A} (target : A → M S unit) (items : list A)
  : M S (list (A * exn)) := λ s,
  match items with
  | [] => (inr [], s)
  | x :: items' =>
      match target x s with
      | (r, s') =>
          match RunThreaded target items' s' with
          | (inr fs, s'') =>
              (inr (match r with inl e => (x, e) :: fs | inr _ => fs end), s'')
          | (inl e, s'') => (inl e, s'')
          end
      end
  end.

(** ** Attribute assignment *)

(** [set_a x self] is [self] after [self.a = x]. *)
Definition set_config (x : option ConfigLoader) (self : BenchmarkSpec) : BenchmarkSpec :=
  {| config := x; vms := vms self; vm_dict := vm_dict self;
     networks := networks self; cloud := cloud self; project := project self;
     zones := zones self; image := image self;
     machine_type := machine_type self; num_vms := num_vms self;
     scratch_disk_size := scratch_disk_size self;
     scratch_disk_type := scratch_disk_type self; vm_spec := vm_spec self;
     firewall := firewall self; file_name := file_name self;
     deleted := deleted self; vm_objects := vm_objects self;
     network_objects := network_objects self |}.

Definition set_vms (x : list nat) (self : BenchmarkSpec) : BenchmarkSpec :=
  {| config := config self; vms := x; vm_dict := vm_dict self;
     networks := networks self; cloud := cloud self; project := project self;
     zones := zones self; image := image self;
     machine_type := machine_type self; num_vms := num_vms self;
     scratch_disk_size := scratch_disk_size self;
     scratch_disk_type := scratch_disk_type self; vm_spec := vm_spec self;
     firewall := firewall self; file_name := file_name self;
     deleted := deleted self; vm_objects := vm_objects self;
     network_objects := network_objects self |}.

Definition set_vm_dict (x : gmap string vm_list) (self : BenchmarkSpec) : BenchmarkSpec :=
  {| config := config self; vms := vms self; vm_dict := x;
     networks := networks self; cloud := cloud self; project := project self;
     zones := zones self; image := image self;
     machine_type := machine_type self; num_vms := num_vms self;
     scratch_disk_size := scratch_disk_size self;
     scratch_disk_type := scratch_disk_type self; vm_spec := vm_spec self;
     firewall := firewall self; file_name := file_name self;
     deleted := deleted self; vm_objects := vm_objects self;
     network_objects := network_objects self |}.

Definition set_networks (x : gmap string nat) (self : BenchmarkSpec) : BenchmarkSpec :=
  {| config := config self; vms := vms self; vm_dict := vm_dict self;
     networks := x; cloud := cloud self; project := project self;
     zones := zones self; image := image self;
     machine_type := machine_type self; num_vms := num_vms self;
     scratch_disk_size := scratch_disk_size self;
     scratch_disk_type := scratch_disk_type self; vm_spec := vm_spec self;
     firewall := firewall self; file_name := file_name self;
     deleted := deleted self; vm_objects := vm_objects self;
     network_objects := network_objects self |}.

Definition set_cloud (x : string) (self : BenchmarkSpec) : BenchmarkSpec :=
  {| config := config self; vms := vms self; vm_dict := vm_dict self;
     networks := networks self; cloud := x; project := project self;
     zones := zones self; image := image self;
     machine_type := machine_type self; num_vms := num_vms self;
     scratch_disk_size := scratch_disk_size self;
     scratch_disk_type := scratch_disk_type self; vm_spec := vm_spec self;
     firewall := firewall self; file_name := file_name self;
     deleted := deleted self; vm_objects := vm_objects self;
     network_objects := network_objects self |}.

Definition set_project (x : option string) (self : BenchmarkSpec) : BenchmarkSpec :=
  {| config := config self; vms := vms self; vm_dict := vm_dict self;
     networks := networks self; cloud := cloud self; project := x;
     zones := zones self; image := image self;
     machine_type := machine_type self; num_vms := num_vms self;
     scratch_disk_size := scratch_disk_size self;
     scratch_disk_type := scratch_disk_type self; vm_spec := vm_spec self;
     firewall := firewall self; file_name := file_name self;
     deleted := deleted self; vm_objects := vm_objects self;
     network_objects := network_objects self |}.

Definition set_zones (x : value) (self : BenchmarkSpec) : BenchmarkSpec :=
  {| config := config self; vms := vms self; vm_dict := vm_dict self;
     networks := networks self; cloud := cloud self; project := project self;
     zones := x; image := image self; machine_type := machine_type self;
     num_vms := num_vms self; scratch_disk_size := scratch_disk_size self;
     scratch_disk_type := scratch_disk_type self; vm_spec := vm_spec self;
     firewall := firewall self; file_name := file_name self;
     deleted := deleted self; vm_objects := vm_objects self;
     network_objects := network_objects self |}.

Definition set_image (x : value) (self : BenchmarkSpec) : BenchmarkSpec :=
  {| config := config self; vms := vms self; vm_dict := vm_dict self;
     networks := networks self; cloud := cloud self; project := project self;
     zones := zones self; image := x; machine_type := machine_type self;
     num_vms := num_vms self; scratch_disk_size := scratch_disk_size self;
     scratch_disk_type := scratch_disk_type self; vm_spec := vm_spec self;
     firewall := firewall self; file_name := file_name self;
     deleted := deleted self; vm_objects := vm_objects self;
     network_objects := network_objects self |}.

Definition set_machine_type (x : value) (self : BenchmarkSpec) : BenchmarkSpec :=
  {| config := config self; vms := vms self; vm_dict := vm_dict self;
     networks := networks self; cloud := cloud self; project := project self;
     zones := zones self; image := image self; machine_type := x;
     num_vms := num_vms self; scratch_disk_size := scratch_disk_size self;
     scratch_disk_type := scratch_disk_type self; vm_spec := vm_spec self;
     firewall := firewall self; file_name := file_name self;
     deleted := deleted self; vm_objects := vm_objects self;
     network_objects := network_objects self |}.

Definition set_num_vms (x : option Z) (self : BenchmarkSpec) : BenchmarkSpec :=
  {| config := config self; vms := vms self; vm_dict := vm_dict self;
     networks := networks self; cloud := cloud self; project := project self;
     zones := zones self; image := image self;
     machine_type := machine_type self; num_vms := x;
     scratch_disk_size := scratch_disk_size self;
     scratch_disk_type := scratch_disk_type self; vm_spec := vm_spec self;
     firewall := firewall self; file_name := file_name self;
     deleted := deleted self; vm_objects := vm_objects self;
     network_objects := network_objects self |}.

Definition set_scratch_disk_size (x : option Z) (self : BenchmarkSpec) : BenchmarkSpec :=
  {| config := config self; vms := vms self; vm_dict := vm_dict self;
     networks := networks self; cloud := cloud self; project := project self;
     zones := zones self; image := image self;
     machine_type := machine_type self; num_vms := num_vms self;
     scratch_disk_size := x; scratch_disk_type := scratch_disk_type self;
     vm_spec := vm_spec self; firewall := firewall self;
     file_name := file_name self; deleted := deleted self;
     vm_objects := vm_objects self;
     network_objects := network_objects self |}.

Definition set_scratch_disk_type (x : option string) (self : BenchmarkSpec) : BenchmarkSpec :=
  {| config := config self; vms := vms self; vm_dict := vm_dict self;
     networks := networks self; cloud := cloud self; project := project self;
     zones := zones self; image := image self;
     machine_type := machine_type self; num_vms := num_vms self;
     scratch_disk_size := scratch_disk_size self; scratch_disk_type := x;
     vm_spec := vm_spec self; firewall := firewall self;
     file_name := file_name self; deleted := deleted self;
     vm_objects := vm_objects self;
     network_objects := network_objects self |}.

Definition set_vm_spec (x : option BaseVirtualMachineSpec) (self : BenchmarkSpec) : BenchmarkSpec :=
  {| config := config self; vms := vms self; vm_dict := vm_dict self;
     networks := networks self; cloud := cloud self; project := project self;
     zones := zones self; image := image self;
     machine_type := machine_type self; num_vms := num_vms self;
     scratch_disk_size := scratch_disk_size self;
     scratch_disk_type := scratch_disk_type self; vm_spec := x;
     firewall := firewall self; file_name := file_name self;
     deleted := deleted self; vm_objects := vm_objects self;
     network_objects := network_objects self |}.

Definition set_firewall (x : option Firewall) (self : BenchmarkSpec) : BenchmarkSpec :=
  {| config := config self; vms := vms self; vm_dict := vm_dict self;
     networks := networks self; cloud := cloud self; project := project self;
     zones := zones self; image := image self;
     machine_type := machine_type self; num_vms := num_vms self;
     scratch_disk_size := scratch_disk_size self;
     scratch_disk_type := scratch_disk_type self; vm_spec := vm_spec self;
     firewall := x; file_name := file_name self; deleted := deleted self;
     vm_objects := vm_objects self;
     network_objects := network_objects self |}.

Definition set_file_name (x : option string) (self : BenchmarkSpec) : BenchmarkSpec :=
  {| config := config self; vms := vms self; vm_dict := vm_dict self;
     networks := networks self; cloud := cloud self; project := project self;
     zones := zones self; image := image self;
     machine_type := machine_type self; num_vms := num_vms self;
     scratch_disk_size := scratch_disk_size self;
     scratch_disk_type := scratch_disk_type self; vm_spec := vm_spec self;
     firewall := firewall self; file_name := x; deleted := deleted self;
     vm_objects := vm_objects self;
     network_objects := network_objects self |}.

Definition set_deleted (x : option bool) (self : BenchmarkSpec) : BenchmarkSpec :=
  {| config := config self; vms := vms self; vm_dict := vm_dict self;
     networks := networks self; cloud := cloud self; project := project self;
     zones := zones self; image := image self;
     machine_type := machine_type self; num_vms := num_vms self;
     scratch_disk_size := scratch_disk_size self;
     scratch_disk_type := scratch_disk_type self; vm_spec := vm_spec self;
     firewall := firewall self; file_name := file_name self; deleted := x;
     vm_objects := vm_objects self;
     network_objects := network_objects self |}.

Definition set_vm_objects (x : list VirtualMachine) (self : BenchmarkSpec) : BenchmarkSpec :=
  {| config := config self; vms := vms self; vm_dict := vm_dict self;
     networks := networks self; cloud := cloud self; project := project self;
     zones := zones self; image := image self;
     machine_type := machine_type self; num_vms := num_vms self;
     scratch_disk_size := scratch_disk_size self;
     scratch_disk_type := scratch_disk_type self; vm_spec := vm_spec self;
     firewall := firewall self; file_name := file_name self;
     deleted := deleted self; vm_objects := x;
     network_objects := network_objects self |}.

Definition set_network_objects (x : list Network) (self : BenchmarkSpec) : BenchmarkSpec :=
  {| config := config self; vms := vms self; vm_dict := vm_dict self;
     networks := networks self; cloud := cloud self; project := project self;
     zones := zones self; image := image self;
     machine_type := machine_type self; num_vms := num_vms self;
     scratch_disk_size := scratch_disk_size self;
     scratch_disk_type := scratch_disk_type self; vm_spec := vm_spec self;
     firewall := firewall self; file_name := file_name self;
     deleted := deleted self; vm_objects := vm_objects self;
     network_objects := x |}.

(** ** The methods of [BenchmarkSpec] *)

Section Methods.

Context {World Blob : Type} `{!Externals World Blob}.

(** The process-wide flags; they do not change during a run. *)
Variable FLAGS : Flags.

Local Abbreviation machine := (Machine World Blob).
Local Abbreviation process := (Process World Blob).

Definition get_self : M machine BenchmarkSpec := λ m, (inr (self m), m).

(** Apply an attribute assignment to the plan. *)
Definition assign (f : BenchmarkSpec → BenchmarkSpec) : M machine unit := λ m,
  (inr tt, {| self := f (self m); proc := proc m |}).

(** Run a computation of the process inside a method. *)
Definition in_process {A} (c : M process A) : M machine A := λ m,
  match c (proc m) with
  | (r, p) => (r, {| self := self m; proc := p |})
  end.

(** Read an attribute that may not have been assigned yet. *)
Definition getattr {S A} (name : string) (a : option A) : M S A :=
  match a with
  | Some x => mret x
  | None => mthrow (AttributeError name)
  end.

Definition emit (e : Event) : M process unit := λ p,
  (inr tt, {| world := world p; files := files p; trace := trace p ++ [e] |}).

(** A call into a provider binding: it is observed, then it returns or
    raises. *)
Definition call (c : Call) : M process unit := λ p,
  match provider_call c (world p) with
  | (r, w) =>
      (match r with Some e => inl e | None => inr tt end,
       {| world := w; files := files p; trace := trace p ++ [Called c] |})
  end.

Definition static_vm : M process (option nat) := λ p,
  match GetStaticVirtualMachine (world p) with
  | (r, w) => (inr r, {| world := w; files := files p; trace := trace p |})
  end.

(** [vm_class(vm_spec)]: a new object with an empty [disk_specs]. *)
Definition new_vm (cls : class) (spec : BaseVirtualMachineSpec) : M machine nat :=
  s ← get_self;
  assign (set_vm_objects
            (vm_objects s ++ [{| kind := Instance cls spec; disk_specs := [] |}])) ;;
  mret (length (vm_objects s)).

(** [network_class(zone)]. *)
Definition new_network (cls : class) (zone : string) : M machine nat :=
  s ← get_self;
  assign (set_network_objects
            (network_objects s ++ [{| network_class := cls; network_zone := zone |}])) ;;
  mret (length (network_objects s)).

(** [vm.disk_specs.append(disk_spec)]. *)
Definition append_disk_spec (disk_spec : BaseDiskSpec) (vm : nat) : M machine unit :=
  assign (λ s, set_vm_objects
                 (alter (λ o, {| kind := kind o;
                                 disk_specs := disk_specs o ++ [disk_spec] |})
                        vm (vm_objects s)) s).

(** The lines shared by both constructors of virtual machines:
<<
    if zone not in self.networks:
      network_class = CLASSES[self.cloud][NETWORK]
      self.networks[zone] = network_class(zone)
>> *)
Definition ensure_network (zone : string) : M machine unit :=
  s ← get_self;
  match networks s !! zone with
  | Some _ => mret tt
  | None =>
      entry ← check (getitem CLASSES (cloud s));
      net ← new_network (NETWORK entry) zone;
      assign (λ s, set_networks (<[zone := net]> (networks s)) s)
  end.

(** [opt_zone or self.zones[0]]: [None] and the empty string are false. *)
Definition zone_or_default (opt_zone : option string) (zones : value) : exn + string :=
  match opt_zone with
  | Some (String c z) => inr (String c z)
  | _ => first zones
  end.

Definition CreateVirtualMachine (opt_zone : option string) : M machine nat :=
  vm ← in_process static_vm;
  match vm with
  | Some vm => mret vm
  | None =>
      s ← get_self;
      entry ← check (getitem CLASSES (cloud s));
      let vm_class := VIRTUAL_MACHINE entry in
      zone ← check (zone_or_default opt_zone (zones s));
      ensure_network zone ;;
      s ← get_self;
      net ← check (getitem (networks s) zone);
      let spec := {| spec_project := project s; spec_zone := zone;
                     spec_machine_type := machine_type s;
                     spec_image := image s; spec_network := net |} in
      assign (set_vm_spec (Some spec)) ;;
      new_vm vm_class spec
  end.

(** [x not in self.a] followed by [self.a.append(x)]. *)
Definition append_if_absent (read : BenchmarkSpec → value)
    (write : value → BenchmarkSpec → BenchmarkSpec) (x : string) : M machine unit :=
  s ← get_self;
  present ← check (contains (read s) x);
  if present : bool then mret tt
  else v ← check (append (read s) x); assign (write v).

(** [self.vm_dict[node_name].extend(vms)]; the list may be [self.vms]
    itself. *)
Definition extend_group (node_name : string) (new : list nat) : M machine unit :=
  s ← get_self;
  l ← check (getitem (vm_dict s) node_name);
  match l with
  | SelfVms => assign (set_vms (vms s ++ new))
  | Own l => assign (set_vm_dict (<[node_name := Own (l ++ new)]> (vm_dict s)))
  end.

(** [disk_size, disk_type, mnt_point = value.split(':')] and the disk spec
    built from it. *)
Definition parse_disk_spec (cloud : string) (v : string) : exn + BaseDiskSpec :=
  match split ascii_colon v with
  | [disk_size; disk_type; mnt_point] =>
      match int disk_size with
      | inl e => inl e
      | inr disk_size =>
          match disk_alias cloud disk_type with
          | inl e => inl e
          | inr alias =>
              inr {| disk_size := disk_size; disk_type := alias;
                     mount_point := mnt_point |}
          end
      end
  | l => inl (ValueError (if bool_decide (length l < 3)%nat
                          then "need more than " +:+ pretty (length l)
                               +:+ " values to unpack"
                          else "too many values to unpack"))
  end.

Definition CreateVirtualMachineFromNodeSection
    (node_section : list (string * string)) (node_name : string) : M machine unit :=
  s ← get_self;
  zone ← check (match alist_get node_section "zone" with
                | Some z => inr z
                | None => first (zones s)
                end);
  append_if_absent zones set_zones zone ;;
  node_image ← check (alist_getitem node_section "image");
  append_if_absent image set_image node_image ;;
  vm_type ← check (alist_getitem node_section "vm_type");
  append_if_absent machine_type set_machine_type vm_type ;;
  ensure_network zone ;;
  s ← get_self;
  net ← check (getitem (networks s) zone);
  let vm_spec := {| spec_project := project s; spec_zone := zone;
                    spec_machine_type := VStr vm_type;
                    spec_image := VStr node_image; spec_network := net |} in
  entry ← check (getitem CLASSES (cloud s));
  let vm_class := VIRTUAL_MACHINE entry in
  count ← check (alist_getitem node_section "count");
  count ← check (int count);
  new ← comprehension (range count) (λ _, new_vm vm_class vm_spec);
  assign (λ s, set_vms (vms s ++ new) s) ;;
  extend_group node_name new ;;
  for_each (node_section.*1) (λ option,
    if startswith option OPTION_PD_PREFIX then
      v ← check (alist_getitem node_section option);
      s ← get_self;
      disk_spec ← check (parse_disk_spec (cloud s) v);
      for_each new (append_disk_spec disk_spec)
    else mret tt).

(** [node.split(':')[1]]. *)
Definition node_name_of (node : string) : exn + string :=
  match split ascii_colon node with
  | _ :: name :: _ => inr name
  | _ => inl IndexError
  end.

(** [FLAGS.x or default] for a string flag: [None] and the empty string are
    false. *)
Definition flag_or (flag : option string) (default : value) : value :=
  match flag with
  | Some (String c s) => VStr (String c s)
  | _ => default
  end.

Definition option_value (o : option string) : value :=
  match o with
  | Some s => VStr s
  | None => VNone
  end.

(** The dictionary [config_dict] of [__init__]: section name to options. *)
Definition config_dict (cfg : ConfigLoader) : gmap string (list (string * string)) :=
  foldl (λ d sec, <[sec.1 := sec.2]> d) ∅ (sections cfg).

(** The topology branch of [__init__]. *)
Definition init_from_config (cfg : ConfigLoader) : M machine unit :=
  cluster ← check (getitem (config_dict cfg) "cluster");
  type ← check (alist_getitem cluster "type");
  assign (set_cloud type) ;;
  cluster_project ← check (alist_getitem cluster "project");
  assign (set_project (Some cluster_project)) ;;
  cluster_zone ← check (alist_getitem cluster "zone");
  assign (set_zones (VList [cluster_zone])) ;;
  assign (set_image (VList [])) ;;
  assign (set_machine_type (VList [])) ;;
  for_each (node_sections cfg) (λ node,
    name ← check (node_name_of node);
    assign (λ s, set_vm_dict (<[name := Own []]> (vm_dict s)) s)) ;;
  args ← comprehension (node_sections cfg) (λ node,
    sec ← check (getitem (config_dict cfg) node);
    name ← check (node_name_of node);
    mret (sec, name));
  RunThreaded (λ a, CreateVirtualMachineFromNodeSection a.1 a.2) args ;;
  s ← get_self;
  assign (set_num_vms (Some (Z.of_nat (length (vms s))))) ;;
  joined ← check (join_value "," (image s));
  assign (set_image (VStr joined)) ;;
  joined ← check (join_value "," (zones s));
  assign (set_zones (VStr joined)) ;;
  joined ← check (join_value "," (machine_type s));
  assign (set_machine_type (VStr joined)).

(** The flag branch of [__init__]. *)
Definition init_from_flags (benchmark_info : BenchmarkInfo) : M machine unit :=
  assign (set_cloud (FLAGS_cloud FLAGS)) ;;
  assign (set_project (FLAGS_project FLAGS)) ;;
  s ← get_self;
  defaults ← check (getitem DEFAULTS (cloud s));
  assign (set_zones (VList (match FLAGS_zones FLAGS with
                            | [] => [ZONE defaults]
                            | l => l
                            end))) ;;
  assign (set_image (flag_or (FLAGS_image FLAGS) (option_value (IMAGE defaults)))) ;;
  assign (set_machine_type
            (flag_or (FLAGS_machine_type FLAGS) (VStr (MACHINE_TYPE defaults)))) ;;
  let n := match info_num_machines benchmark_info with
           | None => FLAGS_num_vms FLAGS
           | Some n => n
           end in
  assign (set_num_vms (Some n)) ;;
  assign (set_scratch_disk_size (Some (FLAGS_scratch_disk_size FLAGS))) ;;
  assign (set_scratch_disk_type (Some (FLAGS_scratch_disk_type FLAGS))) ;;
  new ← comprehension (range n) (λ index,
    s ← get_self;
    count ← check (len (zones s));
    zone ← check (item (zones s) (Z.min (Z.of_nat index) (count - 1)));
    CreateVirtualMachine (Some zone));
  assign (set_vms new) ;;
  assign (λ s, set_vm_dict (<["default" := SelfVms]> (vm_dict s)) s) ;;
  for_each (range (info_scratch_disk benchmark_info)) (λ i,
    s ← get_self;
    alias ← check (disk_alias (cloud s) STANDARD);
    let disk_spec := {| disk_size := FLAGS_scratch_disk_size FLAGS;
                        disk_type := alias;
                        mount_point := "/scratch" +:+ pretty i |} in
    for_each (vms s) (append_disk_spec disk_spec)).

Definition init_body (benchmark_info : BenchmarkInfo) : M machine unit :=
  match FLAGS_benchmark_config_pair FLAGS !! info_name benchmark_info with
  | Some cfg => assign (set_config (Some cfg))
  | None => mret tt
  end ;;
  assign (set_vms []) ;;
  assign (set_vm_dict {["default" := Own []]}) ;;
  assign (set_networks ∅) ;;
  s ← get_self;
  match config s with
  | Some cfg => init_from_config cfg
  | None => init_from_flags benchmark_info
  end ;;
  s ← get_self;
  entry ← check (getitem CLASSES (cloud s));
  assign (set_firewall (Some {| firewall_class := FIREWALL entry;
                                firewall_project := project s |})) ;;
  tmp ← in_process (λ p, (inr (GetTempDir (world p)), p));
  assign (set_file_name (Some (tmp +:+ "/" +:+ info_name benchmark_info))) ;;
  assign (set_deleted (Some false)).

(** The object before [__init__] has assigned anything.  [static_objects]
    are the virtual machines of the static pool, which exist before the
    plan does; [GetStaticVirtualMachine] names them by their index. *)
Definition blank (static_objects : list VirtualMachine) : BenchmarkSpec :=
  {| config := None; vms := []; vm_dict := ∅; networks := ∅; cloud := "";
     project := None; zones := VNone; image := VNone; machine_type := VNone;
     num_vms := None; scratch_disk_size := None; scratch_disk_type := None;
     vm_spec := None; firewall := None; file_name := None; deleted := None;
     vm_objects := static_objects; network_objects := [] |}.

(** [BenchmarkSpec(benchmark_info)]: the new plan, or the exception that
    ended its construction. *)
Definition __init__ (static_objects : list VirtualMachine)
    (benchmark_info : BenchmarkInfo) : M process BenchmarkSpec := λ p,
  match init_body benchmark_info {| self := blank static_objects; proc := p |} with
  | (inr _, m) => (inr (self m), proc m)
  | (inl e, m) => (inl e, proc m)
  end.

Definition PrepareNetwork (network : nat) : M machine unit :=
  in_process (call (NetworkCreate network)).

Definition PrepareVm (vm : nat) (firewall : Firewall) : M machine unit :=
  in_process (call (VmCreate vm)) ;;
  ip ← in_process (λ p, (inr (ip_address vm (world p)), p));
  in_process (emit (LogInfo ("VM: " +:+ ip))) ;;
  in_process (emit (LogInfo "Waiting for boot completion.")) ;;
  in_process (call (FirewallAllowPort firewall vm SSH_PORT)) ;;
  in_process (call (VmWaitForBootCompletion vm)) ;;
  in_process (call (VmAptUpdate vm)) ;;
  s ← get_self;
  for_each (vm_disk_specs s vm) (λ disk_spec,
    in_process (call (VmCreateScratchDisk vm disk_spec))) ;;
  in_process (call (BurnCpu vm)).

(** The dictionary [self.networks] is iterated in the order of
    [map_to_list]; Python fixes no order for it. *)
Definition Prepare : M machine unit :=
  s ← get_self;
  (if bool_decide (networks s = ∅) then mret tt
   else RunThreaded PrepareNetwork ((map_to_list (networks s)).*2) ;; mret tt) ;;
  s ← get_self;
  match vms s with
  | [] => mret tt
  | _ =>
      prepare_args ← comprehension (vms s) (λ vm,
        s ← get_self;
        fw ← getattr "firewall" (firewall s);
        mret (vm, fw));
      RunThreaded (λ a, PrepareVm a.1 a.2) prepare_args ;; mret tt
  end.

Definition DeleteVm (vm : nat) : M machine unit :=
  in_process (call (VmDelete vm)) ;;
  in_process (call (VmDeleteScratchDisks vm)).

Definition Delete : M machine unit :=
  s ← get_self;
  stop ← (if bool_decide (FLAGS_run_stage FLAGS ∉ ["all"; "cleanup"]) then mret true
          else getattr "deleted" (deleted s));
  if stop : bool then mret tt
  else
    match vms s with
    | [] => mret tt
    | _ => RunThreaded DeleteVm (vms s) ;; mret tt
    end ;;
    fw ← getattr "firewall" (firewall s);
    in_process (call (FirewallDisallowAllPorts fw)) ;;
    for_each (map_to_list (networks s)) (λ zn,
      s ← get_self;
      net ← check (getitem (networks s) zn.1);
      in_process (call (NetworkDelete net))) ;;
    assign (set_deleted (Some true)).

(** [open(path, 'wb')] followed by writing [data] and closing. *)
Definition write_file (path : string) (data : Blob) : M process unit := λ p,
  let store f := {| world := world p; files := <[path := f]> (files p);
                    trace := trace p |} in
  match files p !! path with
  | Some f =>
      if f_writable f
      then (inr tt, store {| f_readable := f_readable f; f_writable := true;
                             f_data := data |})
      else (inl (IOError path), p)
  | None =>
      (inr tt, store {| f_readable := true; f_writable := true; f_data := data |})
  end.

(** [open(path, 'rb')] followed by reading everything. *)
Definition read_file (path : string) : M process Blob := λ p,
  match files p !! path with
  | Some f => if f_readable f then (inr (f_data f), p) else (inl (IOError path), p)
  | None => (inl (IOError path), p)
  end.

Definition PickleSpec : M machine unit :=
  s ← get_self;
  path ← getattr "file_name" (file_name s);
  in_process (write_file path (pickle_dump s)).

Definition GetSpecFromFile (name : string) : M process BenchmarkSpec :=
  p ← get;
  let file_name := GetTempDir (world p) +:+ "/" +:+ name in
  try_except
    (data ← read_file file_name;
     check (pickle_load data))
    (λ e,
      emit (LogError ("Unable to unpickle spec file for benchmark " +:+ name +:+ ".")) ;;
      mthrow e).

End Methods.

(** ** A concrete world

    The static pool is the world: [GetStaticVirtualMachine] hands out its
    head.  Provider calls fail as [fails] says.  A pickled plan is the plan
    itself; [None] is a file that does not unpickle. *)

Module Sample.

Definition externals (fails : Call → option exn) : Externals (list nat) (option BenchmarkSpec) :=
  {| GetStaticVirtualMachine w :=
       match w with
       | [] => (None, [])
       | vm :: w' => (Some vm, w')
       end;
     provider_call c w := (fails c, w);
     ip_address vm w := "10.0.0." +:+ pretty vm;
     GetTempDir w := "/tmp/perfkitbenchmarker";
     OPTION_PD_PREFIX := "pd_";
     pickle_dump s := Some s;
     pickle_load b := match b with Some s => inr s | None => inl UnpicklingError end |}.

Definition reliable : Call → option exn := λ _, None.

(** A provider whose firewall cannot revoke its rules. *)
Definition stuck_firewall : Call → option exn := λ c,
  match c with
  | FirewallDisallowAllPorts _ => Some (ProviderError "DisallowAllPorts failed")
  | _ => None
  end.

Definition flags : Flags :=
  {| FLAGS_benchmark_config_pair := ∅;
     FLAGS_cloud := GCP;
     FLAGS_project := Some "my-project";
     FLAGS_zones := ["z1"; "z2"];
     FLAGS_image := None;
     FLAGS_machine_type := None;
     FLAGS_num_vms := 5;
     FLAGS_scratch_disk_size := 500;
     FLAGS_scratch_disk_type := "standard";
     FLAGS_run_stage := "all" |}.

Definition info : BenchmarkInfo :=
  {| info_name := "iperf"; info_num_machines := None; info_scratch_disk := 1 |}.

Definition process0 : Process (list nat) (option BenchmarkSpec) :=
  {| world := []; files := ∅; trace := [] |}.

End Sample.

(** ** Predicates on computations *)

(** [m] keeps [I], whether it returns or raises. *)
Definition keeps {S A} (I : S → Prop) (m : M S A) : Prop :=
  ∀ s, I s → I (m s).2.

(** A property of the plan, as a property of the machine. *)
Definition on_self {World Blob} (P : BenchmarkSpec → Prop)
  : Machine World Blob → Prop := λ m, P (self m).

(** ** Vocabulary of the properties *)

(** The provider identifiers the tables know. *)
Definition registered : list string := [GCP; AZURE; AWS].

(** The run stages in which [Delete] does anything. *)
Definition cleanup_stage (FLAGS : Flags) : Prop :=
  FLAGS_run_stage FLAGS ∈ ["all"; "cleanup"].

(** The provider a construction resolves: the flag, or the type of the
    cluster section when the benchmark is paired with a configuration. *)
Definition resolves (FLAGS : Flags) (info : BenchmarkInfo) (provider : string) : Prop :=
  match FLAGS_benchmark_config_pair FLAGS !! info_name info with
  | None => FLAGS_cloud FLAGS = provider
  | Some cfg =>
      ∃ cluster, config_dict cfg !! "cluster" = Some cluster ∧
                 alist_get cluster "type" = Some provider
  end.

(** A call that changes nothing and is seen by nobody. *)
Definition no_op {S} (m : M S unit) (s : S) : Prop := m s = (inr tt, s).

(** The sample plan: five virtual machines in two zones, built from flags
    on a provider that never fails. *)
Module SamplePlan.

Definition plan : BenchmarkSpec :=
  Eval vm_compute in
    match __init__ (Externals0 := Sample.externals Sample.reliable)
            Sample.flags [] Sample.info Sample.process0 with
    | (inr s, _) => s
    | (inl _, _) => blank []
    end.

Definition machine : Machine (list nat) (option BenchmarkSpec) :=
  {| self := plan; proc := Sample.process0 |}.

End SamplePlan.

(** A second [Delete] is idle: it leaves the machine as the first left it,
    so it adds no provider call to the trace. *)
Definition second_Delete_idle `{!Externals World Blob} (FLAGS : Flags)
    (m : Machine World Blob) : Prop :=
  no_op (Delete FLAGS) (Delete FLAGS m).2.

(** The provider calls among the events. *)
Definition provider_calls (events : list Event) : list Call :=
  omap (λ e, match e with Called c => Some c | _ => None end) events.

(** The sample plan on a provider whose firewall cannot revoke its rules. *)
Module StuckFirewall.

Definition externals := Sample.externals Sample.stuck_firewall.

Definition once : Machine (list nat) (option BenchmarkSpec) :=
  (Delete (Externals0 := externals) Sample.flags SamplePlan.machine).2.

Definition twice : Machine (list nat) (option BenchmarkSpec) :=
  (Delete (Externals0 := externals) Sample.flags once).2.

End StuckFirewall.

(** [emits c m L]: run from [m], [c] leaves the plan as it is and adds the
    events [L] to the trace, in this order: all of them when it returns, and
    when it raises those up to the provider call that raised. *)
Definition emits `{!Externals World Blob} {A} (c : M (Machine World Blob) A)
    (m : Machine World Blob) (L : list Event) : Prop :=
  self (c m).2 = self m ∧
  ∃ done,
    trace (proc (c m).2) = trace (proc m) ++ done ∧
    done `prefix_of` L ∧
    (∀ x, (c m).1 = inr x → done = L) ∧
    (∀ e, (c m).1 = inl e →
       ∃ call w, last done = Some (Called call) ∧ (provider_call call w).1 = Some e).

(** What [PrepareVm] does to a virtual machine with the given pending disk
    specs, [ip] being the address logged after creation. *)
Definition prepare_steps (vm : nat) (firewall : Firewall) (ip : string)
    (disk_specs : list BaseDiskSpec) : list Event :=
  [Called (VmCreate vm);
   LogInfo ("VM: " +:+ ip);
   LogInfo "Waiting for boot completion.";
   Called (FirewallAllowPort firewall vm 22);
   Called (VmWaitForBootCompletion vm);
   Called (VmAptUpdate vm)]
  ++ ((λ d, Called (VmCreateScratchDisk vm d)) <$> disk_specs)
  ++ [Called (BurnCpu vm)].


(** The provider calls of [prepare_steps]. *)
Definition prepare_calls (vm : nat) (firewall : Firewall)
    (disk_specs : list BaseDiskSpec) : list Call :=
  [VmCreate vm;
   FirewallAllowPort firewall vm 22;
   VmWaitForBootCompletion vm;
   VmAptUpdate vm]
  ++ (VmCreateScratchDisk vm <$> disk_specs)
  ++ [BurnCpu vm].

(** The snapshot of benchmark [name] under the temporary directory [tmp]. *)
Definition snapshot_path (tmp name : string) : string := tmp +:+ "/" +:+ name.

(** The snapshot is missing, or it cannot be read: the file is not readable
    or its content does not unpickle. *)
Definition missing_or_unreadable `{!Externals World Blob}
    (p : Process World Blob) (path : string) : Prop :=
  match files p !! path with
  | None => True
  | Some f => f_readable f = false ∨ ∃ e, pickle_load (f_data f) = inl e
  end.

(** The file can be written and read back: it does not exist yet, or it is
    both writable and readable. *)
Definition usable {Blob} (fs : gmap string (File Blob)) (path : string) : Prop :=
  match fs !! path with
  | None => True
  | Some f => f_writable f = true ∧ f_readable f = true
  end.

(** The process after the failure to load [name] was logged. *)
Definition logged_failure {World Blob} (p : Process World Blob) (name : string)
  : Process World Blob :=
  {| world := world p; files := files p;
     trace := trace p
              ++ [LogError ("Unable to unpickle spec file for benchmark "
                            +:+ name +:+ ".")] |}.

(** A process in which the sample plan was saved under another name. *)
Module Elsewhere.

Definition process : Process (list nat) (option BenchmarkSpec) :=
  (PickleSpec (Externals0 := Sample.externals Sample.reliable)
     SamplePlan.machine).2.(proc).

End Elsewhere.

(** One network per zone: every entry of [networks] names a network object
    made for that zone, every network object is the entry of its own zone,
    and there are as many network objects as zones. *)
Definition one_network_per_zone (s : BenchmarkSpec) : Prop :=
  (∀ zone n, networks s !! zone = Some n →
     ∃ cls, network_objects s !! n
            = Some {| network_class := cls; network_zone := zone |}) ∧
  (∀ n net, network_objects s !! n = Some net →
     networks s !! network_zone net = Some n) ∧
  length (network_objects s) = size (networks s).

(** Every virtual machine the plan constructed holds the network object
    that [networks] has for its zone. *)
Definition vms_share_zone_network (s : BenchmarkSpec) : Prop :=
  ∀ vm o cls spec,
    vm_objects s !! vm = Some o → kind o = Instance cls spec →
    networks s !! spec_zone spec = Some (spec_network spec).

(** The networks of [s] are still the networks of their zones in [s']. *)
Definition networks_kept (s s' : BenchmarkSpec) : Prop :=
  ∀ zone n, networks s !! zone = Some n → networks s' !! zone = Some n.

(** A call that constructs virtual machines. *)
Inductive construction : Type :=
| ByCreateVirtualMachine (opt_zone : option string)
| ByNodeSection (node_section : list (string * string)) (node_name : string).

Definition construct `{!Externals World Blob} (c : construction)
  : M (Machine World Blob) unit :=
  match c with
  | ByCreateVirtualMachine opt_zone => CreateVirtualMachine opt_zone ;; mret tt
  | ByNodeSection node_section node_name =>
      CreateVirtualMachineFromNodeSection node_section node_name
  end.

(** The machine after a sequence of such calls, whether they return or
    raise. *)
Fixpoint construct_all `{!Externals World Blob} (cs : list construction)
    (m : Machine World Blob) : Machine World Blob :=
  match cs with
  | [] => m
  | c :: cs' => construct_all cs' (construct c m).2
  end.

(** What every construction keeps, [s0] being the plan they started from. *)
Definition construction_invariant (s0 s : BenchmarkSpec) : Prop :=
  one_network_per_zone s ∧ vms_share_zone_network s ∧ networks_kept s0 s.

(** The options of a node section that declare a persistent disk, in the
    order of the section. *)
Definition pd_options `{!Externals World Blob} (node_section : list (string * string))
  : list string :=
  filter (λ option, startswith option OPTION_PD_PREFIX = true) node_section.*1.

(** The disk spec that option [option] of the section declares for a
    provider. *)
Definition declared_disk (cloud : string) (node_section : list (string * string))
    (option : string) : exn + BaseDiskSpec :=
  match alist_getitem node_section option with
  | inl e => inl e
  | inr v => parse_disk_spec cloud v
  end.

(** A virtual machine made from [spec] that carries the disk specs [ds]. *)
Definition instance_with (cls : class) (spec : BaseVirtualMachineSpec)
    (ds : list BaseDiskSpec) : VirtualMachine :=
  {| kind := Instance cls spec; disk_specs := ds |}.

(** The plan [s] is under construction from a topology and the section
    names what the constructor reads: the summary attributes are lists, the
    provider is registered with entry [entry], the group [node_name] has its
    own list, the section resolves to [zone] and has an image, a machine
    type and the count [count], which reads as the integer [n]. *)
Definition section_resolves (s : BenchmarkSpec) (node_section : list (string * string))
    (node_name zone node_image vm_type count : string) (n : Z)
    (entry : classes_entry) (members : list nat) : Prop :=
  (∃ l, zones s = VList l) ∧ (∃ l, image s = VList l) ∧
  (∃ l, machine_type s = VList l) ∧
  match alist_get node_section "zone" with
  | Some z => inr z
  | None => first (zones s)
  end = inr zone ∧
  alist_get node_section "image" = Some node_image ∧
  alist_get node_section "vm_type" = Some vm_type ∧
  alist_get node_section "count" = Some count ∧ int count = inr n ∧
  getitem CLASSES (cloud s) = inr entry ∧
  vm_dict s !! node_name = Some (Own members).

(** The node group [node_name] of [s'] is that of [s] extended by [count]
    new virtual machines, all of the provider's class, in [zone] on the
    network of that zone, with the image and machine type of the section,
    and each carrying exactly the disk specs [ds]. *)
Definition node_group_built (s s' : BenchmarkSpec) (node_name zone node_image vm_type : string)
    (entry : classes_entry) (members : list nat) (count : nat)
    (ds : list BaseDiskSpec) : Prop :=
  let new := seq (length (vm_objects s)) count in
  ∃ net,
    networks s' !! zone = Some net ∧
    vms s' = vms s ++ new ∧
    group s' node_name = Some (members ++ new) ∧
    length new = count ∧
    ∀ vm, vm ∈ new →
      vm_objects s' !! vm
      = Some (instance_with (VIRTUAL_MACHINE entry)
                {| spec_project := project s; spec_zone := zone;
                   spec_machine_type := VStr vm_type;
                   spec_image := VStr node_image; spec_network := net |}
                ds).

(** A plan under construction from a topology on GCP, before its node
    section "workers" is resolved, and that section. *)
Module SampleTopology.

Definition node_section : list (string * string) :=
  [("image", "debian-7-backports"); ("vm_type", "n1-standard-4");
   ("count", "3"); ("pd_scratch0", "100:ssd:/scratch0")].

Definition plan : BenchmarkSpec :=
  set_vm_dict {["default" := Own []; "workers" := Own []]}
    (set_machine_type (VList [])
       (set_image (VList [])
          (set_zones (VList ["us-central1-a"])
             (set_project (Some "my-project") (set_cloud GCP (blank [])))))).

Definition machine : Machine (list nat) (option BenchmarkSpec) :=
  {| self := plan; proc := Sample.process0 |}.

(** The same section read from a configuration by [__init__]. *)
Definition flags : Flags :=
  {| FLAGS_benchmark_config_pair :=
       {["iperf" :=
           {| sections := [("cluster", [("type", "GCP"); ("project", "my-project");
                                        ("zone", "us-central1-a")]);
                           ("node:workers", node_section)];
              node_sections := ["node:workers"] |}]};
     FLAGS_cloud := GCP; FLAGS_project := None; FLAGS_zones := [];
     FLAGS_image := None; FLAGS_machine_type := None; FLAGS_num_vms := 1;
     FLAGS_scratch_disk_size := 500; FLAGS_scratch_disk_type := "standard";
     FLAGS_run_stage := "all" |}.

End SampleTopology.

(** The zone the design document gives the virtual machine at index [i] of
    a zone list: [Z[min(i, len(Z) - 1)]]. *)
Definition assigned_zone (Z : list string) (i : nat) : option string :=
  Z !! (i `min` (length Z - 1))%nat.

(** [vm_class] and [vm_spec] of the object named [vm], none for a virtual
    machine of the static pool. *)
Definition kind_of (s : BenchmarkSpec) (vm : nat) : option vm_kind :=
  kind <$> vm_objects s !! vm.

(** The zone of the virtual machine at index [i] of [self.vms], when the
    plan constructed it. *)
Definition zone_of_vm (s : BenchmarkSpec) (i : nat) : option string :=
  vm ← vms s !! i;
  k ← kind_of s vm;
  match k with
  | Instance _ spec => Some (spec_zone spec)
  | StaticVirtualMachine => None
  end.

(** [FLAGS.zones or [defaults[ZONE]]] and the number of virtual machines
    that [__init__] resolves from the flags. *)
Definition resolved_zones (FLAGS : Flags) (defaults : defaults_entry) : list string :=
  match FLAGS_zones FLAGS with
  | [] => [ZONE defaults]
  | l => l
  end.

Definition resolved_num_vms (FLAGS : Flags) (benchmark_info : BenchmarkInfo) : Z :=
  match info_num_machines benchmark_info with
  | None => FLAGS_num_vms FLAGS
  | Some n => n
  end.

(** What constructing virtual machines and attaching disk specs leaves as
    it is: provider, zones, project and [self.vms]; the objects that were
    there are still there, of the same kind. *)
Definition settled (s0 s : BenchmarkSpec) : Prop :=
  cloud s = cloud s0 ∧ zones s = zones s0 ∧ project s = project s0 ∧
  vms s = vms s0 ∧ (kind <$> vm_objects s0) `prefix_of` (kind <$> vm_objects s).

(** What [n] calls of [GetStaticVirtualMachine] in a row answer. *)
Fixpoint pool_answers `{!Externals World Blob} (n : nat) (w : World)
  : list (option nat) :=
  match n with
  | O => []
  | S n' => (GetStaticVirtualMachine w).1
            :: pool_answers n' (GetStaticVirtualMachine w).2
  end.

(** Flags that list an empty zone after a real one. *)
Module EmptyZone.

Definition flags : Flags :=
  {| FLAGS_benchmark_config_pair := ∅;
     FLAGS_cloud := GCP;
     FLAGS_project := Some "my-project";
     FLAGS_zones := ["z1"; ""];
     FLAGS_image := None;
     FLAGS_machine_type := None;
     FLAGS_num_vms := 2;
     FLAGS_scratch_disk_size := 500;
     FLAGS_scratch_disk_type := "standard";
     FLAGS_run_stage := "all" |}.

Definition plan : BenchmarkSpec :=
  Eval vm_compute in
    match __init__ (Externals0 := Sample.externals Sample.reliable)
            flags [] Sample.info Sample.process0 with
    | (inr s, _) => s
    | (inl _, _) => blank []
    end.

End EmptyZone.

(** ** Vocabulary of the further properties *)

(** A property of the process, as a property of the machine. *)
Definition on_proc {World Blob} (P : Process World Blob → Prop)
  : Machine World Blob → Prop := λ m, P (proc m).

(** [adds_only φ c]: whatever [c] adds to the trace satisfies [φ], whether
    [c] returns or raises. *)
Definition adds_only {World Blob A} (φ : Event → Prop)
    (c : M (Machine World Blob) A) : Prop :=
  ∀ m, ∃ done, trace (proc (c m).2) = trace (proc m) ++ done ∧ Forall φ done.

(** [makes c m L g]: run from [m], [c] returns, has made exactly the
    provider calls [L], in this order, and has turned the plan [s] into
    [g s]. *)
Definition makes {World Blob A} (c : M (Machine World Blob) A)
    (m : Machine World Blob) (L : list Call) (g : BenchmarkSpec → BenchmarkSpec)
  : Prop :=
  (∃ x, (c m).1 = inr x) ∧
  self (c m).2 = g (self m) ∧
  provider_calls (trace (proc (c m).2)) = provider_calls (trace (proc m)) ++ L.

(** No provider call raises. *)
Definition reliable_provider `{!Externals World Blob} : Prop :=
  ∀ call w, (provider_call call w).1 = None.

(** The events of a preparation: log records and calls that create or
    set up; and the events of a teardown: calls that delete or revoke. *)
Definition prepares (e : Event) : Prop :=
  match e with
  | LogInfo _ => True
  | Called (VmCreate _ | VmWaitForBootCompletion _ | VmAptUpdate _
           | VmCreateScratchDisk _ _ | BurnCpu _ | FirewallAllowPort _ _ _
           | NetworkCreate _) => True
  | _ => False
  end.

Definition tears_down (e : Event) : Prop :=
  match e with
  | Called (VmDelete _ | VmDeleteScratchDisks _ | FirewallDisallowAllPorts _
           | NetworkDelete _) => True
  | _ => False
  end.

(** The provider calls of a [Delete] that runs to its end, the items of
    each batch in the order of their list. *)
Definition delete_calls (s : BenchmarkSpec) (fw : Firewall) : list Call :=
  concat ((λ vm, [VmDelete vm; VmDeleteScratchDisks vm]) <$> vms s)
  ++ [FirewallDisallowAllPorts fw]
  ++ (NetworkDelete <$> (map_to_list (networks s)).*2).

(** The provider calls of a [Prepare] in which nothing fails, the items of
    each batch in the order of their list. *)
Definition prepare_all_calls (s : BenchmarkSpec) (fw : Firewall) : list Call :=
  (NetworkCreate <$> (map_to_list (networks s)).*2)
  ++ concat ((λ vm, prepare_calls vm fw (vm_disk_specs s vm)) <$> vms s).

(** The attributes that constructing a virtual machine may assign are
    blanked: two plans with the same image under [registry_blanked] differ
    at most in [networks], [vm_spec] and the two object stores. *)
Definition registry_blanked (s : BenchmarkSpec) : BenchmarkSpec :=
  set_networks ∅ (set_network_objects [] (set_vm_objects [] (set_vm_spec None s))).

(** Each summary attribute that is a list has no value twice. *)
Definition no_duplicates (v : value) : Prop :=
  match v with
  | VList l => NoDup l
  | _ => True
  end.

Definition summaries_distinct (s : BenchmarkSpec) : Prop :=
  no_duplicates (zones s) ∧ no_duplicates (image s) ∧
  no_duplicates (machine_type s).

(** Character [c] occurs in [s]. *)
Fixpoint occurs (c : ascii) (s : string) : bool :=
  match s with
  | EmptyString => false
  | String a s' => Ascii.eqb a c || occurs c s'
  end.

(** The literal ["<size>:<type>:<mount point>"] of a persistent disk. *)
Definition pd_literal (size type mnt_point : string) : string :=
  size +:+ ":" +:+ type +:+ ":" +:+ mnt_point.

(** The disk spec of scratch disk [i] of a plan built from flags. *)
Definition scratch_disk_spec (FLAGS : Flags) (alias : option string) (i : nat)
  : BaseDiskSpec :=
  {| disk_size := FLAGS_scratch_disk_size FLAGS;
     disk_type := alias;
     mount_point := "/scratch" +:+ pretty i |}.

(** The disk specs the objects of the store carry, by reference. *)
Definition carried (objs : list VirtualMachine) : list (list BaseDiskSpec) :=
  disk_specs <$> objs.

(** A plan under construction from a topology: provider and project are
    those of the cluster section, the summary attributes are lists, and
    [zones] begins with the zone of the cluster. *)
Definition of_cluster (type cluster_project cluster_zone : string) (s : BenchmarkSpec)
  : Prop :=
  cloud s = type ∧ project s = Some cluster_project ∧
  (∃ zs, zones s = VList (cluster_zone :: zs)) ∧
  (∃ l, image s = VList l) ∧ (∃ l, machine_type s = VList l).

(** Every node section of the list has a name, and the plan a group of
    that name. *)
Definition groups_listed (nodes : list string) (s : BenchmarkSpec) : Prop :=
  Forall (λ node, ∃ name, node_name_of node = inr name ∧ is_Some (vm_dict s !! name))
    nodes.

(** The plan that [__init__] builds from the sample topology. *)
Module TopologyPlan.

Definition plan : BenchmarkSpec :=
  Eval vm_compute in
    match __init__ (Externals0 := Sample.externals Sample.reliable)
            SampleTopology.flags [] Sample.info Sample.process0 with
    | (inr s, _) => s
    | (inl _, _) => blank []
    end.

End TopologyPlan.

(** A configuration whose node section is listed under a name without a
    colon. *)
Module Colonless.

Definition cfg : ConfigLoader :=
  {| sections := [("cluster", [("type", "GCP"); ("project", "my-project");
                               ("zone", "us-central1-a")]);
                  ("workers", SampleTopology.node_section)];
     node_sections := ["workers"] |}.

Definition flags : Flags :=
  {| FLAGS_benchmark_config_pair := {["iperf" := cfg]};
     FLAGS_cloud := GCP; FLAGS_project := None; FLAGS_zones := [];
     FLAGS_image := None; FLAGS_machine_type := None; FLAGS_num_vms := 1;
     FLAGS_scratch_disk_size := 500; FLAGS_scratch_disk_type := "standard";
     FLAGS_run_stage := "all" |}.

End Colonless.

(** * Properties *)

(** ** Running computations *)

Section Rules.

Context {S : Type}.

Lemma run_bind {A B} (m : M S A) (f : A → M S B) s :
  (m ≫= f) s = match m s with
               | (inr x, s') => f x s'
               | (inl e, s') => (inl e, s')
               end.
Proof. reflexivity. Qed.

Lemma run_bind_inr {A B} (m : M S A) (f : A → M S B) s x s' :
  m s = (inr x, s') → (m ≫= f) s = f x s'.
Proof. intros H. rewrite run_bind, H. reflexivity. Qed.

Lemma run_bind_inl {A B} (m : M S A) (f : A → M S B) s e s' :
  m s = (inl e, s') → (m ≫= f) s = (inl e, s').
Proof. intros H. rewrite run_bind, H. reflexivity. Qed.

Lemma run_check_inr {A} (x : A) (s : S) : check (inr x) s = (inr x, s).
Proof. reflexivity. Qed.

Lemma run_check_inl {A} e (s : S) : check (A := A) (inl e) s = (inl e, s).
Proof. reflexivity. Qed.

Lemma run_ret {A} (x : A) (s : S) : mret (M := M S) x s = (inr x, s).
Proof. reflexivity. Qed.

Lemma run_throw {A} (e : exn) (s : S) :
  mthrow (M := M S) (A := A) e s = (inl e, s).
Proof. reflexivity. Qed.

Lemma run_bind_ret {A B} (x : A) (f : A → M S B) s : (mret x ≫= f) s = f x s.
Proof. reflexivity. Qed.

Lemma run_bind_throw {A B} (e : exn) (f : A → M S B) s :
  (mthrow e ≫= f) s = (inl e, s).
Proof. reflexivity. Qed.

Lemma run_bind_check_inr {A B} (x : A) (f : A → M S B) s :
  (check (inr x) ≫= f) s = f x s.
Proof. reflexivity. Qed.

Lemma run_bind_check_inl {A B} (e : exn) (f : A → M S B) s :
  (check (inl e) ≫= f) s = (inl e, s).
Proof. reflexivity. Qed.

Lemma run_bind_getattr {A B} name (x : A) (f : A → M S B) s :
  (getattr name (Some x) ≫= f) s = f x s.
Proof. reflexivity. Qed.

Lemma run_bind_get {B} (f : S → M S B) s : (get ≫= f) s = f s s.
Proof. reflexivity. Qed.

Lemma run_bind_assoc {A B C} (m : M S A) (f : A → M S B) (g : B → M S C) s :
  ((m ≫= f) ≫= g) s = (m ≫= λ x, f x ≫= g) s.
Proof. rewrite !run_bind. destruct (m s) as [[e|x] s']; reflexivity. Qed.

Lemma keeps_ret {A} (I : S → Prop) (x : A) : keeps I (mret x).
Proof. intros s H. exact H. Qed.

Lemma keeps_throw {A} (I : S → Prop) (e : exn) : keeps I (mthrow (A := A) e).
Proof. intros s H. exact H. Qed.

Lemma keeps_check {A} (I : S → Prop) (r : exn + A) : keeps I (check r).
Proof. destruct r; [apply keeps_throw | apply keeps_ret]. Qed.

Lemma keeps_getattr {A} (I : S → Prop) name (a : option A) :
  keeps I (getattr name a).
Proof. destruct a; [apply keeps_ret | apply keeps_throw]. Qed.

Lemma keeps_get (I : S → Prop) : keeps I get.
Proof. intros s H. exact H. Qed.

Lemma keeps_bind {A B} (I : S → Prop) (m : M S A) (f : A → M S B) :
  keeps I m → (∀ x, keeps I (f x)) → keeps I (m ≫= f).
Proof.
  intros Hm Hf s H. specialize (Hm s H). rewrite run_bind.
  destruct (m s) as [[e|x] s']; simpl in *; [exact Hm | apply Hf, Hm].
Qed.

Lemma keeps_if {A} (I : S → Prop) (b : bool) (m1 m2 : M S A) :
  keeps I m1 → keeps I m2 → keeps I (if b then m1 else m2).
Proof. destruct b; auto. Qed.

Lemma keeps_try_except {A} (I : S → Prop) (m : M S A) h :
  keeps I m → (∀ e, keeps I (h e)) → keeps I (try_except m h).
Proof.
  intros Hm Hh s H. specialize (Hm s H). unfold try_except.
  destruct (m s) as [[e|x] s']; simpl in *; [apply Hh, Hm | exact Hm].
Qed.

Lemma keeps_for_each {A} (I : S → Prop) (l : list A) body :
  (∀ x, keeps I (body x)) → keeps I (for_each l body).
Proof.
  intros Hb. induction l as [|x l IH]; simpl.
  - apply keeps_ret.
  - apply keeps_bind; [apply Hb | intros _; exact IH].
Qed.

Lemma keeps_comprehension {A B} (I : S → Prop) (l : list A) (f : A → M S B) :
  (∀ x, keeps I (f x)) → keeps I (comprehension l f).
Proof.
  intros Hf. induction l as [|x l IH]; simpl.
  - apply keeps_ret.
  - apply keeps_bind; [apply Hf | intros y].
    apply keeps_bind; [exact IH | intros ys; apply keeps_ret].
Qed.

Lemma keeps_RunThreaded {A} (I : S → Prop) (target : A → M S unit) items :
  (∀ x, keeps I (target x)) → keeps I (RunThreaded target items).
Proof.
  intros Ht. induction items as [|x items IH]; intros s H; simpl.
  - exact H.
  - specialize (Ht x s H). destruct (target x s) as [r s']; simpl in Ht.
    specialize (IH s' Ht).
    destruct (RunThreaded target items s') as [[e|fs] s'']; exact IH.
Qed.

(** [RunThreaded] returns; it never raises. *)
Lemma RunThreaded_returns {A} (target : A → M S unit) items s :
  ∃ fs, (RunThreaded target items s).1 = inr fs.
Proof.
  revert s. induction items as [|x items IH]; intros s; simpl.
  - eauto.
  - destruct (target x s) as [r s'].
    destruct (IH s') as [fs Hfs].
    destruct (RunThreaded target items s') as [[e|fs'] s'']; simpl in *;
      [discriminate | eauto].
Qed.

End Rules.

Create HintDb keeps discriminated.
#[export] Hint Resolve keeps_ret keeps_throw keeps_check keeps_getattr
  keeps_get keeps_if keeps_try_except : keeps.
#[export] Hint Extern 2 (keeps _ (_ ≫= _)) =>
  apply keeps_bind; [| intros ?] : keeps.
#[export] Hint Extern 2 (keeps _ (for_each _ _)) =>
  apply keeps_for_each; intros ? : keeps.
#[export] Hint Extern 2 (keeps _ (comprehension _ _)) =>
  apply keeps_comprehension; intros ? : keeps.
#[export] Hint Extern 2 (keeps _ (RunThreaded _ _)) =>
  apply keeps_RunThreaded; intros ? : keeps.
#[export] Hint Extern 3 (keeps _ (match ?x with _ => _ end)) =>
  destruct x : keeps.

Section MachineRules.

Context {World Blob : Type} `{!Externals World Blob}.

Local Abbreviation machine := (Machine World Blob).
Local Abbreviation process := (Process World Blob).

Lemma run_bind_get_self {B} (f : BenchmarkSpec → M machine B) m :
  (get_self ≫= f) m = f (self m) m.
Proof. reflexivity. Qed.

Lemma run_assign g (m : machine) :
  assign g m = (inr tt, {| self := g (self m); proc := proc m |}).
Proof. reflexivity. Qed.

Lemma run_bind_assign {B} g (f : unit → M machine B) m :
  (assign g ≫= f) m = f tt {| self := g (self m); proc := proc m |}.
Proof. reflexivity. Qed.

Lemma keeps_in_process {A} P (c : M process A) :
  keeps (on_self P) (in_process c).
Proof. intros m H. unfold in_process. destruct (c (proc m)); exact H. Qed.

Lemma keeps_get_self P : keeps (on_self (World := World) (Blob := Blob) P) get_self.
Proof. intros m H. exact H. Qed.

Lemma keeps_assign P f :
  (∀ s, P s → P (f s)) → keeps (on_self (World := World) (Blob := Blob) P) (assign f).
Proof. intros Hf m H. apply Hf, H. Qed.

End MachineRules.

Create Rewrite HintDb run.
#[export] Hint Rewrite @run_ret @run_throw @run_bind_ret @run_bind_throw
  @run_bind_check_inr @run_bind_check_inl @run_bind_getattr @run_bind_get
  @run_bind_assoc @run_bind_get_self @run_bind_assign @run_assign : run.

#[export] Hint Resolve keeps_in_process keeps_get_self : keeps.
#[export] Hint Extern 2 (keeps (on_self _) (assign _)) =>
  apply keeps_assign; intros ? ?; simpl; try done : keeps.

(** Reduce the attribute reads and assignments of the plan. *)
Ltac fields :=
  cbn [self proc world files trace
       config vms vm_dict networks cloud project zones image machine_type
       num_vms scratch_disk_size scratch_disk_type vm_spec firewall file_name
       deleted vm_objects network_objects
       set_config set_vms set_vm_dict set_networks set_cloud set_project
       set_zones set_image set_machine_type set_num_vms set_scratch_disk_size
       set_scratch_disk_type set_vm_spec set_firewall set_file_name
       set_deleted set_vm_objects set_network_objects blank fst snd] in *.

(** Run a computation forward as far as its equations go. *)
Ltac run := repeat (progress (autorewrite with run; fields)).

Ltac keeps_auto :=
  unfold CreateVirtualMachineFromNodeSection, CreateVirtualMachine,
    append_if_absent, ensure_network, extend_group, new_vm, new_network,
    append_disk_spec, PrepareVm, PrepareNetwork, DeleteVm;
  auto 40 with keeps.

Lemma bind_inr_inv {S A B} (m : M S A) (f : A → M S B) s y s' :
  (m ≫= f) s = (inr y, s') → ∃ x s1, m s = (inr x, s1) ∧ f x s1 = (inr y, s').
Proof.
  rewrite run_bind. destruct (m s) as [[e|x] s1]; [discriminate | eauto].
Qed.

(** ** The provider tables *)

Lemma DEFAULTS_unregistered cloud :
  cloud ∉ registered → getitem DEFAULTS cloud = inl (KeyError cloud).
Proof.
  intros H. unfold getitem, DEFAULTS.
  rewrite !lookup_insert_ne, lookup_singleton_ne; [done | set_solver..].
Qed.

Lemma CLASSES_unregistered cloud :
  cloud ∉ registered → getitem CLASSES cloud = inl (KeyError cloud).
Proof.
  intros H. unfold getitem, CLASSES.
  rewrite !lookup_insert_ne, lookup_singleton_ne; [done | set_solver..].
Qed.

Lemma CLASSES_registered cloud :
  cloud ∈ registered → ∃ entry, getitem CLASSES cloud = inr entry.
Proof.
  unfold registered. rewrite !elem_of_cons, elem_of_nil.
  intros [->|[->|[->|[]]]]; eexists; vm_compute; reflexivity.
Qed.

Lemma DEFAULTS_registered cloud :
  cloud ∈ registered → ∃ entry, getitem DEFAULTS cloud = inr entry.
Proof.
  unfold registered. rewrite !elem_of_cons, elem_of_nil.
  intros [->|[->|[->|[]]]]; eexists; vm_compute; reflexivity.
Qed.

Lemma standard_registered cloud :
  cloud ∈ registered → ∃ alias, disk_alias cloud STANDARD = inr alias.
Proof.
  unfold registered. rewrite !elem_of_cons, elem_of_nil.
  intros [->|[->|[->|[]]]]; eexists; vm_compute; reflexivity.
Qed.

(** C6.  The logical disk type "standard" resolves to a provider string for
    GCP and for AWS, and for Azure to [None], a value of the table and not
    a failed lookup. *)
Theorem disk_alias_standard :
  disk_alias GCP STANDARD = inr (Some "pd-standard") ∧
  disk_alias AWS STANDARD = inr (Some "standard") ∧
  disk_alias AZURE STANDARD = inr None.
Proof. repeat split; vm_compute; reflexivity. Qed.

(** ** Construction with an unregistered provider *)

Section Unregistered.

Context {World Blob : Type} `{!Externals World Blob}.
Variable FLAGS : Flags.

Lemma init_from_flags_unregistered info m :
  FLAGS_cloud FLAGS ∉ registered →
  (init_from_flags FLAGS info m).1 = inl (KeyError (FLAGS_cloud FLAGS)).
Proof.
  intros Hu. unfold init_from_flags. run.
  rewrite (DEFAULTS_unregistered _ Hu). run. reflexivity.
Qed.

Lemma init_from_config_cloud cfg cluster type m m' :
  config_dict cfg !! "cluster" = Some cluster →
  alist_get cluster "type" = Some type →
  init_from_config cfg m = (inr tt, m') →
  cloud (self m') = type.
Proof.
  intros Hc Ht. unfold init_from_config, getitem, alist_getitem.
  rewrite Hc. run. rewrite Ht. run.
  match goal with
  | |- ?rest ?m1 = _ → _ =>
      assert (keeps (on_self (λ s, cloud s = type)) rest) as Hk by keeps_auto;
      specialize (Hk m1 eq_refl)
  end.
  intros Hr. rewrite Hr in Hk. exact Hk.
Qed.

(** C7.  An identifier outside the registered providers has no entry in
    [DEFAULTS] and none in [CLASSES]: both lookups raise the [KeyError] that
    carries the identifier (the failure the design document names
    UnknownProviderError), and a construction that resolves such a provider
    ends in an exception and never in a plan; from flags the exception is
    that [KeyError]. *)
Theorem unregistered_provider_fails (provider : string) :
  provider ∉ registered →
  getitem DEFAULTS provider = inl (KeyError provider) ∧
  getitem CLASSES provider = inl (KeyError provider) ∧
  ∀ static info p,
    resolves FLAGS info provider →
    (∃ e, (__init__ FLAGS static info p).1 = inl e) ∧
    (FLAGS_benchmark_config_pair FLAGS !! info_name info = None →
     (__init__ FLAGS static info p).1 = inl (KeyError provider)).
Proof.
  intros Hu. split; [exact (DEFAULTS_unregistered _ Hu)|].
  split; [exact (CLASSES_unregistered _ Hu)|].
  intros static info p. unfold resolves, __init__, init_body.
  destruct (FLAGS_benchmark_config_pair FLAGS !! info_name info) as [cfg|]; run.
  - intros (cluster & Hc & Ht). split; [|discriminate].
    rewrite run_bind.
    destruct (init_from_config _ _) as [[e|[]] m1] eqn:Hi; run; [eauto|].
    rewrite (init_from_config_cloud _ _ _ _ _ Hc Ht Hi).
    rewrite (CLASSES_unregistered _ Hu). run. eauto.
  - intros <-. rewrite run_bind.
    match goal with
    | |- context [init_from_flags FLAGS info ?m] =>
        pose proof (init_from_flags_unregistered info m Hu) as Hf;
        destruct (init_from_flags FLAGS info m) as [[e|[]] m1]
    end; simpl in Hf; [|discriminate].
    injection Hf as ->. run. split; [eauto | reflexivity].
Qed.

End Unregistered.

(** A cluster section of an unknown type: the construction fails. *)
Lemma unregistered_provider_fails_witness :
  let provider := "DigitalOcean" in
  let cfg := {| sections := [("cluster", [("type", provider);
                                          ("project", "p");
                                          ("zone", "nyc1")])];
                node_sections := [] |} in
  let flags :=
    {| FLAGS_benchmark_config_pair := {["iperf" := cfg]};
       FLAGS_cloud := GCP; FLAGS_project := None; FLAGS_zones := [];
       FLAGS_image := None; FLAGS_machine_type := None; FLAGS_num_vms := 1;
       FLAGS_scratch_disk_size := 500; FLAGS_scratch_disk_type := "standard";
       FLAGS_run_stage := "all" |} in
  ((provider ∉ registered) ∧
   resolves flags Sample.info provider ∧
   ∃ e, (__init__ (Externals0 := Sample.externals Sample.reliable)
           flags [] Sample.info Sample.process0).1 = inl e).
Proof.
  intros provider cfg flags.
  assert (provider ∉ registered) as Hu
    by (apply (bool_decide_unpack _); vm_compute; exact I).
  assert (resolves flags Sample.info provider) as Hr.
  { unfold resolves. replace (FLAGS_benchmark_config_pair flags !! info_name Sample.info)
      with (Some cfg) by (vm_compute; reflexivity).
    eexists. split; vm_compute; reflexivity. }
  split; [exact Hu|]. split; [exact Hr|].
  exact (proj1 (proj2 (proj2 (unregistered_provider_fails
           (Externals0 := Sample.externals Sample.reliable) flags
           provider Hu)) [] Sample.info Sample.process0 Hr)).
Defined.

(** ** Delete *)

Section Deletion.

Context {World Blob : Type} `{!Externals World Blob}.
Variable FLAGS : Flags.

Lemma Delete_no_op m :
  ¬ cleanup_stage FLAGS ∨ deleted (self m) = Some true →
  no_op (Delete FLAGS) m.
Proof.
  unfold cleanup_stage, no_op. intros H. unfold Delete. run.
  case_bool_decide as Hs; run.
  - reflexivity.
  - destruct H as [H|H]; [done|]. rewrite H. run. reflexivity.
Qed.

Lemma Delete_keeps_attributes m :
  set_deleted None (self (Delete FLAGS m).2) = set_deleted None (self m).
Proof.
  assert (keeps (on_self (λ s, set_deleted None s = set_deleted None (self m)))
            (Delete FLAGS)) as Hk.
  { unfold Delete. keeps_auto. }
  apply (Hk m). reflexivity.
Qed.

Lemma Delete_returned m m' :
  Delete FLAGS m = (inr tt, m') →
  deleted (self m') =
    if bool_decide (cleanup_stage FLAGS) then Some true else deleted (self m).
Proof.
  unfold cleanup_stage, Delete. run. case_bool_decide as Hs; run.
  - intros [= <-]. rewrite bool_decide_false by done. done.
  - rewrite bool_decide_true by done.
    destruct (deleted (self m)) as [[]|] eqn:Hd; run.
    + intros [= <-]. done.
    + intros H. repeat (apply bind_inr_inv in H as (? & ? & _ & H)).
      rewrite run_assign in H. injection H as <-. reflexivity.
    + discriminate.
Qed.

Lemma set_deleted_None_inj (a b : BenchmarkSpec) :
  set_deleted None a = set_deleted None b → a = set_deleted (deleted a) b.
Proof. destruct a, b. simpl. intros [= -> -> -> -> -> -> -> -> -> -> -> -> -> -> -> -> ->]. reflexivity. Qed.

(** A [Delete] that raises has assigned nothing: the flag is assigned by
    the last statement, which the call does not reach. *)
Lemma Delete_raised (m : Machine World Blob) e :
  (Delete FLAGS m).1 = inl e → self (Delete FLAGS m).2 = self m.
Proof.
  unfold Delete. run. case_bool_decide as Hs; run; [discriminate|].
  destruct (deleted (self m)) as [[]|]; run; [discriminate| |done].
  rewrite run_bind.
  match goal with
  | |- context [match ?part m with _ => _ end] =>
      assert (keeps (on_self (λ s, s = self m)) part) as Hvms by keeps_auto;
      specialize (Hvms m eq_refl); destruct (part m) as [[e1|[]] m1]
  end; [done|].
  unfold on_self in Hvms. simpl in Hvms.
  destruct (firewall (self m)) as [fw|]; run; [|done].
  rewrite run_bind.
  match goal with
  | |- context [match ?part m1 with _ => _ end] =>
      assert (keeps (on_self (λ s, s = self m)) part) as Hfw by keeps_auto;
      specialize (Hfw m1 Hvms); destruct (part m1) as [[e2|[]] m2]
  end; [done|].
  unfold on_self in Hfw. simpl in Hfw.
  rewrite run_bind.
  match goal with
  | |- context [match ?part m2 with _ => _ end] =>
      assert (keeps (on_self (λ s, s = self m)) part) as Hnet by keeps_auto;
      specialize (Hnet m2 Hfw); destruct (part m2) as [[e3|[]] m3]
  end; [done|].
  run. discriminate.
Qed.

(** C2, as the code has it.  [Delete] does nothing when the run stage is
    not a cleanup stage or the plan is already deleted; after a [Delete]
    that returned, a second [Delete] returns at once, leaves plan, world
    and files as they are and adds no event, so no provider call; and the
    flag is set only at the end of a call that ran to completion: a
    [Delete] ended by an exception, whichever it is, has left the plan as
    it was, [deleted] included, so that the next call starts over. *)
Theorem Delete_idempotent_once_returned (m : Machine World Blob) :
  (¬ cleanup_stage FLAGS ∨ deleted (self m) = Some true →
   no_op (Delete FLAGS) m) ∧
  ((Delete FLAGS m).1 = inr tt →
   second_Delete_idle FLAGS m ∧
   provider_calls (trace (proc (Delete FLAGS (Delete FLAGS m).2).2)) =
   provider_calls (trace (proc (Delete FLAGS m).2))) ∧
  (∀ e, (Delete FLAGS m).1 = inl e →
        self (Delete FLAGS m).2 = self m ∧
        deleted (self (Delete FLAGS m).2) = deleted (self m)).
Proof.
  split; [apply Delete_no_op|]. split.
  - intros Hr.
    assert (second_Delete_idle FLAGS m) as Hidle.
    { unfold second_Delete_idle. apply Delete_no_op.
      destruct (decide (cleanup_stage FLAGS)) as [Hs|Hs]; [right | by left].
      destruct (Delete FLAGS m) as [r m'] eqn:Hd. simpl in Hr. subst r. simpl.
      rewrite (Delete_returned _ _ Hd), bool_decide_true by done. done. }
    split; [exact Hidle|]. unfold second_Delete_idle, no_op in Hidle.
    rewrite Hidle. reflexivity.
  - intros e He. pose proof (Delete_raised m e He) as Hself.
    split; [exact Hself | by rewrite Hself].
Qed.

(** C10.  A [Delete] that returned has assigned nothing but [deleted]:
    the list of virtual machines, the group index, the networks, the
    firewall, the file name and the objects behind them are what they
    were; [deleted] is true when the stage is a cleanup stage and
    untouched otherwise. *)
Theorem Delete_changes_only_deleted (m m' : Machine World Blob) :
  Delete FLAGS m = (inr tt, m') →
  self m' = set_deleted (if bool_decide (cleanup_stage FLAGS) then Some true
                         else deleted (self m)) (self m) ∧
  vms (self m') = vms (self m) ∧
  vm_dict (self m') = vm_dict (self m) ∧
  networks (self m') = networks (self m) ∧
  firewall (self m') = firewall (self m) ∧
  file_name (self m') = file_name (self m) ∧
  vm_objects (self m') = vm_objects (self m) ∧
  network_objects (self m') = network_objects (self m).
Proof.
  intros Hd.
  assert (self m' = set_deleted (if bool_decide (cleanup_stage FLAGS)
                                 then Some true else deleted (self m)) (self m)) as ->.
  { rewrite <- (Delete_returned _ _ Hd). apply set_deleted_None_inj.
    pose proof (Delete_keeps_attributes m) as Hk. rewrite Hd in Hk. exact Hk. }
  repeat split.
Qed.

End Deletion.

Lemma Delete_idempotent_once_returned_witness :
  let ext := Sample.externals Sample.reliable in
  let stuck := StuckFirewall.externals in
  let e := ProviderError "DisallowAllPorts failed" in
  (Delete (Externals0 := ext) Sample.flags SamplePlan.machine).1 = inr tt ∧
  second_Delete_idle (Externals0 := ext) Sample.flags SamplePlan.machine ∧
  (Delete (Externals0 := stuck) Sample.flags SamplePlan.machine).1 = inl e ∧
  self (Delete (Externals0 := stuck) Sample.flags SamplePlan.machine).2
  = SamplePlan.plan.
Proof.
  intros ext stuck e.
  assert ((Delete (Externals0 := ext) Sample.flags SamplePlan.machine).1 = inr tt)
    as Hr by (vm_compute; reflexivity).
  assert ((Delete (Externals0 := stuck) Sample.flags SamplePlan.machine).1 = inl e)
    as He by (vm_compute; reflexivity).
  split; [exact Hr|]. split.
  - exact (proj1 (proj1 (proj2 (Delete_idempotent_once_returned
                                  (Externals0 := ext) Sample.flags SamplePlan.machine))
                    Hr)).
  - split; [exact He|].
    exact (proj1 (proj2 (proj2 (Delete_idempotent_once_returned
                                  (Externals0 := stuck) Sample.flags SamplePlan.machine))
                    e He)).
Defined.

(** C2 as stated fails: when the firewall cannot revoke its rules the first
    [Delete] raises before it sets the flag, and the second one deletes the
    five virtual machines again. *)
Lemma Delete_repeats_after_failure :
  (__init__ (Externals0 := Sample.externals Sample.reliable)
     Sample.flags [] Sample.info Sample.process0).1 = inr SamplePlan.plan ∧
  (Delete (Externals0 := StuckFirewall.externals) Sample.flags SamplePlan.machine).1
    = inl (ProviderError "DisallowAllPorts failed") ∧
  deleted (self StuckFirewall.once) = Some false ∧
  ¬ second_Delete_idle (Externals0 := StuckFirewall.externals)
      Sample.flags SamplePlan.machine ∧
  length (provider_calls (trace (proc StuckFirewall.once))) = 11%nat ∧
  length (provider_calls (trace (proc StuckFirewall.twice))) = 22%nat.
Proof.
  split; [vm_compute; reflexivity|].
  split; [vm_compute; reflexivity|].
  split; [vm_compute; reflexivity|].
  split; [|split; vm_compute; reflexivity].
  unfold second_Delete_idle, no_op. intros H.
  apply (f_equal (λ r, length (trace (proc r.2)))) in H.
  vm_compute in H. discriminate.
Qed.

Lemma Delete_changes_only_deleted_witness :
  let ext := Sample.externals Sample.reliable in
  let m' := (Delete (Externals0 := ext) Sample.flags SamplePlan.machine).2 in
  Delete (Externals0 := ext) Sample.flags SamplePlan.machine = (inr tt, m') ∧
  vms (self m') = vms SamplePlan.plan ∧
  deleted (self m') = Some true.
Proof.
  intros ext m'.
  assert (Delete (Externals0 := ext) Sample.flags SamplePlan.machine = (inr tt, m'))
    as Hd by (vm_compute; reflexivity).
  split; [exact Hd|].
  pose proof (Delete_changes_only_deleted (Externals0 := ext) Sample.flags
                SamplePlan.machine m' Hd) as (Hself & Hvms & _).
  split; [exact Hvms|]. rewrite Hself. vm_compute. reflexivity.
Defined.

(** ** The order of events in PrepareVm *)

Section Preparation.

Context {World Blob : Type} `{!Externals World Blob}.
Local Abbreviation machine := (Machine World Blob).
Local Abbreviation process := (Process World Blob).

Lemma emits_ret {A} (x : A) (m : machine) : emits (mret x) m [].
Proof.
  split; [reflexivity|]. exists []. rewrite app_nil_r.
  split_and!; [done | done | done | discriminate].
Qed.

Lemma emits_call c (m : machine) : emits (in_process (call c)) m [Called c].
Proof.
  unfold emits, in_process, call.
  destruct (provider_call c (world (proc m))) as [r w] eqn:Hc. simpl.
  split; [reflexivity|]. exists [Called c].
  split_and!; [done | done | done |].
  intros e He. exists c, (world (proc m)). rewrite Hc.
  destruct r; [|discriminate]. by injection He as ->.
Qed.

Lemma emits_emit e (m : machine) : emits (in_process (emit e)) m [e].
Proof.
  split; [reflexivity|]. exists [e]. split_and!; [done | done | done | discriminate].
Qed.

Lemma emits_bind {A B} (c : M machine A) (f : A → M machine B) m L1 L2 :
  emits c m L1 →
  (∀ x m1, c m = (inr x, m1) → self m1 = self m → emits (f x) m1 L2) →
  emits (c ≫= f) m (L1 ++ L2).
Proof.
  intros (Hs & done1 & Ht & Hp & Hr & He) Hf. unfold emits. rewrite run_bind.
  destruct (c m) as [[e|x] m1] eqn:Hc; simpl in *.
  - split; [exact Hs|]. exists done1. split_and!; [done | | discriminate |].
    + by apply prefix_app_r.
    + intros e' [= <-]. by apply He.
  - specialize (Hr x eq_refl). subst done1.
    destruct (Hf x m1 eq_refl Hs) as (Hs2 & done2 & Ht2 & Hp2 & Hr2 & He2).
    split; [congruence|]. exists (L1 ++ done2).
    split_and!.
    + rewrite Ht2, Ht. by rewrite app_assoc.
    + by apply prefix_app.
    + intros y Hy. by rewrite (Hr2 y Hy).
    + intros e Hy. destruct (He2 e Hy) as (call & w & Hl & Hw).
      exists call, w. split; [|exact Hw].
      destruct done2 as [|d done2] using rev_ind; [discriminate|].
      rewrite app_assoc, last_snoc. by rewrite last_snoc in Hl.
Qed.

Lemma emits_for_each {A} (l : list A) (body : A → M machine unit) (ev : A → Event) m :
  (∀ x m, emits (body x) m [ev x]) →
  emits (for_each l body) m (ev <$> l).
Proof.
  intros Hb. revert m. induction l as [|x l IH]; intros m; simpl.
  - apply emits_ret.
  - apply (emits_bind _ _ _ [ev x] (ev <$> l)); [apply Hb | intros _ m1 _ _; apply IH].
Qed.

Lemma emits_read {A B} (g : process → A) (f : A → M machine B) m L :
  emits (f (g (proc m))) m L →
  emits (in_process (λ p, (inr (g p), p)) ≫= f) m L.
Proof. destruct m as [s p]. intros H. exact H. Qed.

Lemma emits_get_self {B} (f : BenchmarkSpec → M machine B) m L :
  emits (f (self m)) m L → emits (get_self ≫= f) m L.
Proof. intros H. exact H. Qed.

Lemma call_returned c (m m1 : machine) x :
  in_process (call c) m = (inr x, m1) →
  self m1 = self m ∧ world (proc m1) = (provider_call c (world (proc m))).2.
Proof.
  unfold in_process, call.
  destruct (provider_call _ _) as [[e|] w]; [discriminate|].
  intros [= _ <-]. split; reflexivity.
Qed.

Lemma PrepareVm_emits vm fw (m : machine) :
  emits (PrepareVm vm fw) m
    (prepare_steps vm fw
       (ip_address vm (provider_call (VmCreate vm) (world (proc m))).2)
       (vm_disk_specs (self m) vm)).
Proof.
  unfold PrepareVm, prepare_steps.
  apply (emits_bind _ _ _ [_]); [apply emits_call|]. intros [] m1 H1 _.
  apply call_returned in H1 as [Hs Hw]. rewrite <- Hw, <- Hs. clear.
  apply emits_read.
  apply (emits_bind _ _ _ [_]); [apply emits_emit|]. intros [] m2 _ <-.
  apply (emits_bind _ _ _ [_]); [apply emits_emit|]. intros [] m3 _ <-.
  apply (emits_bind _ _ _ [_]); [apply emits_call|]. intros [] m4 _ <-.
  apply (emits_bind _ _ _ [_]); [apply emits_call|]. intros [] m5 _ <-.
  apply (emits_bind _ _ _ [_]); [apply emits_call|]. intros [] m6 _ <-.
  apply emits_get_self.
  apply emits_bind; [|intros [] m7 _ _; apply emits_call].
  apply emits_for_each. intros d m'. apply emits_call.
Qed.

Lemma emits_returns {A} (c : M machine A) m L :
  (∀ call w, (provider_call call w).1 = None) →
  emits c m L → ∃ x, (c m).1 = inr x.
Proof.
  intros Hok (_ & done & _ & _ & _ & He).
  destruct (c m).1 as [e|x]; [|eauto].
  destruct (He e eq_refl) as (call & w & _ & Hw). rewrite Hok in Hw. discriminate.
Qed.


Lemma provider_calls_prepare_steps vm fw ip ds :
  provider_calls (prepare_steps vm fw ip ds) = prepare_calls vm fw ds.
Proof.
  unfold provider_calls, prepare_steps, prepare_calls.
  rewrite !omap_app.
  assert (omap (λ e, match e with Called c => Some c | _ => None end)
            ((λ d, Called (VmCreateScratchDisk vm d)) <$> ds)
          = VmCreateScratchDisk vm <$> ds) as ->.
  { induction ds as [|d ds IH]; csimpl; [reflexivity | by f_equal]. }
  reflexivity.
Qed.

(** C3.  [PrepareVm] creates the virtual machine, logs its address and the
    wait, opens port 22 on the firewall for it, waits for the boot, refreshes
    the package index, creates one scratch disk per pending disk spec in the
    order of [disk_specs], and burns the CPU: these events are added to the
    trace in this order and nothing else is.  A call that returned has made
    every provider call of the sequence; a call that raised stopped at the
    provider call that raised; and when no provider call raises it
    returns. *)
Theorem PrepareVm_order vm fw (m : machine) :
  let disks := vm_disk_specs (self m) vm in
  let ip := ip_address vm (provider_call (VmCreate vm) (world (proc m))).2 in
  let after := PrepareVm vm fw m in
  emits (PrepareVm vm fw) m (prepare_steps vm fw ip disks) ∧
  (after.1 = inr tt →
   trace (proc after.2) = trace (proc m) ++ prepare_steps vm fw ip disks ∧
   provider_calls (drop (length (trace (proc m))) (trace (proc after.2)))
     = prepare_calls vm fw disks) ∧
  ((∀ call w, (provider_call call w).1 = None) → after.1 = inr tt).
Proof.
  intros disks ip after. pose proof (PrepareVm_emits vm fw m) as He.
  split; [exact He|]. split.
  - intros Hr. destruct He as (_ & done & Ht & _ & Hd & _).
    rewrite (Hd tt Hr) in Ht. split; [exact Ht|]. fold after in Ht.
    rewrite Ht, drop_app_length. apply provider_calls_prepare_steps.
  - intros Hok. destruct (emits_returns _ _ _ Hok He) as [[] Hx]. exact Hx.
Qed.

End Preparation.

Lemma PrepareVm_order_witness :
  let ext := Sample.externals Sample.reliable in
  let fw := {| firewall_class := GceFirewall; firewall_project := Some "my-project" |} in
  (∀ call w, (provider_call (Externals := ext) call w).1 = None) ∧
  (PrepareVm (Externals0 := ext) 0 fw SamplePlan.machine).1 = inr tt ∧
  provider_calls (trace (proc (PrepareVm (Externals0 := ext) 0 fw SamplePlan.machine).2))
  = [VmCreate 0; FirewallAllowPort fw 0 22; VmWaitForBootCompletion 0; VmAptUpdate 0;
     VmCreateScratchDisk 0 {| disk_size := 500; disk_type := Some "pd-standard";
                              mount_point := "/scratch0" |};
     BurnCpu 0].
Proof.
  intros ext fw.
  assert (∀ call w, (provider_call (Externals := ext) call w).1 = None) as Hok
    by (intros call w; reflexivity).
  pose proof (PrepareVm_order (Externals0 := ext) 0%nat fw SamplePlan.machine)
    as (_ & Hcalls & Hret).
  split; [exact Hok|]. split; [exact (Hret Hok)|].
  exact (proj2 (Hcalls (Hret Hok))).
Defined.

(** ** The snapshot *)

Section Snapshot.

Context {World Blob : Type} `{!Externals World Blob}.

Local Abbreviation machine := (Machine World Blob).
Local Abbreviation process := (Process World Blob).

Lemma GetSpecFromFile_run name (p : process) :
  GetSpecFromFile name p =
    match files p !! snapshot_path (GetTempDir (world p)) name with
    | Some f =>
        if f_readable f
        then match pickle_load (f_data f) with
             | inr s => (inr s, p)
             | inl e => (inl e, logged_failure p name)
             end
        else (inl (IOError (snapshot_path (GetTempDir (world p)) name)),
              logged_failure p name)
    | None => (inl (IOError (snapshot_path (GetTempDir (world p)) name)),
               logged_failure p name)
    end.
Proof.
  unfold GetSpecFromFile, snapshot_path. rewrite run_bind_get.
  unfold try_except, read_file. rewrite run_bind.
  destruct (files p !! _) as [f|]; [|reflexivity].
  destruct (f_readable f); [|reflexivity].
  destruct (pickle_load (f_data f)) as [e|s]; reflexivity.
Qed.

(** C8.  Loading the snapshot of a benchmark whose file is missing or
    unreadable never returns a plan: the call ends in the exception that
    [open] or [pickle.load] raised (the failure the design document names
    PersistenceError), after exactly one error record naming the benchmark
    was logged; world and files are untouched. *)
Theorem GetSpecFromFile_fails name (p : process) :
  missing_or_unreadable p (snapshot_path (GetTempDir (world p)) name) →
  ∃ e, GetSpecFromFile name p = (inl e, logged_failure p name).
Proof.
  unfold missing_or_unreadable. rewrite GetSpecFromFile_run.
  destruct (files p !! _) as [f|]; [|eauto].
  intros [-> | [e He]]; [eauto|].
  destruct (f_readable f); [|eauto]. rewrite He. eauto.
Qed.

Lemma PickleSpec_run (m : machine) path :
  file_name (self m) = Some path →
  usable (files (proc m)) path →
  ∃ f, PickleSpec m =
         (inr tt, {| self := self m;
                     proc := {| world := world (proc m);
                                files := <[path := f]> (files (proc m));
                                trace := trace (proc m) |} |}) ∧
       f_readable f = true ∧ f_data f = pickle_dump (self m).
Proof.
  intros Hp Hu. unfold PickleSpec. rewrite run_bind_get_self, Hp.
  rewrite run_bind_getattr. unfold in_process, write_file, usable in *.
  destruct (files (proc m) !! path) as [f|].
  - destruct Hu as [-> Hr]. eexists. split; [reflexivity|]. split; [exact Hr | reflexivity].
  - eexists. split; [reflexivity|]. split; reflexivity.
Qed.

(** C9.  When unpickling inverts pickling, a plan saved by [PickleSpec]
    and loaded by [GetSpecFromFile] under the name its file was derived from
    is the plan that was saved, in any process that sees the same files and
    the same temporary directory; in particular it has the same number of
    virtual machines, the same zones and the same groups with the same
    members. *)
Theorem snapshot_round_trip (m : machine) (name : string) :
  (∀ s, pickle_load (pickle_dump s) = inr s) →
  file_name (self m) = Some (snapshot_path (GetTempDir (world (proc m))) name) →
  usable (files (proc m)) (snapshot_path (GetTempDir (world (proc m))) name) →
  ∃ saved,
    PickleSpec m = (inr tt, saved) ∧ self saved = self m ∧
    ∀ later : process,
      files later = files (proc saved) →
      GetTempDir (world later) = GetTempDir (world (proc m)) →
      ∃ loaded,
        GetSpecFromFile name later = (inr loaded, later) ∧
        loaded = self m ∧
        num_vms loaded = num_vms (self m) ∧
        length (vms loaded) = length (vms (self m)) ∧
        zones loaded = zones (self m) ∧
        dom (vm_dict loaded) = dom (vm_dict (self m)) ∧
        ∀ name, group loaded name = group (self m) name.
Proof.
  intros Hpickle Hname Hu.
  destruct (PickleSpec_run m _ Hname Hu) as (f & Hsave & Hr & Hd).
  eexists. split; [exact Hsave|]. split; [reflexivity|].
  intros later Hfiles Htmp. exists (self m).
  split; [|by split_and!].
  rewrite GetSpecFromFile_run, Hfiles, Htmp. simpl.
  rewrite lookup_insert_eq, Hr, Hd, Hpickle. reflexivity.
Qed.

End Snapshot.

Lemma GetSpecFromFile_fails_witness :
  let ext := Sample.externals Sample.reliable in
  let path := snapshot_path (GetTempDir (Externals := ext) (world Elsewhere.process)) "netperf" in
  missing_or_unreadable (Externals0 := ext) Elsewhere.process path ∧
  GetSpecFromFile (Externals0 := ext) "netperf" Elsewhere.process
  = (inl (IOError "/tmp/perfkitbenchmarker/netperf"),
     logged_failure Elsewhere.process "netperf").
Proof.
  intros ext path.
  assert (missing_or_unreadable (Externals0 := ext) Elsewhere.process path) as Hm
    by (vm_compute; exact I).
  split; [exact Hm|].
  destruct (GetSpecFromFile_fails (Externals0 := ext) "netperf" Elsewhere.process Hm)
    as [e He].
  rewrite He. vm_compute in He. injection He as <-. reflexivity.
Defined.

Lemma snapshot_round_trip_witness :
  let ext := Sample.externals Sample.reliable in
  (∀ s, pickle_load (Externals := ext) (pickle_dump s) = inr s) ∧
  file_name SamplePlan.plan = Some (snapshot_path "/tmp/perfkitbenchmarker" "iperf") ∧
  usable (files Sample.process0) (snapshot_path "/tmp/perfkitbenchmarker" "iperf") ∧
  GetSpecFromFile (Externals0 := ext) "iperf" Elsewhere.process
  = (inr SamplePlan.plan, Elsewhere.process).
Proof.
  intros ext.
  assert (∀ s, pickle_load (Externals := ext) (pickle_dump s) = inr s) as Hpickle
    by (intros s; reflexivity).
  assert (file_name SamplePlan.plan
          = Some (snapshot_path "/tmp/perfkitbenchmarker" "iperf")) as Hname
    by (vm_compute; reflexivity).
  assert (usable (files Sample.process0)
            (snapshot_path "/tmp/perfkitbenchmarker" "iperf")) as Hu
    by (vm_compute; exact I).
  split; [exact Hpickle|]. split; [exact Hname|]. split; [exact Hu|].
  destruct (snapshot_round_trip (Externals0 := ext) SamplePlan.machine "iperf"
              Hpickle Hname Hu) as (saved & Hsave & _ & Hload).
  assert (proc saved = Elsewhere.process) as Hproc
    by (unfold Elsewhere.process; fold ext; rewrite Hsave; reflexivity).
  destruct (Hload Elsewhere.process (f_equal files (eq_sym Hproc)) eq_refl)
    as (loaded & Hl & -> & _).
  exact Hl.
Defined.

(** ** One network per zone *)

Section Networks.

Context {World Blob : Type} `{!Externals World Blob}.

Local Abbreviation machine := (Machine World Blob).

Local Abbreviation inv := construction_invariant.

Lemma keeps_ensure_network s0 zone :
  keeps (on_self (World := World) (Blob := Blob) (inv s0)) (ensure_network zone).
Proof.
  intros m (Hone & Hvms & Hkept). unfold ensure_network. rewrite run_bind_get_self.
  destruct (networks (self m) !! zone) as [n|] eqn:Hz; [by split_and!|].
  destruct (getitem CLASSES (cloud (self m))) as [e|entry]; [by split_and!|].
  rewrite run_bind_check_inr. unfold new_network. run.
  destruct Hone as (Hmap & Hobj & Hsize).
  unfold on_self, inv, one_network_per_zone, vms_share_zone_network, networks_kept.
  fields. split_and!.
  - intros zone' n. rewrite lookup_insert. case_decide as Hd.
    + intros [= <-]. subst zone'. exists (NETWORK entry).
      by rewrite lookup_app_r, Nat.sub_diag.
    + intros Hn. destruct (Hmap _ _ Hn) as [cls Hcls]. exists cls.
      rewrite lookup_app_l; [done | by eapply lookup_lt_Some].
  - intros n net Hn. destruct (decide (n < length (network_objects (self m)))%nat) as [Hlt|Hge].
    + rewrite lookup_app_l in Hn by done.
      rewrite lookup_insert_ne; [by apply Hobj|].
      intros Heq. apply Hobj in Hn. congruence.
    + rewrite lookup_app_r in Hn by lia.
      destruct (n - length (network_objects (self m)))%nat as [|k] eqn:Hk; [|done].
      injection Hn as <-. simpl. rewrite lookup_insert_eq. f_equal. lia.
  - rewrite length_app, map_size_insert_None by done. simpl. lia.
  - intros vm o cls spec Ho Hk. rewrite lookup_insert_ne; [by eapply Hvms|].
    intros Heq. rewrite Heq, (Hvms _ _ _ _ Ho Hk) in Hz. discriminate.
  - intros zone' n Hn. rewrite lookup_insert_ne; [by apply Hkept|].
    intros Heq. apply Hkept in Hn. congruence.
Qed.

Lemma keeps_with_network {A} (P : BenchmarkSpec → Prop) zone
    (f : BenchmarkSpec → nat → M machine A) :
  (∀ s net, keeps (on_self (λ s', P s' ∧ networks s' !! zone = Some net)) (f s net)) →
  (∀ s net, P s ∧ networks s !! zone = Some net → P s) →
  keeps (on_self P) (get_self ≫= λ s, check (getitem (networks s) zone) ≫= f s).
Proof.
  intros Hf Hw m HP. rewrite run_bind_get_self. unfold getitem.
  destruct (networks (self m) !! zone) as [net|] eqn:Hz; [|exact HP].
  rewrite run_bind_check_inr. eapply Hw, (Hf (self m) net m). by split.
Qed.

Lemma keeps_new_vm s0 zone net cls spec :
  spec_zone spec = zone → spec_network spec = net →
  keeps (on_self (World := World) (Blob := Blob)
           (λ s, inv s0 s ∧ networks s !! zone = Some net))
    (new_vm cls spec).
Proof.
  intros Hzone Hnet m ((Hone & Hvms & Hkept) & Hz). unfold new_vm. run.
  split; [|exact Hz]. split_and!; [exact Hone | | exact Hkept].
  intros vm o cls' spec' Ho Hk. fields.
  destruct (decide (vm < length (vm_objects (self m)))%nat) as [Hlt|Hge].
  - rewrite lookup_app_l in Ho by done. by eapply Hvms.
  - rewrite lookup_app_r in Ho by lia.
    destruct (vm - length (vm_objects (self m)))%nat; [|done].
    injection Ho as <-. simpl in Hk. injection Hk as <- <-. congruence.
Qed.

Lemma keeps_append_disk_spec (P : BenchmarkSpec → Prop) d vm :
  (∀ s objs, P s →
     (∀ i o, objs !! i = Some o →
        ∃ o', vm_objects s !! i = Some o' ∧ kind o' = kind o) →
     P (set_vm_objects objs s)) →
  keeps (on_self (World := World) (Blob := Blob) P) (append_disk_spec d vm).
Proof.
  intros HP m Hm. unfold append_disk_spec. rewrite run_assign. apply HP; [exact Hm|].
  intros i o. rewrite list_lookup_alter. case_decide as Hd; [subst i|by eauto].
  destruct (vm_objects (self m) !! vm) as [o'|]; [|done].
  intros [= <-]. eauto.
Qed.

Lemma inv_set_vm_objects s0 zone net s objs :
  inv s0 s ∧ networks s !! zone = Some net →
  (∀ i o, objs !! i = Some o →
     ∃ o', vm_objects s !! i = Some o' ∧ kind o' = kind o) →
  inv s0 (set_vm_objects objs s) ∧ networks (set_vm_objects objs s) !! zone = Some net.
Proof.
  intros ((Hone & Hvms & Hkept) & Hz) Hobjs. split; [|exact Hz].
  split_and!; [exact Hone | | exact Hkept].
  intros vm o cls spec Ho Hk. destruct (Hobjs _ _ Ho) as (o' & Ho' & Hk').
  apply (Hvms vm o' cls spec Ho'). congruence.
Qed.

Lemma keeps_CreateVirtualMachine s0 opt_zone :
  keeps (on_self (World := World) (Blob := Blob) (inv s0))
    (CreateVirtualMachine opt_zone).
Proof.
  unfold CreateVirtualMachine.
  apply keeps_bind; [auto with keeps | intros [vm|]]; [auto with keeps|].
  apply keeps_bind; [auto with keeps | intros s].
  apply keeps_bind; [auto with keeps | intros entry].
  apply keeps_bind; [auto with keeps | intros zone].
  apply keeps_bind; [apply keeps_ensure_network | intros _].
  apply keeps_with_network; [|tauto]. intros s' net.
  apply keeps_bind; [auto with keeps | intros _].
  by apply keeps_new_vm.
Qed.

Lemma keeps_CreateVirtualMachineFromNodeSection s0 node_section node_name :
  keeps (on_self (World := World) (Blob := Blob) (inv s0))
    (CreateVirtualMachineFromNodeSection node_section node_name).
Proof.
  unfold CreateVirtualMachineFromNodeSection.
  apply keeps_bind; [auto with keeps | intros s].
  apply keeps_bind; [auto with keeps | intros zone].
  apply keeps_bind; [unfold append_if_absent; auto 20 with keeps | intros _].
  apply keeps_bind; [auto with keeps | intros node_image].
  apply keeps_bind; [unfold append_if_absent; auto 20 with keeps | intros _].
  apply keeps_bind; [auto with keeps | intros vm_type].
  apply keeps_bind; [unfold append_if_absent; auto 20 with keeps | intros _].
  apply keeps_bind; [apply keeps_ensure_network | intros _].
  apply keeps_with_network; [|tauto]. intros s' net.
  apply keeps_bind; [auto with keeps | intros entry].
  apply keeps_bind; [auto with keeps | intros count].
  apply keeps_bind; [auto with keeps | intros count'].
  apply keeps_bind; [|intros new].
  { apply keeps_comprehension. intros _. by apply keeps_new_vm. }
  apply keeps_bind; [auto with keeps | intros _].
  apply keeps_bind; [unfold extend_group; auto 20 with keeps | intros _].
  apply keeps_for_each. intros option.
  destruct (startswith option OPTION_PD_PREFIX); [|auto with keeps].
  apply keeps_bind; [auto with keeps | intros v].
  apply keeps_bind; [auto with keeps | intros s''].
  apply keeps_bind; [auto with keeps | intros disk_spec].
  apply keeps_for_each. intros vm.
  apply keeps_append_disk_spec. intros ? ?. apply inv_set_vm_objects.
Qed.

Lemma keeps_construct s0 c :
  keeps (on_self (World := World) (Blob := Blob) (inv s0)) (construct c).
Proof.
  destruct c as [opt_zone | node_section node_name]; simpl.
  - apply keeps_bind; [apply keeps_CreateVirtualMachine | auto with keeps].
  - apply keeps_CreateVirtualMachineFromNodeSection.
Qed.

Lemma construct_all_invariant s0 cs (m : machine) :
  inv s0 (self m) → inv s0 (self (construct_all cs m)).
Proof.
  revert m. induction cs as [|c cs IH]; intros m Hm; simpl; [exact Hm|].
  apply IH. by apply (keeps_construct s0 c m).
Qed.

(** C5.  Through any sequence of calls of [CreateVirtualMachine] and
    [CreateVirtualMachineFromNodeSection], returning or raising, a plan
    with one network per zone keeps one network per zone: no two network
    objects are made for the same zone, there are as many of them as zones
    in [networks], a zone that has its network keeps that very object, and
    two constructed virtual machines in the same zone hold the same
    network object. *)
Theorem one_network_per_zone_kept (cs : list construction) (m : machine) :
  one_network_per_zone (self m) →
  vms_share_zone_network (self m) →
  let s' := self (construct_all cs m) in
  one_network_per_zone s' ∧
  vms_share_zone_network s' ∧
  networks_kept (self m) s' ∧
  length (network_objects s') = size (networks s') ∧
  (∀ n1 n2 net1 net2,
     network_objects s' !! n1 = Some net1 →
     network_objects s' !! n2 = Some net2 →
     network_zone net1 = network_zone net2 → n1 = n2) ∧
  (∀ vm1 vm2 o1 o2 cls1 cls2 spec1 spec2,
     vm_objects s' !! vm1 = Some o1 → kind o1 = Instance cls1 spec1 →
     vm_objects s' !! vm2 = Some o2 → kind o2 = Instance cls2 spec2 →
     spec_zone spec1 = spec_zone spec2 →
     spec_network spec1 = spec_network spec2 ∧
     networks s' !! spec_zone spec1 = Some (spec_network spec1)).
Proof.
  intros Hone Hvms s'.
  assert (inv (self m) (self m)) as Hinv by (split_and!; [done | done | by intros ? ?]).
  apply (construct_all_invariant _ cs) in Hinv. fold s' in Hinv.
  destruct Hinv as (Hone' & Hvms' & Hkept'). split_and!; try done.
  - apply Hone'.
  - intros n1 n2 net1 net2 H1 H2 Hz. destruct Hone' as (_ & Hobj & _).
    apply Hobj in H1, H2. rewrite Hz in H1. congruence.
  - intros vm1 vm2 o1 o2 cls1 cls2 spec1 spec2 H1 Hk1 H2 Hk2 Hz.
    pose proof (Hvms' _ _ _ _ H1 Hk1) as Hn1.
    pose proof (Hvms' _ _ _ _ H2 Hk2) as Hn2.
    split; [|exact Hn1]. rewrite Hz in Hn1. congruence.
Qed.

End Networks.

Lemma one_network_per_zone_kept_witness :
  let ext := Sample.externals Sample.reliable in
  let m := {| self := set_zones (VList ["z1"]) (set_cloud GCP (blank []));
              proc := Sample.process0 |} in
  let cs := [ByCreateVirtualMachine (Some "z1");
             ByNodeSection [("zone", "z2"); ("image", "debian"); ("vm_type", "n1");
                            ("count", "2")] "workers";
             ByCreateVirtualMachine None;
             ByCreateVirtualMachine (Some "z2")] in
  one_network_per_zone (self m) ∧
  vms_share_zone_network (self m) ∧
  one_network_per_zone (self (construct_all (Externals0 := ext) cs m)) ∧
  map_to_list (networks (self (construct_all (Externals0 := ext) cs m)))
  = [("z1", 0%nat); ("z2", 1%nat)].
Proof.
  intros ext m cs.
  assert (one_network_per_zone (self m)) as Hone.
  { split_and!; [intros zone n H | intros n net H | reflexivity];
      cbn in H; discriminate. }
  assert (vms_share_zone_network (self m)) as Hvms.
  { intros vm o cls spec H. cbn in H. discriminate. }
  split; [exact Hone|]. split; [exact Hvms|].
  split; [|vm_compute; reflexivity].
  exact (proj1 (one_network_per_zone_kept (Externals0 := ext) cs m Hone Hvms)).
Defined.

(** ** Virtual machines of a node section *)

Section NodeSection.

Context {World Blob : Type} `{!Externals World Blob}.

Local Abbreviation machine := (Machine World Blob).

Lemma getitem_Some {V} (d : gmap string V) k v :
  d !! k = Some v → getitem d k = inr v.
Proof. unfold getitem. by intros ->. Qed.

Lemma machine_eq (m m' : machine) : self m = self m' → proc m = proc m' → m = m'.
Proof. destruct m, m'. simpl. by intros -> ->. Qed.

Lemma append_if_absent_returns read write x l (m : machine) :
  read (self m) = VList l →
  append_if_absent read write x m =
    (inr tt, if bool_decide (x ∈ l) then m
             else {| self := write (VList (l ++ [x])) (self m); proc := proc m |}).
Proof.
  intros Hr. unfold append_if_absent. run. rewrite Hr. simpl. run.
  destruct (bool_decide (x ∈ l)); run; reflexivity.
Qed.

Lemma ensure_network_returns zone entry (m : machine) :
  getitem CLASSES (cloud (self m)) = inr entry →
  ∃ m' net,
    ensure_network zone m = (inr tt, m') ∧
    networks (self m') !! zone = Some net ∧
    proc m' = proc m ∧
    set_networks ∅ (set_network_objects [] (self m'))
    = set_networks ∅ (set_network_objects [] (self m)).
Proof.
  intros Hc. unfold ensure_network. run.
  destruct (networks (self m) !! zone) as [net|] eqn:Hz.
  - exists m, net. by split_and!.
  - rewrite Hc. run. unfold new_network. run.
    eexists _, _. split; [reflexivity|]. fields.
    split_and!; [apply lookup_insert_eq | reflexivity | reflexivity].
Qed.

Lemma new_vms_returns {A} (l : list A) cls spec (m : machine) :
  comprehension l (λ _, new_vm cls spec) m =
    (inr (seq (length (vm_objects (self m))) (length l)),
     {| self := set_vm_objects
                  (vm_objects (self m)
                   ++ replicate (length l) (instance_with cls spec []))
                  (self m);
        proc := proc m |}).
Proof.
  revert m. induction l as [|x l IH]; intros m; simpl.
  - rewrite app_nil_r. run. f_equal. apply machine_eq; [|done]. by destruct (self m).
  - rewrite run_bind. unfold new_vm at 1. run. rewrite run_bind, IH. fields.
    rewrite length_app, <- app_assoc. simpl. rewrite Nat.add_1_r. reflexivity.
Qed.

(** One disk spec appended to each of the new virtual machines. *)
Lemma append_disk_spec_each d cls spec ds V k j (m : machine) :
  vm_objects (self m)
  = V ++ replicate k (instance_with cls spec (ds ++ [d]))
      ++ replicate j (instance_with cls spec ds) →
  for_each (seq (length V + k) j) (append_disk_spec d) m =
    (inr tt,
     {| self := set_vm_objects
                  (V ++ replicate (k + j) (instance_with cls spec (ds ++ [d])))
                  (self m);
        proc := proc m |}).
Proof.
  revert k m. induction j as [|j IH]; intros k m Hobjs; simpl.
  - rewrite app_nil_r in Hobjs. rewrite Nat.add_0_r, <- Hobjs. run.
    f_equal. apply machine_eq; [|done]. by destruct (self m).
  - rewrite run_bind. unfold append_disk_spec at 1. rewrite run_assign.
    replace (S (length V + k)) with (length V + S k)%nat by lia.
    rewrite IH.
    + fields. by replace (S k + j)%nat with (k + S j)%nat by lia.
    + fields. rewrite Hobjs.
      rewrite alter_app_r.
      replace k with (length (replicate k (instance_with cls spec (ds ++ [d]))) + 0)%nat
        at 1 by (rewrite length_replicate; lia).
      rewrite alter_app_r. simpl. f_equal.
      change {| kind := Instance cls spec; disk_specs := ds ++ [d] |}
        with (instance_with cls spec (ds ++ [d])).
      by rewrite cons_middle, app_assoc, <- replicate_cons_app.
Qed.

(** The loop over the options of the section. *)
Lemma attach_declared_disks node_section cls spec V n keys :
  ∀ ds0 ds (m : machine),
    vm_objects (self m) = V ++ replicate n (instance_with cls spec ds0) →
    Forall2 (λ option d, declared_disk (cloud (self m)) node_section option = inr d)
      (filter (λ option, startswith option OPTION_PD_PREFIX = true) keys) ds →
    for_each keys (λ option,
      if startswith option OPTION_PD_PREFIX then
        v ← check (alist_getitem node_section option);
        s ← get_self;
        disk_spec ← check (parse_disk_spec (cloud s) v);
        for_each (seq (length V) n) (append_disk_spec disk_spec)
      else mret tt) m =
    (inr tt,
     {| self := set_vm_objects
                  (V ++ replicate n (instance_with cls spec (ds0 ++ ds))) (self m);
        proc := proc m |}).
Proof.
  induction keys as [|key keys IH]; intros ds0 ds m Hobjs Hds; simpl.
  - rewrite filter_nil in Hds. apply Forall2_nil_inv_l in Hds as ->.
    rewrite app_nil_r, <- Hobjs. run.
    f_equal. apply machine_eq; [|done]. by destruct (self m).
  - rewrite run_bind. destruct (startswith key OPTION_PD_PREFIX) eqn:Hkey.
    + rewrite filter_cons_True in Hds by done.
      apply Forall2_cons_inv_l in Hds as (d & ds' & Hd & Hds & ->).
      unfold declared_disk in Hd.
      destruct (alist_getitem node_section key) as [e|v]; [discriminate|].
      run. rewrite Hd. run.
      pose proof (append_disk_spec_each d cls spec ds0 V 0 n m) as Happ.
      simpl in Happ. rewrite Nat.add_0_r in Happ. rewrite Happ by exact Hobjs.
      rewrite (IH (ds0 ++ [d]) ds'); fields; [|reflexivity|exact Hds].
      by rewrite <- app_assoc.
    + rewrite filter_cons_False in Hds by (rewrite Hkey; discriminate).
      run. by apply IH.
Qed.

Lemma node_section_construction node_section node_name zone node_image vm_type
    count n entry members ds (m : machine) :
  section_resolves (self m) node_section node_name zone node_image vm_type
    count n entry members →
  Forall2 (λ option d, declared_disk (cloud (self m)) node_section option = inr d)
    (pd_options node_section) ds →
  ∃ m',
    CreateVirtualMachineFromNodeSection node_section node_name m = (inr tt, m') ∧
    node_group_built (self m) (self m') node_name zone node_image vm_type entry
      members (Z.to_nat n) ds.
Proof.
  intros ([zs Hzs] & [imgs Himgs] & [mts Hmts] & Hzone & Himg & Hvt
          & Hcount & Hint & Hcls & Hgrp) Hds.
  unfold pd_options in Hds.
  unfold CreateVirtualMachineFromNodeSection, alist_getitem.
  run. rewrite Hzone. run.
  rewrite run_bind, (append_if_absent_returns zones set_zones zone zs m Hzs).
  destruct (bool_decide (zone ∈ zs)); rewrite Himg; run;
    (rewrite run_bind, (append_if_absent_returns image set_image node_image imgs)
       by exact Himgs);
    destruct (bool_decide (node_image ∈ imgs)); rewrite Hvt; run;
    (rewrite run_bind,
       (append_if_absent_returns machine_type set_machine_type vm_type mts)
       by exact Hmts);
    destruct (bool_decide (vm_type ∈ mts)); rewrite run_bind.
  all: match goal with
       | |- context [ensure_network ?z ?m3] =>
           destruct (ensure_network_returns z entry m3)
             as (m4 & net & -> & Hnet & Hp4 & Hf4); [exact Hcls|]
       end.
  all: pose proof (f_equal cloud Hf4) as Hcloud;
       pose proof (f_equal project Hf4) as Hproject;
       pose proof (f_equal vm_objects Hf4) as Hobjs;
       pose proof (f_equal vms Hf4) as Hvms;
       pose proof (f_equal vm_dict Hf4) as Hdict; clear Hf4; fields.
  all: run; rewrite (getitem_Some _ _ _ Hnet); run.
  all: rewrite Hcloud, Hcls, Hcount; run; rewrite Hint; run.
  all: rewrite run_bind, new_vms_returns; run.
  all: unfold extend_group; run; rewrite Hdict, (getitem_Some _ _ _ Hgrp); run.
  all: unfold range; rewrite length_seq, Hobjs.
  all: erewrite (attach_declared_disks node_section _ _ (vm_objects (self m))
                   (Z.to_nat n) _ [] ds); fields;
         [| reflexivity | rewrite Hcloud; exact Hds].
  all: eexists; split; [reflexivity|]; exists net; fields.
  all: split_and!;
         [ exact Hnet | by rewrite Hvms | unfold group; fields; by rewrite lookup_insert_eq
         | apply length_seq | ].
  all: intros vm [Hge Hlt]%elem_of_seq; rewrite Hproject.
  all: rewrite lookup_app_r by lia; apply lookup_replicate_2; lia.
Qed.

(** C4.  A node section resolved on a plan under construction adds to the
    group of its name as many virtual machines as its count says, and every
    option whose name starts with the persistent-disk prefix gives one disk
    spec, carried by each of these virtual machines, in the order of the
    section.  In particular a section whose only such option is
    pd_scratch0 = "100:ssd:/scratch0" and whose count is 3 gives a group of
    three virtual machines, each with exactly the disk spec of size 100, of
    the provider's type for ssd, mounted at "/scratch0". *)
Theorem node_section_disk_specs (node_section : list (string * string))
    (node_name zone node_image vm_type : string) (entry : classes_entry)
    (members : list nat) (m : machine) :
  (∀ count n ds,
     section_resolves (self m) node_section node_name zone node_image vm_type
       count n entry members →
     Forall2 (λ option d, declared_disk (cloud (self m)) node_section option = inr d)
       (pd_options node_section) ds →
     length ds = length (pd_options node_section) ∧
     ∃ m',
       CreateVirtualMachineFromNodeSection node_section node_name m = (inr tt, m') ∧
       node_group_built (self m) (self m') node_name zone node_image vm_type entry
         members (Z.to_nat n) ds) ∧
  (∀ alias,
     section_resolves (self m) node_section node_name zone node_image vm_type
       "3" 3 entry members →
     pd_options node_section = ["pd_scratch0"] →
     alist_get node_section "pd_scratch0" = Some "100:ssd:/scratch0" →
     disk_alias (cloud (self m)) SSD = inr alias →
     ∃ m',
       CreateVirtualMachineFromNodeSection node_section node_name m = (inr tt, m') ∧
       node_group_built (self m) (self m') node_name zone node_image vm_type entry
         members 3
         [{| disk_size := 100; disk_type := alias; mount_point := "/scratch0" |}]).
Proof.
  split.
  - intros count n ds Hres Hds. split; [symmetry; by eapply Forall2_length|].
    by eapply node_section_construction.
  - intros alias Hres Hpd Hget Halias.
    apply (node_section_construction _ _ _ _ _ _ _ _ _ _ _ Hres).
    rewrite Hpd. constructor; [|constructor].
    unfold declared_disk, alist_getitem. rewrite Hget.
    unfold parse_disk_spec.
    change (split ascii_colon "100:ssd:/scratch0") with ["100"; "ssd"; "/scratch0"].
    cbv beta iota.
    change (int "100") with (inr (B := Z) (A := exn) 100).
    cbv beta iota. change (disk_alias ?c "ssd") with (disk_alias c SSD).
    rewrite Halias. reflexivity.
Qed.

End NodeSection.

Lemma node_section_disk_specs_witness :
  let ext := Sample.externals Sample.reliable in
  let entry := {| VIRTUAL_MACHINE := GceVirtualMachine; NETWORK := GceNetwork;
                  FIREWALL := GceFirewall |} in
  section_resolves SampleTopology.plan SampleTopology.node_section "workers"
    "us-central1-a" "debian-7-backports" "n1-standard-4" "3" 3 entry [] ∧
  pd_options (Externals0 := ext) SampleTopology.node_section = ["pd_scratch0"] ∧
  ∃ m',
    CreateVirtualMachineFromNodeSection (Externals0 := ext)
      SampleTopology.node_section "workers" SampleTopology.machine = (inr tt, m') ∧
    node_group_built SampleTopology.plan (self m') "workers" "us-central1-a"
      "debian-7-backports" "n1-standard-4" entry [] 3
      [{| disk_size := 100; disk_type := Some "pd-ssd"; mount_point := "/scratch0" |}].
Proof.
  intros ext entry.
  assert (section_resolves SampleTopology.plan SampleTopology.node_section "workers"
            "us-central1-a" "debian-7-backports" "n1-standard-4" "3" 3 entry [])
    as Hres.
  { split_and!; try (eexists; reflexivity); vm_compute; reflexivity. }
  assert (pd_options (Externals0 := ext) SampleTopology.node_section = ["pd_scratch0"])
    as Hpd by (vm_compute; reflexivity).
  split; [exact Hres|]. split; [exact Hpd|].
  exact (proj2 (node_section_disk_specs (Externals0 := ext)
                  SampleTopology.node_section "workers" "us-central1-a"
                  "debian-7-backports" "n1-standard-4" entry [] SampleTopology.machine)
           (Some "pd-ssd") Hres Hpd eq_refl eq_refl).
Defined.

(** The same section through [__init__]: the plan has the three virtual
    machines in the group "workers", each with the one disk spec. *)
Example topology_plan :
  match __init__ (Externals0 := Sample.externals Sample.reliable)
          SampleTopology.flags [] Sample.info Sample.process0 with
  | (inr s, _) =>
      group s "workers" = Some [0; 1; 2]%nat ∧ num_vms s = Some 3 ∧
      vm_disk_specs s <$> [0; 1; 2]%nat
      = replicate 3 [{| disk_size := 100; disk_type := Some "pd-ssd";
                        mount_point := "/scratch0" |}]
  | (inl _, _) => False
  end.
Proof. vm_compute. split_and!; reflexivity. Qed.

(** ** Zones of the virtual machines built from flags *)

Section Zones.

Context {World Blob : Type} `{!Externals World Blob}.
Variable FLAGS : Flags.

Local Abbreviation machine := (Machine World Blob).

Lemma settled_refl s : settled s s.
Proof. by split_and!. Qed.

Lemma settled_trans s0 s1 s2 : settled s0 s1 → settled s1 s2 → settled s0 s2.
Proof.
  intros (? & ? & ? & ? & ?) (? & ? & ? & ? & ?).
  split_and!; try congruence. by etrans.
Qed.

Lemma settled_kind_of s0 s vm k : settled s0 s → kind_of s0 vm = Some k → kind_of s vm = Some k.
Proof.
  intros (_ & _ & _ & _ & Hp). unfold kind_of. rewrite <- !list_lookup_fmap.
  intros Hk. by eapply prefix_lookup_Some.
Qed.

Lemma CreateVirtualMachine_returns opt_zone entry zone (m : machine) :
  getitem CLASSES (cloud (self m)) = inr entry →
  zone_or_default opt_zone (zones (self m)) = inr zone →
  ∃ vm m',
    CreateVirtualMachine opt_zone m = (inr vm, m') ∧
    world (proc m') = (GetStaticVirtualMachine (world (proc m))).2 ∧
    settled (self m) (self m') ∧
    match (GetStaticVirtualMachine (world (proc m))).1 with
    | Some r => vm = r
    | None => ∃ cls spec,
        kind_of (self m') vm = Some (Instance cls spec) ∧ spec_zone spec = zone
    end.
Proof.
  intros Hcls Hzone. unfold CreateVirtualMachine. rewrite run_bind.
  unfold in_process, static_vm.
  destruct (GetStaticVirtualMachine (world (proc m))) as [[r|] w]; simpl.
  - run. eexists _, _. split; [reflexivity|]. split; [done|]. split; [apply settled_refl | done].
  - run. rewrite Hcls. run. rewrite Hzone. run. rewrite run_bind.
    match goal with
    | |- context [ensure_network zone ?m1] =>
        destruct (ensure_network_returns zone entry m1)
          as (m2 & net & -> & Hnet & Hp2 & Hf2); [exact Hcls|]
    end.
    pose proof (f_equal cloud Hf2) as Hcloud.
    pose proof (f_equal project Hf2) as Hproject.
    pose proof (f_equal zones Hf2) as Hzones.
    pose proof (f_equal vms Hf2) as Hvms.
    pose proof (f_equal vm_objects Hf2) as Hobjs. clear Hf2. fields.
    run. rewrite (getitem_Some _ _ _ Hnet). run. unfold new_vm. run.
    eexists _, _. split; [reflexivity|]. fields.
    split; [by rewrite Hp2|]. split.
    + unfold settled. fields. split_and!; try done.
      rewrite Hobjs, fmap_app. by apply prefix_app_r.
    + eexists _, _. unfold kind_of. fields.
      rewrite lookup_app_r, Nat.sub_diag by done. split; reflexivity.
Qed.
Lemma item_assigned Z i :
  Z ≠ [] →
  ∃ z, item (VList Z) (Z.min (Z.of_nat i) (Z.of_nat (length Z) - 1)) = inr z ∧
       assigned_zone Z i = Some z.
Proof.
  intros HZ. unfold item, assigned_zone.
  assert (0 < length Z)%nat as Hlen by (destruct Z; [done | simpl; lia]).
  replace (Z.min (Z.of_nat i) (Z.of_nat (length Z) - 1))
    with (Z.of_nat (i `min` (length Z - 1))) by lia.
  assert ((Z.of_nat (i `min` (length Z - 1)) <? 0) = false) as Hnn
    by (apply Z.ltb_ge; lia).
  cbv zeta. rewrite Hnn, Hnn, Nat2Z.id.
  destruct (lookup_lt_is_Some_2 Z (i `min` (length Z - 1))) as [z Hz]; [lia|].
  rewrite Hz. eauto.
Qed.

Lemma zone_or_default_returns Z z :
  Z ≠ [] → ∃ zone, zone_or_default (Some z) (VList Z) = inr zone.
Proof. intros HZ. destruct z; [destruct Z; [done | simpl; eauto] | simpl; eauto]. Qed.

(** The list comprehension of [__init__] that constructs the virtual
    machines. *)
Lemma construction_loop Z entry idxs :
  Z ≠ [] →
  ∀ m : machine,
    getitem CLASSES (cloud (self m)) = inr entry →
    zones (self m) = VList Z →
    ∃ created m',
      comprehension idxs (λ index,
        s ← get_self;
        count ← check (len (zones s));
        zone ← check (item (zones s) (Z.min (Z.of_nat index) (count - 1)));
        CreateVirtualMachine (Some zone)) m = (inr created, m') ∧
      settled (self m) (self m') ∧
      length created = length idxs ∧
      ∀ k i, idxs !! k = Some i →
        match pool_answers (length idxs) (world (proc m)) !! k with
        | Some (Some r) => created !! k = Some r
        | Some None =>
            ∃ vm cls spec,
              created !! k = Some vm ∧
              kind_of (self m') vm = Some (Instance cls spec) ∧
              (assigned_zone Z i ≫= λ z, Some (zone_or_default (Some z) (VList Z)))
              = Some (inr (spec_zone spec))
        | None => False
        end.
Proof.
  intros HZ. induction idxs as [|i idxs IH]; intros m Hcls Hzones; simpl.
  - run. eexists _, _. split; [reflexivity|]. split; [apply settled_refl|].
    split; [done|]. intros k i Hk. by rewrite lookup_nil in Hk.
  - rewrite run_bind. run. rewrite Hzones. simpl len. run.
    destruct (item_assigned Z i HZ) as (z & -> & Hz). run.
    destruct (zone_or_default_returns Z z HZ) as [zone Hzone].
    destruct (CreateVirtualMachine_returns (Some z) entry zone m Hcls)
      as (vm & m1 & -> & Hw & Hs1 & Hvm); [by rewrite Hzones|].
    rewrite run_bind.
    destruct (IH m1) as (created & m' & -> & Hs & Hlen & Hall).
    { by destruct Hs1 as (-> & _). }
    { by destruct Hs1 as (_ & -> & _). }
    run. eexists _, _. split; [reflexivity|].
    split; [by eapply settled_trans|]. split; [simpl; by rewrite Hlen|].
    intros [|k] i' Hk; simpl in Hk |- *.
    + injection Hk as <-.
      destruct (GetStaticVirtualMachine (world (proc m))).1 as [r|]; [by subst|].
      destruct Hvm as (cls & spec & Hkind & Hsz).
      exists vm, cls, spec. split; [done|].
      split; [by eapply settled_kind_of|]. rewrite Hz.
      change (Some (zone_or_default (Some z) (VList Z)) = Some (inr (spec_zone spec))).
      by rewrite Hzone, Hsz.
    + rewrite <- Hw. by apply Hall.
Qed.

Lemma kinds_append_disk_spec d vm (l : list VirtualMachine) :
  kind <$> alter (λ o, {| kind := kind o; disk_specs := disk_specs o ++ [d] |}) vm l
  = kind <$> l.
Proof.
  apply list_eq. intros i. rewrite !list_lookup_fmap, list_lookup_alter.
  case_decide; [subst i|done]. by destruct (l !! vm).
Qed.

Lemma append_disk_specs_returns d l (m : machine) :
  ∃ m', for_each l (append_disk_spec d) m = (inr tt, m') ∧
        settled (self m) (self m').
Proof.
  revert m. induction l as [|vm l IH]; intros m; simpl.
  - run. eexists. split; [reflexivity | apply settled_refl].
  - rewrite run_bind. unfold append_disk_spec at 1. rewrite run_assign.
    match goal with
    | |- context [for_each l _ ?m1] => destruct (IH m1) as (m' & -> & Hs)
    end.
    eexists. split; [reflexivity|]. eapply settled_trans; [|exact Hs].
    unfold settled. fields. split_and!; try done.
    by rewrite kinds_append_disk_spec.
Qed.

(** The loop of [__init__] that attaches the scratch disks. *)
Lemma scratch_disks_loop size alias l :
  ∀ m : machine,
    disk_alias (cloud (self m)) STANDARD = inr alias →
    ∃ m',
      for_each l (λ i : nat,
        s ← get_self;
        alias ← check (disk_alias (cloud s) STANDARD);
        for_each (vms s)
          (append_disk_spec {| disk_size := size; disk_type := alias;
                               mount_point := "/scratch" +:+ pretty i |})) m
      = (inr tt, m') ∧
      settled (self m) (self m').
Proof.
  induction l as [|i l IH]; intros m Halias; simpl.
  - run. eexists. split; [reflexivity | apply settled_refl].
  - rewrite run_bind. run. rewrite Halias. run.
    match goal with
    | |- context [for_each (vms (self m)) (append_disk_spec ?d) m] =>
        destruct (append_disk_specs_returns d (vms (self m)) m) as (m1 & -> & Hs1)
    end.
    destruct (IH m1) as (m' & -> & Hs).
    { by destruct Hs1 as (-> & _). }
    eexists. split; [reflexivity|]. by eapply settled_trans.
Qed.

Lemma lookup_pool_answers n w i :
  (i < n)%nat → is_Some (pool_answers n w !! i).
Proof.
  revert w i. induction n as [|n IH]; intros w [|i] Hi; simpl; try lia; eauto.
  apply IH. lia.
Qed.

(** C1, as the code has it.  Built from flags for a registered provider,
    the plan has as many virtual machines as asked, and the one at index
    [i] is the one the static pool handed out at its turn, if it did, and
    otherwise a new virtual machine whose zone is [Z[min(i, len(Z) - 1)]]
    for the resolved zone list [Z]: the zones in order, then the last one
    again and again; when that entry is the empty string the zone is
    [Z[0]]. *)
Theorem zone_assignment static info (p : Process World Blob) defaults :
  FLAGS_benchmark_config_pair FLAGS !! info_name info = None →
  FLAGS_cloud FLAGS ∈ registered →
  getitem DEFAULTS (FLAGS_cloud FLAGS) = inr defaults →
  let Z := resolved_zones FLAGS defaults in
  let N := Z.to_nat (resolved_num_vms FLAGS info) in
  ∃ s p',
    __init__ FLAGS static info p = (inr s, p') ∧
    zones s = VList Z ∧
    length (vms s) = N ∧
    ∀ i, (i < N)%nat →
      match pool_answers N (world p) !! i with
      | Some (Some vm) => vms s !! i = Some vm
      | _ => ∃ z, assigned_zone Z i = Some z ∧
                  zone_of_vm s i = if decide (z = "") then head Z else Some z
      end.
Proof.
  intros Hnone Hreg Hdefaults Z N.
  destruct (CLASSES_registered _ Hreg) as [entry Hcls].
  destruct (standard_registered _ Hreg) as [alias Halias].
  assert (Z ≠ []) as HZ by (unfold Z, resolved_zones; by destruct (FLAGS_zones FLAGS)).
  unfold __init__, init_body. rewrite Hnone. run.
  unfold init_from_flags. run. rewrite Hdefaults. run.
  fold (resolved_zones FLAGS defaults). fold Z. fold (resolved_num_vms FLAGS info).
  rewrite run_bind.
  match goal with
  | |- context [comprehension _ _ ?m1] =>
      destruct (construction_loop Z entry (range (resolved_num_vms FLAGS info)) HZ m1)
        as (created & m2 & -> & Hs2 & Hlen & Hall); [exact Hcls | reflexivity |]
  end.
  fields. run. rewrite run_bind.
  match goal with
  | |- context [for_each _ _ ?m3] =>
      destruct (scratch_disks_loop (FLAGS_scratch_disk_size FLAGS) alias
                  (range (info_scratch_disk info)) m3) as (m4 & -> & Hs4)
  end.
  { fields. by destruct Hs2 as (-> & _). }
  fields. destruct Hs2 as (Hc2 & Hz2 & _ & _ & Hk2).
  destruct Hs4 as (Hc4 & Hz4 & _ & Hv4 & Hk4). fields.
  run. rewrite Hc4, Hc2, Hcls. run.
  eexists _, _. split; [reflexivity|]. fields.
  unfold range in Hlen, Hall. rewrite length_seq in Hlen, Hall.
  split; [by rewrite Hz4, Hz2|]. split; [by rewrite Hv4|].
  intros i Hi. specialize (Hall i i (lookup_seq_lt _ _ _ Hi)). fold N in Hall.
  destruct (lookup_pool_answers N (world p) i Hi) as [answer Ha].
  rewrite Ha in Hall |- *. destruct answer as [r|]; [by rewrite Hv4|].
  destruct Hall as (vm & cls & spec & Hvm & Hkind & Hzone).
  destruct (assigned_zone Z i) as [z|]; [|discriminate]. exists z. split; [done|].
  unfold zone_of_vm, kind_of. fields. rewrite Hv4, Hvm. simpl.
  assert (kind_of (self m4) vm = Some (Instance cls spec)) as Hkind4.
  { unfold kind_of in *. rewrite <- list_lookup_fmap in *.
    eapply prefix_lookup_Some; [|exact Hk4]. fields.
    eapply prefix_lookup_Some; [exact Hkind | reflexivity]. }
  unfold kind_of in Hkind4. rewrite Hkind4. simpl.
  injection Hzone as Hzone. case_decide as Hz; [subst z|].
  - destruct Z as [|z0 Z']; [done|]. simpl in Hzone. by injection Hzone as ->.
  - destruct z; [done|]. simpl in Hzone. by injection Hzone as ->.
Qed.

End Zones.

Lemma zone_assignment_witness :
  let ext := Sample.externals Sample.reliable in
  let defaults := {| IMAGE := Some "debian-7-backports";
                     MACHINE_TYPE := "n1-standard-1"; ZONE := "us-central1-a" |} in
  FLAGS_benchmark_config_pair Sample.flags !! info_name Sample.info = None ∧
  FLAGS_cloud Sample.flags ∈ registered ∧
  getitem DEFAULTS (FLAGS_cloud Sample.flags) = inr defaults ∧
  ∃ s p',
    __init__ (Externals0 := ext) Sample.flags [] Sample.info Sample.process0
    = (inr s, p') ∧
    zone_of_vm s <$> [0; 1; 2; 3; 4]%nat
    = [Some "z1"; Some "z2"; Some "z2"; Some "z2"; Some "z2"].
Proof.
  intros ext defaults.
  assert (FLAGS_benchmark_config_pair Sample.flags !! info_name Sample.info = None)
    as Hnone by reflexivity.
  assert (FLAGS_cloud Sample.flags ∈ registered) as Hreg
    by (apply (bool_decide_unpack _); vm_compute; exact I).
  assert (getitem DEFAULTS (FLAGS_cloud Sample.flags) = inr defaults) as Hdefaults
    by (vm_compute; reflexivity).
  split; [exact Hnone|]. split; [exact Hreg|]. split; [exact Hdefaults|].
  destruct (zone_assignment (Externals0 := ext) Sample.flags [] Sample.info
              Sample.process0 defaults Hnone Hreg Hdefaults)
    as (s & p' & Hinit & _).
  exists s, p'. split; [exact Hinit|].
  vm_compute in Hinit. injection Hinit as <- _. vm_compute. reflexivity.
Defined.

(** C1 as stated fails on an empty zone name: with the zones "z1" and "",
    the second virtual machine is in "z1", not in the second zone. *)
Lemma zone_assignment_empty_zone :
  (__init__ (Externals0 := Sample.externals Sample.reliable)
     EmptyZone.flags [] Sample.info Sample.process0).1 = inr EmptyZone.plan ∧
  assigned_zone (FLAGS_zones EmptyZone.flags) 1 = Some "" ∧
  zone_of_vm EmptyZone.plan 1 = Some "z1" ∧
  zone_of_vm EmptyZone.plan 1 ≠ assigned_zone (FLAGS_zones EmptyZone.flags) 1.
Proof.
  split_and!; [vm_compute; reflexivity | reflexivity | reflexivity | discriminate].
Qed.


(** ** More on the snapshot *)

Section SnapshotMore.

Context {World Blob : Type} `{!Externals World Blob}.

Local Abbreviation machine := (Machine World Blob).
Local Abbreviation process := (Process World Blob).

(** [GetSpecFromFile] returns a plan exactly when the file of the
    benchmark exists, is readable and unpickles to that plan; it then leaves
    the process as it is and logs nothing. *)
Theorem GetSpecFromFile_returns_iff name (p p' : process) (s : BenchmarkSpec) :
  GetSpecFromFile name p = (inr s, p') ↔
  p' = p ∧
  ∃ f, files p !! snapshot_path (GetTempDir (world p)) name = Some f ∧
       f_readable f = true ∧ pickle_load (f_data f) = inr s.
Proof.
  rewrite GetSpecFromFile_run.
  destruct (files p !! _) as [f|] eqn:Hf.
  - destruct (f_readable f) eqn:Hr.
    + destruct (pickle_load (f_data f)) as [e|s'] eqn:Hl.
      * split; [discriminate|]. intros (_ & f' & [= <-] & _ & Hl'). congruence.
      * split.
        -- intros [= -> ->]. split; [done|]. by exists f.
        -- intros (-> & f' & [= <-] & _ & Hl'). congruence.
    + split; [discriminate|]. intros (_ & f' & [= <-] & Hr' & _). congruence.
  - split; [discriminate|]. intros (_ & f' & [=] & _).
Qed.

Lemma PickleSpec_frame (m : machine) :
  self (PickleSpec m).2 = self m ∧
  world (proc (PickleSpec m).2) = world (proc m) ∧
  trace (proc (PickleSpec m).2) = trace (proc m) ∧
  ∀ path, file_name (self m) ≠ Some path →
    files (proc (PickleSpec m).2) !! path = files (proc m) !! path.
Proof.
  unfold PickleSpec. rewrite run_bind_get_self.
  destruct (file_name (self m)) as [path|] eqn:Hn; [|by split_and!].
  rewrite run_bind_getattr. unfold in_process, write_file.
  destruct (files (proc m) !! path) as [f|] eqn:Hf;
    [destruct (f_writable f)|]; simpl; split_and!; try done;
    intros path' Hne; rewrite lookup_insert_ne; congruence.
Qed.

(** [PickleSpec] touches nothing but the file named by [self.file_name]:
    the plan, the world, the trace and every other file are as before;
    without a file name it raises [AttributeError], and on a file that
    cannot be written [IOError], leaving all files as they were. *)
Theorem PickleSpec_touches_only_its_file (m : machine) :
  let m' := (PickleSpec m).2 in
  self m' = self m ∧
  world (proc m') = world (proc m) ∧
  trace (proc m') = trace (proc m) ∧
  (∀ path, file_name (self m) ≠ Some path →
     files (proc m') !! path = files (proc m) !! path) ∧
  (file_name (self m) = None →
     PickleSpec m = (inl (AttributeError "file_name"), m)) ∧
  (∀ path f, file_name (self m) = Some path →
     files (proc m) !! path = Some f → f_writable f = false →
     (PickleSpec m).1 = inl (IOError path) ∧ files (proc m') = files (proc m)).
Proof.
  intros m'. destruct (PickleSpec_frame m) as (Hs & Hw & Ht & Hf).
  split_and!; try done.
  - intros Hn. unfold PickleSpec. rewrite run_bind_get_self, Hn. by destruct m.
  - intros path f Hn Hpath Hwr. unfold m', PickleSpec.
    rewrite run_bind_get_self, Hn, run_bind_getattr.
    unfold in_process, write_file. rewrite Hpath, Hwr. done.
Qed.

(** Saving under one benchmark name does not change what loading another
    benchmark name gives. *)
Theorem snapshot_names_do_not_interfere (m : machine) (name name' : string) :
  file_name (self m) = Some (snapshot_path (GetTempDir (world (proc m))) name) →
  name ≠ name' →
  (GetSpecFromFile name' (proc (PickleSpec m).2)).1
  = (GetSpecFromFile name' (proc m)).1.
Proof.
  intros Hn Hne.
  destruct (PickleSpec_frame m) as (_ & Hw & _ & Hfiles).
  rewrite !GetSpecFromFile_run, Hw, Hfiles.
  - by destruct (files (proc m) !! _) as [f|];
      [destruct (f_readable f); [destruct (pickle_load _)|]|].
  - rewrite Hn. intros [= Heq]. apply Hne. unfold snapshot_path in Heq.
    by do 2 apply (inj (String.app _)) in Heq.
Qed.

(** The snapshot holds the plan that was saved last: after two plans were
    saved to the same file, loading gives the second. *)
Theorem snapshot_holds_last_saved (first second : BenchmarkSpec) (p : process)
    (name : string) :
  (∀ s, pickle_load (pickle_dump s) = inr s) →
  file_name first = Some (snapshot_path (GetTempDir (world p)) name) →
  file_name second = file_name first →
  usable (files p) (snapshot_path (GetTempDir (world p)) name) →
  ∃ m1 m2,
    PickleSpec {| self := first; proc := p |} = (inr tt, m1) ∧
    PickleSpec {| self := second; proc := proc m1 |} = (inr tt, m2) ∧
    GetSpecFromFile name (proc m2) = (inr second, proc m2).
Proof.
  intros Hpickle Hn1 Hn2 Hu.
  destruct (PickleSpec_run {| self := first; proc := p |} _ Hn1 Hu)
    as (f1 & Hsave1 & Hr1 & Hd1).
  rewrite Hn1 in Hn2.
  eexists _, _. split; [exact Hsave1|]. simpl.
  unfold PickleSpec. rewrite run_bind_get_self. simpl. rewrite Hn2, run_bind_getattr.
  unfold in_process, write_file. simpl. rewrite lookup_insert_eq.
  destruct (f_writable f1) eqn:Hw1.
  - split; [reflexivity|]. rewrite GetSpecFromFile_run. simpl.
    rewrite lookup_insert_eq. simpl. by rewrite Hr1, Hpickle.
  - exfalso. revert Hsave1 Hw1. unfold PickleSpec.
    rewrite run_bind_get_self. simpl. rewrite Hn1, run_bind_getattr.
    unfold in_process, write_file, usable in *. simpl in *.
    destruct (files p !! _) as [f|].
    + destruct Hu as [-> _]. intros [= Heq]. apply (f_equal (lookup (snapshot_path (GetTempDir (world p)) name))) in Heq.
      rewrite !lookup_insert_eq in Heq. injection Heq as <-. done.
    + intros [= Heq]. apply (f_equal (lookup (snapshot_path (GetTempDir (world p)) name))) in Heq.
      rewrite !lookup_insert_eq in Heq. injection Heq as <-. done.
Qed.

End SnapshotMore.

(** ** What Prepare and Delete call *)

Section Calls.

Context {World Blob : Type} `{!Externals World Blob}.
Variable FLAGS : Flags.

Local Abbreviation machine := (Machine World Blob).
Local Abbreviation process := (Process World Blob).

Lemma adds_only_ret {A} φ (x : A) : adds_only (World := World) (Blob := Blob) φ (mret x).
Proof. intros m. exists []. by rewrite app_nil_r. Qed.

Lemma adds_only_throw {A} φ (e : exn) :
  adds_only (World := World) (Blob := Blob) (A := A) φ (mthrow e).
Proof. intros m. exists []. by rewrite app_nil_r. Qed.

Lemma adds_only_check {A} φ (r : exn + A) :
  adds_only (World := World) (Blob := Blob) φ (check r).
Proof. destruct r; [apply adds_only_throw | apply adds_only_ret]. Qed.

Lemma adds_only_getattr {A} φ name (a : option A) :
  adds_only (World := World) (Blob := Blob) φ (getattr name a).
Proof. destruct a; [apply adds_only_ret | apply adds_only_throw]. Qed.

Lemma adds_only_get_self φ : adds_only (World := World) (Blob := Blob) φ get_self.
Proof. intros m. exists []. by rewrite app_nil_r. Qed.

Lemma adds_only_assign φ f : adds_only (World := World) (Blob := Blob) φ (assign f).
Proof. intros m. exists []. by rewrite app_nil_r. Qed.

Lemma adds_only_call (φ : Event → Prop) c :
  φ (Called c) → adds_only φ (in_process (call c)).
Proof.
  intros Hφ m. exists [Called c]. unfold in_process, call.
  destruct (provider_call c (world (proc m))) as [r w]. simpl.
  split; [done | by constructor].
Qed.

Lemma adds_only_emit (φ : Event → Prop) e :
  φ e → adds_only (World := World) (Blob := Blob) φ (in_process (emit e)).
Proof. intros Hφ m. exists [e]. split; [done | by constructor]. Qed.

Lemma adds_only_read {A} φ (g : process → A) :
  adds_only φ (in_process (λ p, (inr (g p), p))).
Proof. intros m. exists []. by rewrite app_nil_r. Qed.

Lemma adds_only_bind {A B} φ (c : M machine A) (f : A → M machine B) :
  adds_only φ c → (∀ x, adds_only φ (f x)) → adds_only φ (c ≫= f).
Proof.
  intros Hc Hf m. destruct (Hc m) as (done1 & Ht1 & Hφ1). rewrite run_bind.
  destruct (c m) as [[e|x] m1]; simpl in *; [by exists done1|].
  destruct (Hf x m1) as (done2 & Ht2 & Hφ2). exists (done1 ++ done2).
  split; [by rewrite Ht2, Ht1, app_assoc | by apply Forall_app].
Qed.

Lemma adds_only_for_each {A} φ (l : list A) (body : A → M machine unit) :
  (∀ x, adds_only φ (body x)) → adds_only φ (for_each l body).
Proof.
  intros Hb. induction l as [|x l IH]; simpl; [apply adds_only_ret|].
  apply adds_only_bind; [apply Hb | intros _; exact IH].
Qed.

Lemma adds_only_comprehension {A B} φ (l : list A) (f : A → M machine B) :
  (∀ x, adds_only φ (f x)) → adds_only φ (comprehension l f).
Proof.
  intros Hf. induction l as [|x l IH]; simpl; [apply adds_only_ret|].
  apply adds_only_bind; [apply Hf | intros y].
  apply adds_only_bind; [exact IH | intros ys; apply adds_only_ret].
Qed.

Lemma adds_only_RunThreaded {A} φ (target : A → M machine unit) items :
  (∀ x, adds_only φ (target x)) → adds_only φ (RunThreaded target items).
Proof.
  intros Ht. induction items as [|x items IH]; intros m; simpl.
  - exists []. by rewrite app_nil_r.
  - destruct (Ht x m) as (done1 & Ht1 & Hφ1).
    destruct (target x m) as [r m1]; simpl in *.
    destruct (IH m1) as (done2 & Ht2 & Hφ2).
    destruct (RunThreaded target items m1) as [[e|fs] m2]; simpl in *;
      (exists (done1 ++ done2);
       split; [by rewrite Ht2, Ht1, app_assoc | by apply Forall_app]).
Qed.

Lemma adds_only_if {A} φ (b : bool) (c1 c2 : M machine A) :
  adds_only φ c1 → adds_only φ c2 → adds_only φ (if b then c1 else c2).
Proof. by destruct b. Qed.

End Calls.

Create HintDb adds discriminated.
#[export] Hint Resolve adds_only_ret adds_only_throw adds_only_check
  adds_only_getattr adds_only_get_self adds_only_assign adds_only_read
  adds_only_if : adds.
#[export] Hint Extern 2 (adds_only _ (_ ≫= _)) =>
  apply adds_only_bind; [| intros ?] : adds.
#[export] Hint Extern 2 (adds_only _ (for_each _ _)) =>
  apply adds_only_for_each; intros ? : adds.
#[export] Hint Extern 2 (adds_only _ (comprehension _ _)) =>
  apply adds_only_comprehension; intros ? : adds.
#[export] Hint Extern 2 (adds_only _ (RunThreaded _ _)) =>
  apply adds_only_RunThreaded; intros ? : adds.
#[export] Hint Extern 2 (adds_only _ (in_process (call _))) =>
  apply adds_only_call; exact I : adds.
#[export] Hint Extern 2 (adds_only _ (in_process (emit _))) =>
  apply adds_only_emit; exact I : adds.
#[export] Hint Extern 3 (adds_only _ (match ?x with _ => _ end)) =>
  destruct x : adds.

Section PrepareDelete.

Context {World Blob : Type} `{!Externals World Blob}.
Variable FLAGS : Flags.

Local Abbreviation machine := (Machine World Blob).

(** Whatever the providers do, [Prepare] only logs, creates and sets up,
    and [Delete] only deletes and revokes and logs nothing; neither assigns
    an attribute of the plan other than [deleted]. *)
Theorem Prepare_and_Delete_stay_in_their_lane (m : machine) :
  (∃ done, trace (proc (Prepare m).2) = trace (proc m) ++ done ∧
           Forall prepares done) ∧
  (∃ done, trace (proc (Delete FLAGS m).2) = trace (proc m) ++ done ∧
           Forall tears_down done) ∧
  self (Prepare m).2 = self m ∧
  set_deleted None (self (Delete FLAGS m).2) = set_deleted None (self m).
Proof.
  split_and!.
  - assert (adds_only prepares (Prepare (World := World) (Blob := Blob))) as H
      by (unfold Prepare, PrepareNetwork, PrepareVm; auto 40 with adds).
    apply H.
  - assert (adds_only tears_down (Delete (World := World) (Blob := Blob) FLAGS)) as H
      by (unfold Delete, DeleteVm; auto 40 with adds).
    apply H.
  - assert (keeps (on_self (λ s, s = self m)) (Prepare (World := World) (Blob := Blob)))
      as H by (unfold Prepare; keeps_auto).
    by apply (H m).
  - apply Delete_keeps_attributes.
Qed.

End PrepareDelete.

Section Made.

Context {World Blob : Type} `{!Externals World Blob}.
Variable FLAGS : Flags.

Local Abbreviation machine := (Machine World Blob).

Lemma provider_calls_app l1 l2 :
  provider_calls (l1 ++ l2) = provider_calls l1 ++ provider_calls l2.
Proof. apply omap_app. Qed.

Lemma concat_singletons {A B} (f : A → B) (l : list A) :
  concat ((λ x, [f x]) <$> l) = f <$> l.
Proof. induction l as [|x l IH]; csimpl; [done | by f_equal]. Qed.

Lemma makes_ret {A} (x : A) (m : machine) : makes (mret x) m [] id.
Proof. split_and!; [by eexists | done | by rewrite app_nil_r]. Qed.

Lemma makes_assign g (m : machine) : makes (assign g) m [] g.
Proof. split_and!; [by eexists | done | by rewrite app_nil_r]. Qed.

Lemma makes_call c (m : machine) :
  reliable_provider → makes (in_process (call c)) m [c] id.
Proof.
  intros Hok. unfold makes, in_process, call. specialize (Hok c (world (proc m))).
  destruct (provider_call c (world (proc m))) as [r w]. simpl in *. subst r.
  split_and!; [by eexists | done | by rewrite provider_calls_app].
Qed.

Lemma makes_bind {A B} (c : M machine A) (f : A → M machine B) m L1 L2 g :
  makes c m L1 id →
  (∀ x m1, c m = (inr x, m1) → self m1 = self m → makes (f x) m1 L2 g) →
  makes (c ≫= f) m (L1 ++ L2) g.
Proof.
  intros ([x Hx] & Hs & Ht) Hf. unfold makes. rewrite run_bind.
  destruct (c m) as [[e|x'] m1] eqn:Hc; simpl in *; [discriminate|].
  destruct (Hf x' m1 eq_refl Hs) as (Hr2 & Hs2 & Ht2).
  split_and!; [exact Hr2 | by rewrite Hs2, Hs | by rewrite Ht2, Ht, app_assoc].
Qed.

Lemma makes_bind_last {A B} (c : M machine A) (f : A → M machine B) m L g :
  makes c m L id →
  (∀ x m1, c m = (inr x, m1) → self m1 = self m → makes (f x) m1 [] g) →
  makes (c ≫= f) m L g.
Proof. intros Hc Hf. rewrite <- (app_nil_r L). by apply makes_bind. Qed.

Lemma makes_get_self {B} (f : BenchmarkSpec → M machine B) m L g :
  makes (f (self m)) m L g → makes (get_self ≫= f) m L g.
Proof. intros H. exact H. Qed.

Lemma makes_pure {A B} (x : A) (c : M machine A) (f : A → M machine B) m L g :
  c m = (inr x, m) → makes (f x) m L g → makes (c ≫= f) m L g.
Proof. intros Hc H. unfold makes. rewrite (run_bind_inr _ _ _ _ _ Hc). exact H. Qed.

Lemma makes_for_each {A} (l : list A) (body : A → M machine unit)
    (calls : A → list Call) s :
  (∀ x m, x ∈ l → self m = s → makes (body x) m (calls x) id) →
  ∀ m, self m = s → makes (for_each l body) m (concat (calls <$> l)) id.
Proof.
  induction l as [|x l IH]; intros Hb m Hs; simpl.
  - apply makes_ret.
  - apply (makes_bind _ _ _ (calls x)); [apply Hb; [by left | done]|].
    intros _ m1 _ Hs1. apply IH; [|congruence].
    intros y m' Hy. apply Hb. by right.
Qed.

Lemma makes_RunThreaded {A} (items : list A) (target : A → M machine unit)
    (calls : A → list Call) s :
  (∀ x m, self m = s → makes (target x) m (calls x) id) →
  ∀ m, self m = s →
    makes (RunThreaded target items) m (concat (calls <$> items)) id.
Proof.
  intros Ht. induction items as [|x items IH]; intros m Hs; simpl.
  - split_and!; [by eexists | done | by rewrite app_nil_r].
  - destruct (Ht x m Hs) as (_ & Hs1 & Ht1). unfold makes. simpl.
    destruct (target x m) as [r m1]; simpl in *.
    destruct (IH m1) as ([fs Hfs] & Hs2 & Ht2); [congruence|].
    destruct (RunThreaded target items m1) as [[e|fs'] m2];
      simpl in *; [discriminate|].
    split_and!; [eexists; reflexivity | unfold id in *; congruence
                | by rewrite Ht2, Ht1, app_assoc].
Qed.

Lemma makes_DeleteVm vm (m : machine) :
  reliable_provider → makes (DeleteVm vm) m [VmDelete vm; VmDeleteScratchDisks vm] id.
Proof.
  intros Hok. unfold DeleteVm.
  apply (makes_bind _ _ _ [_] [_]); [by apply makes_call|].
  intros _ m1 _ _. by apply makes_call.
Qed.

Lemma makes_PrepareVm vm fw (m : machine) :
  reliable_provider →
  makes (PrepareVm vm fw) m (prepare_calls vm fw (vm_disk_specs (self m) vm)) id.
Proof.
  intros Hok. pose proof (PrepareVm_emits vm fw m) as He.
  destruct (emits_returns _ _ _ Hok He) as [x Hx].
  destruct He as (Hs & done & Ht & _ & Hd & _).
  split_and!; [by eexists | exact Hs |].
  rewrite Ht, (Hd x Hx), provider_calls_app. f_equal.
  apply provider_calls_prepare_steps.
Qed.

Lemma makes_Delete (m : machine) (fw : Firewall) :
  reliable_provider →
  cleanup_stage FLAGS →
  deleted (self m) = Some false →
  firewall (self m) = Some fw →
  makes (Delete FLAGS) m (delete_calls (self m) fw) (set_deleted (Some true)).
Proof.
  intros Hok Hstage Hdel Hfw. unfold Delete, delete_calls.
  apply makes_get_self. rewrite bool_decide_false by (by intros []).
  rewrite Hdel. apply (makes_pure false); [done|].
  apply makes_bind.
  { destruct (vms (self m)) as [|vm l] eqn:Hv; [apply makes_ret|].
    apply makes_bind_last; [|intros; apply makes_ret].
    apply (makes_RunThreaded _ _ _ (self m)); [|done].
    intros x m' _. by apply makes_DeleteVm. }
  intros _ m1 _ Hs1. rewrite Hfw. apply (makes_pure fw); [done|].
  apply (makes_bind _ _ _ [_]); [by apply makes_call|]. intros _ m2 _ Hs2.
  apply makes_bind_last; [|intros; apply makes_assign].
  rewrite <- list_fmap_compose, <- (concat_singletons (NetworkDelete ∘ snd)).
  apply (makes_for_each _ _ _ (self m)); [|congruence].
  intros [zone net] m' Hin Hs'. apply makes_get_self. rewrite Hs'.
  apply elem_of_map_to_list in Hin. simpl.
  rewrite (getitem_Some _ _ _ Hin). apply (makes_pure net); [done|].
  by apply makes_call.
Qed.

Lemma makes_Prepare (m : machine) (fw : Firewall) :
  reliable_provider →
  firewall (self m) = Some fw →
  makes Prepare m (prepare_all_calls (self m) fw) id.
Proof.
  intros Hok Hfw. unfold Prepare, prepare_all_calls.
  apply makes_get_self. apply makes_bind.
  { case_bool_decide as Hn.
    - rewrite Hn, map_to_list_empty. apply makes_ret.
    - apply makes_bind_last; [|intros; apply makes_ret].
      rewrite <- (concat_singletons NetworkCreate).
      apply (makes_RunThreaded _ _ _ (self m)); [|done].
      intros net m' _. by apply makes_call. }
  intros _ m1 _ Hs1. apply makes_get_self. rewrite Hs1.
  destruct (vms (self m)) as [|vm0 l0] eqn:Hv; [apply makes_ret|].
  rewrite <- Hv. clear Hv vm0 l0.
  assert (∀ (l : list nat) (m' : machine), self m' = self m →
            comprehension l (λ vm : nat, s ← get_self;
                                   fw ← getattr "firewall" (firewall s);
                                   mret (vm, fw)) m'
            = (inr ((λ vm : nat, (vm, fw)) <$> l), m')) as Hargs.
  { induction l as [|vm l IH]; intros m' Hs'; simpl; [done|].
    rewrite run_bind. run. rewrite Hs', Hfw. run.
    rewrite run_bind, IH by done. done. }
  apply (makes_bind _ _ _ []).
  { rewrite <- Hs1. split_and!; rewrite Hargs by done; [by eexists | done |].
    by rewrite app_nil_r. }
  intros args m2 Hrun Hs2. rewrite Hargs in Hrun by done. injection Hrun as <- <-.
  apply makes_bind_last; [|intros; apply makes_ret].
  replace (concat ((λ vm, prepare_calls vm fw (vm_disk_specs (self m) vm)) <$> vms (self m)))
    with (concat ((λ a : nat * Firewall, prepare_calls a.1 a.2 (vm_disk_specs (self m) a.1))
                    <$> ((λ vm, (vm, fw)) <$> vms (self m))))
    by (by rewrite <- list_fmap_compose).
  apply (makes_RunThreaded _ _ _ (self m)); [|done].
  intros [vm fw'] m' Hs'. simpl. rewrite <- Hs'. by apply makes_PrepareVm.
Qed.

(** On providers that do not fail, in a cleanup stage, [Delete] on a plan
    that is not deleted returns after three steps in this order: the batch
    of the virtual machines, with [Delete] and [DeleteScratchDisks] of each
    virtual machine of [self.vms]; then [DisallowAllPorts] on the firewall;
    then [Delete] on each network of the plan.  For one virtual machine
    [Delete] comes before [DeleteScratchDisks]; the order among the virtual
    machines and among the networks is left open.  It has assigned
    [deleted = True] and nothing else. *)
Theorem Delete_calls (m : machine) (fw : Firewall) :
  reliable_provider →
  cleanup_stage FLAGS →
  deleted (self m) = Some false →
  firewall (self m) = Some fw →
  (Delete FLAGS m).1 = inr tt ∧
  self (Delete FLAGS m).2 = set_deleted (Some true) (self m) ∧
  (∃ vm_calls network_calls,
     provider_calls (trace (proc (Delete FLAGS m).2))
     = provider_calls (trace (proc m))
       ++ vm_calls ++ [FirewallDisallowAllPorts fw] ++ network_calls ∧
     vm_calls ≡ₚ concat ((λ vm, [VmDelete vm; VmDeleteScratchDisks vm])
                          <$> vms (self m)) ∧
     network_calls ≡ₚ NetworkDelete <$> (map_to_list (networks (self m))).*2) ∧
  ∀ vm (m' : machine),
    provider_calls (trace (proc (DeleteVm vm m').2))
    = provider_calls (trace (proc m')) ++ [VmDelete vm; VmDeleteScratchDisks vm].
Proof.
  intros Hok Hstage Hdel Hfw.
  destruct (makes_Delete m fw Hok Hstage Hdel Hfw) as ([[] Hret] & Hself & Hcalls).
  split_and!; [exact Hret | exact Hself | | intros vm m'; by apply makes_DeleteVm].
  eexists _, _. split; [exact Hcalls | done].
Qed.

(** On providers that do not fail, [Prepare] on a plan with a firewall
    returns after the batch that creates every network of the plan and
    then the batch that prepares the virtual machines of [self.vms], each
    by the calls of [PrepareVm]; the order within a batch is left open.
    The plan is as before. *)
Theorem Prepare_calls (m : machine) (fw : Firewall) :
  reliable_provider →
  firewall (self m) = Some fw →
  (Prepare m).1 = inr tt ∧
  self (Prepare m).2 = self m ∧
  ∃ network_calls vm_calls,
    provider_calls (trace (proc (Prepare m).2))
    = provider_calls (trace (proc m)) ++ network_calls ++ vm_calls ∧
    network_calls ≡ₚ NetworkCreate <$> (map_to_list (networks (self m))).*2 ∧
    vm_calls ≡ₚ concat ((λ vm, prepare_calls vm fw (vm_disk_specs (self m) vm))
                         <$> vms (self m)).
Proof.
  intros Hok Hfw.
  destruct (makes_Prepare m fw Hok Hfw) as ([[] Hret] & Hself & Hcalls).
  split_and!; [exact Hret | exact Hself |].
  eexists _, _. split; [exact Hcalls | done].
Qed.

(** When the firewall cannot revoke its rules, [Delete] ends in the
    firewall's exception: no network is deleted and [deleted] stays false,
    so that a later [Delete] starts over with the virtual machines.  This
    holds whatever deleting the virtual machines did, since a batch returns
    the failures of its items. *)
Theorem Delete_stops_at_firewall_failure (m : machine) (fw : Firewall) (e : exn) :
  (∀ w, (provider_call (FirewallDisallowAllPorts fw) w).1 = Some e) →
  cleanup_stage FLAGS →
  deleted (self m) = Some false →
  firewall (self m) = Some fw →
  (Delete FLAGS m).1 = inl e ∧
  self (Delete FLAGS m).2 = self m ∧
  ∃ done,
    trace (proc (Delete FLAGS m).2) = trace (proc m) ++ done ∧
    ∀ net, Called (NetworkDelete net) ∉ done.
Proof.
  intros Hfail Hstage Hdel Hfw. unfold Delete.
  rewrite run_bind_get_self, bool_decide_false by (by intros []).
  rewrite Hdel, run_bind_getattr.
  set (vm_part := match vms (self m) with
                  | [] => mret ()
                  | _ :: _ => RunThreaded DeleteVm (vms (self m)) ;; mret ()
                  end).
  assert (adds_only (λ ev, ∀ net, ev ≠ Called (NetworkDelete net)) vm_part) as Hadds.
  { unfold vm_part, DeleteVm. destruct (vms (self m)); [auto with adds|].
    apply adds_only_bind; [|auto with adds].
    apply adds_only_RunThreaded. intros vm.
    apply adds_only_bind; [|intros _]; by apply adds_only_call. }
  assert (keeps (on_self (λ s, s = self m)) vm_part) as Hkeeps
    by (unfold vm_part; keeps_auto).
  assert (∃ x, (vm_part m).1 = inr x) as [[] Hret].
  { unfold vm_part. destruct (vms (self m)) as [|vm l]; [by eexists|].
    rewrite run_bind.
    destruct (RunThreaded_returns DeleteVm (vm :: l) m) as [fs Hfs].
    destruct (RunThreaded DeleteVm (vm :: l) m) as [[?|?] ?];
      [discriminate | eexists; reflexivity]. }
  destruct (Hadds m) as (done & Ht & Hdone). specialize (Hkeeps m eq_refl).
  rewrite run_bind. destruct (vm_part m) as [r m1]; simpl in *. subst r.
  unfold on_self in Hkeeps. rewrite Hfw, run_bind_getattr, run_bind.
  unfold in_process, call. specialize (Hfail (world (proc m1))).
  destruct (provider_call _ (world (proc m1))) as [r w]. simpl in *. subst r.
  split_and!; [done | done |].
  exists (done ++ [Called (FirewallDisallowAllPorts fw)]).
  split; [by rewrite Ht, app_assoc|].
  intros net [Hin|Hin]%elem_of_app.
  - rewrite Forall_forall in Hdone. by eapply Hdone.
  - by apply list_elem_of_singleton in Hin.
Qed.

End Made.

(** ** Constructing virtual machines *)

Section ProcessRules.

Context {World Blob : Type} `{!Externals World Blob}.

Local Abbreviation machine := (Machine World Blob).
Local Abbreviation process := (Process World Blob).

Lemma keeps_assign_on_proc (P : process → Prop) f :
  keeps (on_proc P) (assign f).
Proof. intros m H. exact H. Qed.

Lemma keeps_get_self_on_proc (P : process → Prop) : keeps (on_proc P) get_self.
Proof. intros m H. exact H. Qed.

Lemma keeps_in_process_on_proc {A} (P : process → Prop) (c : M process A) :
  keeps P c → keeps (on_proc P) (in_process c).
Proof.
  intros Hc m H. unfold in_process. specialize (Hc (proc m) H).
  by destruct (c (proc m)).
Qed.

Lemma keeps_static_vm t (F : gmap string (File Blob)) :
  keeps (λ p : process, trace p = t ∧ files p = F) static_vm.
Proof.
  intros p H. unfold static_vm. by destruct (GetStaticVirtualMachine (world p)).
Qed.

Lemma keeps_read {A} (P : process → Prop) (g : process → A) :
  keeps P (λ p, (inr (g p), p)).
Proof. intros p H. exact H. Qed.

End ProcessRules.

#[export] Hint Resolve keeps_assign_on_proc keeps_get_self_on_proc : keeps.
#[export] Hint Extern 2 (keeps (on_proc _) (in_process static_vm)) =>
  apply keeps_in_process_on_proc, keeps_static_vm : keeps.
#[export] Hint Extern 2 (keeps (on_proc _) (in_process (λ p, (inr _, p)))) =>
  apply keeps_in_process_on_proc, keeps_read : keeps.

Section Constructors.

Context {World Blob : Type} `{!Externals World Blob}.
Variable FLAGS : Flags.

Local Abbreviation machine := (Machine World Blob).
Local Abbreviation process := (Process World Blob).

(** Constructing is silent: neither the two constructors of virtual
    machines, in any sequence, nor [__init__] call a method of a provider
    object, log or touch a file, whether they return or raise.  (The
    provider classes are only instantiated; instantiating builds the
    object.) *)
Theorem construction_makes_no_call :
  (∀ cs (m : machine),
     trace (proc (construct_all cs m)) = trace (proc m) ∧
     files (proc (construct_all cs m)) = files (proc m)) ∧
  (∀ static info (p : process),
     trace (__init__ FLAGS static info p).2 = trace p ∧
     files (__init__ FLAGS static info p).2 = files p).
Proof.
  split.
  - intros cs m.
    assert (∀ c, keeps (on_proc (λ p : process,
                                   trace p = trace (proc m) ∧
                                   files p = files (proc m)))
                   (construct c)) as Hk.
    { intros [opt_zone | node_section node_name]; unfold construct; keeps_auto. }
    assert (∀ m0 : machine,
              trace (proc m0) = trace (proc m) ∧ files (proc m0) = files (proc m) →
              trace (proc (construct_all cs m0)) = trace (proc m) ∧
              files (proc (construct_all cs m0)) = files (proc m)) as Hall.
    { induction cs as [|c cs IH]; intros m0 H0; simpl; [done|].
      apply IH. by apply (Hk c m0). }
    by apply Hall.
  - intros static info p. unfold __init__.
    assert (keeps (on_proc (λ p0 : process,
                              trace p0 = trace p ∧ files p0 = files p))
              (init_body FLAGS info)) as Hk.
    { unfold init_body, init_from_flags, init_from_config. cbv zeta.
      unfold CreateVirtualMachineFromNodeSection, CreateVirtualMachine,
        append_if_absent, ensure_network, extend_group, new_vm, new_network,
        append_disk_spec.
      auto 100 with keeps. }
    specialize (Hk {| self := blank static; proc := p |} (conj eq_refl eq_refl)).
    by destruct (init_body _ _ _) as [[e|[]] m'].
Qed.

(** A [CreateVirtualMachine] that raises has changed nothing in the plan,
    and it raises only because the provider has no classes, or because no
    zone was given and [self.zones] has no first element. *)
Theorem CreateVirtualMachine_fails_cleanly opt_zone (m : machine) e :
  (CreateVirtualMachine opt_zone m).1 = inl e →
  self (CreateVirtualMachine opt_zone m).2 = self m ∧
  (GetStaticVirtualMachine (world (proc m))).1 = None ∧
  (getitem CLASSES (cloud (self m)) = inl e ∨
   zone_or_default opt_zone (zones (self m)) = inl e).
Proof.
  unfold CreateVirtualMachine. rewrite run_bind. unfold in_process, static_vm.
  destruct (GetStaticVirtualMachine (world (proc m))) as [[vm|] w]; simpl;
    [discriminate|].
  run. destruct (getitem CLASSES (cloud (self m))) as [e1|entry] eqn:Hcls; run.
  { intros [= <-]. auto. }
  destruct (zone_or_default opt_zone (zones (self m))) as [e2|zone] eqn:Hz; run.
  { intros [= <-]. auto. }
  rewrite run_bind.
  match goal with
  | |- context [ensure_network zone ?m1] =>
      destruct (ensure_network_returns zone entry m1)
        as (m2 & net & -> & Hnet & _ & _); [exact Hcls|]
  end.
  run. rewrite (getitem_Some _ _ _ Hnet). run. unfold new_vm. run. discriminate.
Qed.

(** [CreateVirtualMachine] returns the virtual machine without
    registering it: whatever its outcome, [self.vms], [self.vm_dict] and
    every attribute other than [networks], [vm_spec] and the objects
    themselves are as before; and when the static pool hands out a virtual
    machine the whole plan is as before and that virtual machine is the
    result, whatever the provider and the zones are. *)
Theorem CreateVirtualMachine_registers_nothing opt_zone (m : machine) :
  registry_blanked (self (CreateVirtualMachine opt_zone m).2)
  = registry_blanked (self m) ∧
  vms (self (CreateVirtualMachine opt_zone m).2) = vms (self m) ∧
  vm_dict (self (CreateVirtualMachine opt_zone m).2) = vm_dict (self m) ∧
  ∀ vm, (GetStaticVirtualMachine (world (proc m))).1 = Some vm →
        (CreateVirtualMachine opt_zone m).1 = inr vm ∧
        self (CreateVirtualMachine opt_zone m).2 = self m.
Proof.
  assert (registry_blanked (self (CreateVirtualMachine opt_zone m).2)
          = registry_blanked (self m)) as Hb.
  { assert (keeps (on_self (λ s, registry_blanked s = registry_blanked (self m)))
              (CreateVirtualMachine (World := World) (Blob := Blob) opt_zone)) as Hk
      by keeps_auto.
    by apply (Hk m). }
  split; [exact Hb|].
  split; [exact (f_equal vms Hb)|]. split; [exact (f_equal vm_dict Hb)|].
  intros vm Hvm. unfold CreateVirtualMachine. rewrite run_bind.
  unfold in_process, static_vm.
  destruct (GetStaticVirtualMachine (world (proc m))) as [r w]. simpl in *.
  by subst r.
Qed.

End Constructors.

Section Summaries.

Context {World Blob : Type} `{!Externals World Blob}.

Local Abbreviation machine := (Machine World Blob).

Lemma keeps_append_if_absent (P : BenchmarkSpec → Prop) read write x :
  (∀ s l, P s → read s = VList l → x ∉ l → P (write (VList (l ++ [x])) s)) →
  keeps (on_self (World := World) (Blob := Blob) P) (append_if_absent read write x).
Proof.
  intros Hw m HP. unfold append_if_absent. rewrite run_bind_get_self.
  destruct (read (self m)) as [|str|l] eqn:Hr; unfold contains.
  - exact HP.
  - rewrite run_bind_check_inr. by destruct (str_contains str x).
  - rewrite run_bind_check_inr. case_bool_decide as Hin; [exact HP|].
    unfold append. rewrite run_bind_check_inr, run_assign. by apply Hw.
Qed.

Lemma NoDup_snoc (l : list string) x : NoDup l → x ∉ l → NoDup (l ++ [x]).
Proof.
  intros Hl Hx. apply NoDup_app. split_and!; [done | | apply NoDup_singleton].
  intros y Hy Hy'%list_elem_of_singleton. by subst.
Qed.

(** The summary lists [zones], [image] and [machine_type] never hold a
    value twice: through any sequence of constructor calls, returning or
    raising, lists without duplicates stay without duplicates. *)
Theorem summaries_stay_distinct (cs : list construction) (m : machine) :
  summaries_distinct (self m) → summaries_distinct (self (construct_all cs m)).
Proof.
  assert (∀ c, keeps (on_self (World := World) (Blob := Blob) summaries_distinct)
                 (construct c)) as Hk.
  { intros [opt_zone | node_section node_name]; unfold construct; [keeps_auto|].
    unfold CreateVirtualMachineFromNodeSection.
    apply keeps_bind; [auto with keeps | intros s].
    apply keeps_bind; [auto with keeps | intros zone].
    apply keeps_bind; [|intros _].
    { apply keeps_append_if_absent. intros s' l (Hz & Hi & Hm) Hl Hx.
      split_and!; [|done|done]. simpl. rewrite Hl in Hz. by apply NoDup_snoc. }
    apply keeps_bind; [auto with keeps | intros node_image].
    apply keeps_bind; [|intros _].
    { apply keeps_append_if_absent. intros s' l (Hz & Hi & Hm) Hl Hx.
      split_and!; [done| |done]. simpl. rewrite Hl in Hi. by apply NoDup_snoc. }
    apply keeps_bind; [auto with keeps | intros vm_type].
    apply keeps_bind; [|intros _].
    { apply keeps_append_if_absent. intros s' l (Hz & Hi & Hm) Hl Hx.
      split_and!; [done|done|]. simpl. rewrite Hl in Hm. by apply NoDup_snoc. }
    keeps_auto. }
  revert m. induction cs as [|c cs IH]; intros m Hm; simpl; [done|].
  apply IH. by apply (Hk c m).
Qed.

(** [CreateVirtualMachineFromNodeSection] is not all-or-nothing.  A
    section without an image raises [KeyError] after the zone of the
    section was recorded in [self.zones], and before any network or
    virtual machine is constructed. *)
Theorem node_section_without_image node_section node_name zone zs (m : machine) :
  zones (self m) = VList zs →
  match alist_get node_section "zone" with
  | Some z => inr z
  | None => first (zones (self m))
  end = inr zone →
  alist_get node_section "image" = None →
  ∃ m',
    CreateVirtualMachineFromNodeSection node_section node_name m
    = (inl (KeyError "image"), m') ∧
    self m' = (if bool_decide (zone ∈ zs) then self m
               else set_zones (VList (zs ++ [zone])) (self m)) ∧
    proc m' = proc m.
Proof.
  intros Hzs Hzone Himg. unfold CreateVirtualMachineFromNodeSection, alist_getitem.
  run. rewrite Hzone. run.
  rewrite run_bind, (append_if_absent_returns zones set_zones zone zs m Hzs).
  rewrite Himg. eexists. run. split; [reflexivity|].
  by destruct (bool_decide (zone ∈ zs)).
Qed.

(** A section resolved for a group that [self.vm_dict] does not have
    raises [KeyError] with the name of the group, after its virtual
    machines were constructed and added to [self.vms]: they are in the plan
    and in no group, and carry no disk spec. *)
Theorem node_section_for_unknown_group node_section node_name zone node_image
    vm_type count n entry (m : machine) :
  (∃ l, zones (self m) = VList l) → (∃ l, image (self m) = VList l) →
  (∃ l, machine_type (self m) = VList l) →
  match alist_get node_section "zone" with
  | Some z => inr z
  | None => first (zones (self m))
  end = inr zone →
  alist_get node_section "image" = Some node_image →
  alist_get node_section "vm_type" = Some vm_type →
  alist_get node_section "count" = Some count → int count = inr n →
  getitem CLASSES (cloud (self m)) = inr entry →
  vm_dict (self m) !! node_name = None →
  ∃ m' net,
    let new := seq (length (vm_objects (self m))) (Z.to_nat n) in
    CreateVirtualMachineFromNodeSection node_section node_name m
    = (inl (KeyError node_name), m') ∧
    vms (self m') = vms (self m) ++ new ∧
    vm_dict (self m') = vm_dict (self m) ∧
    networks (self m') !! zone = Some net ∧
    vm_objects (self m')
    = vm_objects (self m)
      ++ replicate (Z.to_nat n)
           (instance_with (VIRTUAL_MACHINE entry)
              {| spec_project := project (self m); spec_zone := zone;
                 spec_machine_type := VStr vm_type;
                 spec_image := VStr node_image; spec_network := net |} []).
Proof.
  intros [zs Hzs] [imgs Himgs] [mts Hmts] Hzone Himg Hvt Hcount Hint Hcls Hgrp.
  unfold CreateVirtualMachineFromNodeSection, alist_getitem.
  run. rewrite Hzone. run.
  rewrite run_bind, (append_if_absent_returns zones set_zones zone zs m Hzs).
  destruct (bool_decide (zone ∈ zs)); rewrite Himg; run;
    (rewrite run_bind, (append_if_absent_returns image set_image node_image imgs)
       by exact Himgs);
    destruct (bool_decide (node_image ∈ imgs)); rewrite Hvt; run;
    (rewrite run_bind,
       (append_if_absent_returns machine_type set_machine_type vm_type mts)
       by exact Hmts);
    destruct (bool_decide (vm_type ∈ mts)); rewrite run_bind.
  all: match goal with
       | |- context [ensure_network ?z ?m3] =>
           destruct (ensure_network_returns z entry m3)
             as (m4 & net & -> & Hnet & Hp4 & Hf4); [exact Hcls|]
       end.
  all: pose proof (f_equal cloud Hf4) as Hcloud;
       pose proof (f_equal project Hf4) as Hproject;
       pose proof (f_equal vm_objects Hf4) as Hobjs;
       pose proof (f_equal vms Hf4) as Hvms;
       pose proof (f_equal vm_dict Hf4) as Hdict; clear Hf4; fields.
  all: run; rewrite (getitem_Some _ _ _ Hnet); run.
  all: rewrite Hcloud, Hcls, Hcount; run; rewrite Hint; run.
  all: rewrite run_bind, new_vms_returns; run.
  all: unfold extend_group; run; unfold getitem; rewrite Hdict, Hgrp; run.
  all: unfold range; rewrite length_seq, Hobjs, Hvms, Hproject.
  all: eexists _, net; split; [reflexivity|]; fields; by split_and!.
Qed.

End Summaries.

(** ** Splitting at colons *)

Section Split.

Lemma string_app_cons (a : ascii) (s t : string) :
  String a s +:+ t = String a (s +:+ t).
Proof. reflexivity. Qed.

Lemma string_app_nil_r (s : string) : s +:+ "" = s.
Proof. induction s as [|a s IH]; [done|]. by rewrite string_app_cons, IH. Qed.

Lemma string_app_assoc (a b c : string) : (a +:+ b) +:+ c = a +:+ b +:+ c.
Proof. induction a as [|x a IH]; [done|]. by rewrite !string_app_cons, IH. Qed.

Lemma rev_app_app (a b : string) : String.rev_app a b = String.rev a +:+ b.
Proof.
  unfold String.rev. revert b. induction a as [|x a IH]; intros b; [done|].
  cbn [String.rev_app]. rewrite (IH (String x b)), (IH (String x "")).
  by rewrite string_app_assoc.
Qed.

Lemma rev_rev_app (a b : string) : String.rev (String.rev_app a b) = String.rev b +:+ a.
Proof.
  revert b. induction a as [|x a IH]; intros b; cbn [String.rev_app].
  - by rewrite string_app_nil_r.
  - rewrite IH. unfold String.rev at 1. cbn [String.rev_app].
    rewrite rev_app_app, string_app_assoc. done.
Qed.

Lemma split_go_free sep cur a rest :
  occurs sep a = false →
  split_go sep cur (a +:+ rest) = split_go sep (String.rev_app a cur) rest.
Proof.
  revert cur. induction a as [|x a IH]; intros cur Hfree; [done|].
  rewrite string_app_cons. cbn [String.rev_app split_go]. simpl in Hfree.
  apply orb_false_iff in Hfree as [-> Hfree]. by apply IH.
Qed.

(** A string without the separator is one field. *)
Lemma split_free sep a : occurs sep a = false → split sep a = [a].
Proof.
  intros Hfree. unfold split.
  rewrite <- (string_app_nil_r a) at 1. rewrite split_go_free by done.
  cbn [split_go]. by rewrite rev_rev_app.
Qed.

(** Splitting takes the text before the first separator as first field. *)
Lemma split_cons sep a rest :
  occurs sep a = false →
  split sep (a +:+ String sep rest) = a :: split sep rest.
Proof.
  intros Hfree. unfold split. rewrite split_go_free by done.
  cbn [split_go]. rewrite Ascii.eqb_refl. by rewrite rev_rev_app.
Qed.

Lemma join_cons sep x l : l ≠ [] → join sep (x :: l) = x +:+ sep +:+ join sep l.
Proof. by destruct l. Qed.

(** Joining the fields of a split gives the string back, and no field
    holds the separator. *)
Lemma join_split_go sep cur s :
  occurs sep cur = false →
  join (String sep "") (split_go sep cur s) = String.rev cur +:+ s ∧
  Forall (λ field, occurs sep field = false) (split_go sep cur s) ∧
  split_go sep cur s ≠ [].
Proof.
  assert (∀ a, occurs sep a = false → occurs sep (String.rev a) = false) as Hrev.
  { assert (∀ a b, occurs sep a = false → occurs sep b = false →
                   occurs sep (String.rev_app a b) = false) as Hgen.
    { induction a as [|x a IH]; intros b Ha Hb; [done|]. simpl in Ha.
      apply orb_false_iff in Ha as [Hx Ha]. cbn [String.rev_app]. apply IH; [done|].
      simpl. by rewrite Hx. }
    intros a Ha. by apply Hgen. }
  revert cur. induction s as [|x s IH]; intros cur Hcur; cbn [split_go].
  - split_and!; [by rewrite string_app_nil_r | by repeat constructor; apply Hrev | done].
  - destruct (Ascii.eqb x sep) eqn:Hx.
    + apply Ascii.eqb_eq in Hx as ->.
      destruct (IH "") as (Hj & Hf & Hne); [done|]. split_and!; [| |done].
      * by rewrite join_cons, Hj.
      * constructor; [by apply Hrev | done].
    + destruct (IH (String x cur)) as (Hj & Hf & Hne).
      { simpl. by rewrite Hx. }
      split_and!; [|done|done]. rewrite Hj. unfold String.rev. cbn [String.rev_app].
      by rewrite rev_app_app, string_app_assoc.
Qed.

Lemma join_split sep s :
  join (String sep "") (split sep s) = s ∧
  Forall (λ field, occurs sep field = false) (split sep s).
Proof. destruct (join_split_go sep "" s) as (? & ? & _); done. Qed.

(** A persistent-disk option is accepted exactly when it is of the form
    size:type:mount point with no further colon, the size reads as an
    integer and the provider has the type; the disk spec is then the three
    parts read that way. *)
Theorem parse_disk_spec_accepts_exactly (cloud v : string) (d : BaseDiskSpec) :
  parse_disk_spec cloud v = inr d ↔
  ∃ size type,
    v = pd_literal size type (mount_point d) ∧
    occurs ascii_colon size = false ∧ occurs ascii_colon type = false ∧
    occurs ascii_colon (mount_point d) = false ∧
    int size = inr (disk_size d) ∧
    disk_alias cloud type = inr (disk_type d).
Proof.
  unfold parse_disk_spec, pd_literal. split.
  - destruct (join_split ascii_colon v) as [Hj Hf].
    destruct (split ascii_colon v) as [|size [|type [|mnt [|? ?]]]]; try discriminate.
    destruct (int size) as [e|n] eqn:Hint; [discriminate|].
    destruct (disk_alias cloud type) as [e|alias] eqn:Ha; [discriminate|].
    intros [= <-]. simpl. exists size, type.
    apply Forall_cons in Hf as [H1 Hf]. apply Forall_cons in Hf as [H2 Hf].
    apply Forall_cons in Hf as [H3 _]. by split_and!.
  - intros (size & type & -> & H1 & H2 & H3 & Hint & Ha).
    change (size +:+ ":" +:+ type +:+ ":" +:+ mount_point d)
      with (size +:+ String ascii_colon (type +:+ String ascii_colon (mount_point d))).
    rewrite split_cons, split_cons, split_free by done.
    rewrite Hint, Ha. by destruct d.
Qed.

(** The group name of a node section is what stands between its first and
    its second colon; a section name without a colon has none, and only
    such a name has none. *)
Theorem node_name_of_colon (node : string) :
  (node_name_of node = inl IndexError ↔ occurs ascii_colon node = false) ∧
  (∀ kind name, occurs ascii_colon kind = false → occurs ascii_colon name = false →
     node_name_of (kind +:+ ":" +:+ name) = inr name ∧
     ∀ rest, node_name_of (kind +:+ ":" +:+ name +:+ ":" +:+ rest) = inr name).
Proof.
  unfold node_name_of. split.
  - split.
    + destruct (join_split ascii_colon node) as [Hj Hf].
      destruct (split ascii_colon node) as [|a [|b l]]; try discriminate.
      * intros _. simpl in Hj. by subst.
      * intros _. apply Forall_cons in Hf as [Ha _]. simpl in Hj. by subst.
    + intros Hfree. by rewrite split_free.
  - intros kind name Hk Hn. split.
    + change (kind +:+ ":" +:+ name) with (kind +:+ String ascii_colon name).
      by rewrite split_cons, split_free.
    + intros rest.
      change (kind +:+ ":" +:+ name +:+ ":" +:+ rest)
        with (kind +:+ String ascii_colon (name +:+ String ascii_colon rest)).
      by rewrite split_cons, split_cons.
Qed.

End Split.

(** ** What [__init__] returns, and when it does not *)

Section Construction.

Context {World Blob : Type} `{!Externals World Blob}.
Variable FLAGS : Flags.

Local Abbreviation machine := (Machine World Blob).
Local Abbreviation process := (Process World Blob).

Lemma node_name_of_error node e :
  node_name_of node = inl e → e = IndexError.
Proof.
  unfold node_name_of. destruct (split ascii_colon node) as [|a [|b l]]; congruence.
Qed.

Lemma node_name_of_free node :
  occurs ascii_colon node = false → node_name_of node = inl IndexError.
Proof. intros Hfree. unfold node_name_of. by rewrite split_free. Qed.

Lemma group_lists_IndexError nodes :
  Exists (λ node, occurs ascii_colon node = false) nodes →
  ∀ m : machine,
    (for_each nodes (λ node,
       name ← check (node_name_of node);
       assign (λ s, set_vm_dict (<[name := Own []]> (vm_dict s)) s)) m).1
    = inl IndexError.
Proof.
  induction nodes as [|node nodes IH]; intros Hex m; [by apply Exists_nil in Hex|].
  simpl. rewrite run_bind.
  destruct (node_name_of node) as [e|name] eqn:Hn.
  - apply node_name_of_error in Hn as ->. by run.
  - run. apply IH. apply Exists_cons in Hex as [Hfree|Hex]; [|done].
    rewrite (node_name_of_free _ Hfree) in Hn. discriminate.
Qed.

(** From a configuration, [__init__] raises [KeyError] for a missing
    cluster section and for a cluster section without type, project or
    zone, in this order, and [IndexError] when the cluster is complete but
    the name of some node section has no colon; in all these cases before
    any virtual machine is constructed. *)
Theorem init_from_incomplete_config static info (p : process) cfg :
  FLAGS_benchmark_config_pair FLAGS !! info_name info = Some cfg →
  let result := (__init__ FLAGS static info p).1 in
  (config_dict cfg !! "cluster" = None → result = inl (KeyError "cluster")) ∧
  (∀ cluster, config_dict cfg !! "cluster" = Some cluster →
     (alist_get cluster "type" = None → result = inl (KeyError "type")) ∧
     (∀ type, alist_get cluster "type" = Some type →
        (alist_get cluster "project" = None → result = inl (KeyError "project")) ∧
        (∀ project, alist_get cluster "project" = Some project →
           (alist_get cluster "zone" = None → result = inl (KeyError "zone")) ∧
           (∀ zone, alist_get cluster "zone" = Some zone →
              Exists (λ node, occurs ascii_colon node = false) (node_sections cfg) →
              result = inl IndexError)))).
Proof.
  intros Hcfg result. unfold result, __init__, init_body. rewrite Hcfg. run.
  rewrite run_bind. unfold init_from_config, getitem, alist_getitem.
  split.
  { intros ->. by run. }
  intros cluster ->. run. split.
  { intros ->. by run. }
  intros type ->. run. split.
  { intros ->. by run. }
  intros project ->. run. split.
  { intros ->. by run. }
  intros zone -> Hex. run. rewrite run_bind.
  match goal with
  | |- context [for_each (node_sections cfg) ?body ?m] =>
      pose proof (group_lists_IndexError _ Hex m) as Hg;
      destruct (for_each (node_sections cfg) body m) as [r m1]
  end.
  simpl in Hg. by subst r.
Qed.

Lemma invariant_set_vm_objects s0 s objs :
  construction_invariant s0 s →
  (∀ i o, objs !! i = Some o →
     ∃ o', vm_objects s !! i = Some o' ∧ kind o' = kind o) →
  construction_invariant s0 (set_vm_objects objs s).
Proof.
  intros (Hone & Hvms & Hkept) Hobjs. split_and!; [exact Hone | | exact Hkept].
  intros vm o cls spec Ho Hk. destruct (Hobjs _ _ Ho) as (o' & Ho' & Hk').
  apply (Hvms vm o' cls spec Ho'). congruence.
Qed.

Lemma keeps_invariant_init_from_flags s0 info :
  keeps (on_self (World := World) (Blob := Blob) (construction_invariant s0))
    (init_from_flags FLAGS info).
Proof.
  pose proof (keeps_CreateVirtualMachine (World := World) (Blob := Blob) s0) as H1.
  assert (∀ d vm, keeps (on_self (World := World) (Blob := Blob)
                           (construction_invariant s0)) (append_disk_spec d vm)) as H3.
  { intros d vm. apply keeps_append_disk_spec. intros s objs.
    apply invariant_set_vm_objects. }
  unfold init_from_flags; cbv zeta; auto 60 with keeps.
Qed.

Lemma keeps_config_init_from_flags c0 info :
  keeps (on_self (World := World) (Blob := Blob) (λ s, config s = c0))
    (init_from_flags FLAGS info).
Proof.
  unfold init_from_flags. cbv zeta.
  unfold CreateVirtualMachine, ensure_network, new_vm, new_network,
    append_disk_spec. auto 100 with keeps.
Qed.

Lemma keeps_config_init_from_config c0 cfg :
  keeps (on_self (World := World) (Blob := Blob) (λ s, config s = c0))
    (init_from_config cfg).
Proof.
  unfold init_from_config. cbv zeta.
  unfold CreateVirtualMachineFromNodeSection, append_if_absent, ensure_network,
    extend_group, new_vm, new_network, append_disk_spec. auto 100 with keeps.
Qed.

(** Every plan that [__init__] returns is not deleted, has the snapshot
    file of its benchmark name under the temporary directory, is of a
    registered provider and has the firewall of that provider's firewall
    class for its project.  Built from flags, with a static pool of static
    virtual machines, it has one network per zone and every virtual
    machine it constructed holds the network of its zone. *)
Theorem constructed_plan_well_formed static info (p p' : process) (s : BenchmarkSpec) :
  __init__ FLAGS static info p = (inr s, p') →
  deleted s = Some false ∧
  file_name s = Some (snapshot_path (GetTempDir (world p')) (info_name info)) ∧
  config s = FLAGS_benchmark_config_pair FLAGS !! info_name info ∧
  (∃ entry, getitem CLASSES (cloud s) = inr entry ∧
            firewall s = Some {| firewall_class := FIREWALL entry;
                                 firewall_project := project s |}) ∧
  (FLAGS_benchmark_config_pair FLAGS !! info_name info = None →
   Forall (λ o, kind o = StaticVirtualMachine) static →
   one_network_per_zone s ∧ vms_share_zone_network s).
Proof.
  unfold __init__.
  set (c0 := FLAGS_benchmark_config_pair FLAGS !! info_name info).
  set (s0 := set_networks ∅ (set_vm_dict {["default" := Own []]}
                (set_vms [] (set_config c0 (blank static))))).
  assert (∀ branch : M machine unit,
            keeps (on_self (λ s, config s = c0)) branch →
            (c0 = None → keeps (on_self (construction_invariant s0)) branch) →
            match (branch ≫= λ _,
                   s ← get_self;
                   entry ← check (getitem CLASSES (cloud s));
                   assign (set_firewall (Some {| firewall_class := FIREWALL entry;
                                                 firewall_project := project s |})) ;;
                   tmp ← in_process (λ p, (inr (GetTempDir (world p)), p));
                   assign (set_file_name (Some (tmp +:+ "/" +:+ info_name info))) ;;
                   assign (set_deleted (Some false)))
                    {| self := s0; proc := p |} with
            | (inr _, m) =>
                deleted (self m) = Some false ∧
                file_name (self m)
                = Some (snapshot_path (GetTempDir (world (proc m))) (info_name info)) ∧
                config (self m) = c0 ∧
                (∃ entry, getitem CLASSES (cloud (self m)) = inr entry ∧
                          firewall (self m)
                          = Some {| firewall_class := FIREWALL entry;
                                    firewall_project := project (self m) |}) ∧
                (c0 = None →
                 Forall (λ o, kind o = StaticVirtualMachine) static →
                 one_network_per_zone (self m) ∧ vms_share_zone_network (self m))
            | (inl _, _) => True
            end) as Hmain.
  { intros branch Hconfig Hinv. rewrite run_bind.
    specialize (Hconfig {| self := s0; proc := p |} eq_refl).
    assert (c0 = None → on_self (construction_invariant s0) {| self := s0; proc := p |} →
            on_self (construction_invariant s0) (branch {| self := s0; proc := p |}).2)
      as Hinv' by (intros Hnone; by apply Hinv).
    destruct (branch _) as [[e|[]] m1]; [done|]. run.
    destruct (getitem CLASSES (cloud (self m1))) as [e|entry] eqn:Hcls; run; [done|].
    split_and!; try done; [by eexists|].
    intros Hnone Hstatic. specialize (Hinv' Hnone).
    unfold on_self in Hinv'. simpl in Hinv'.
    destruct Hinv' as (Hone & Hvms & _); [|done].
    split_and!.
    - split_and!; [intros zone n H | intros n net H | reflexivity]; cbn in H; discriminate.
    - intros vm o cls spec Ho Hk. simpl in Ho.
      apply list_elem_of_lookup_2 in Ho. rewrite Forall_forall in Hstatic.
      rewrite (Hstatic _ Ho) in Hk. discriminate.
    - by intros ? ?. }
  intros Hinit.
  set (branch := match c0 with
                 | Some cfg => init_from_config cfg
                 | None => init_from_flags FLAGS info
                 end).
  specialize (Hmain branch).
  assert (init_body FLAGS info {| self := blank static; proc := p |}
          = (branch ≫= λ _,
             s ← get_self;
             entry ← check (getitem CLASSES (cloud s));
             assign (set_firewall (Some {| firewall_class := FIREWALL entry;
                                           firewall_project := project s |})) ;;
             tmp ← in_process (λ p, (inr (GetTempDir (world p)), p));
             assign (set_file_name (Some (tmp +:+ "/" +:+ info_name info))) ;;
             assign (set_deleted (Some false)))
              {| self := s0; proc := p |}) as Hbody.
  { unfold init_body, branch, s0. fold c0. destruct c0; reflexivity. }
  rewrite Hbody in Hinit.
  destruct ((branch ≫= _) _) as [[e|[]] m]; [discriminate|].
  injection Hinit as <- <-. apply Hmain; unfold branch; destruct c0.
  - apply keeps_config_init_from_config.
  - apply keeps_config_init_from_flags.
  - discriminate.
  - intros _. apply keeps_invariant_init_from_flags.
Qed.

End Construction.

(** ** The scratch disks of a plan built from flags *)

Section ScratchDisks.

Context {World Blob : Type} `{!Externals World Blob}.
Variable FLAGS : Flags.

Local Abbreviation machine := (Machine World Blob).
Local Abbreviation process := (Process World Blob).
Local Abbreviation attach d :=
  (λ o : VirtualMachine, {| kind := kind o; disk_specs := disk_specs o ++ [d] |}).

Lemma append_disk_spec_all d l :
  ∀ m : machine,
    for_each l (append_disk_spec d) m
    = (inr tt,
       {| self := set_vm_objects
                    (foldl (λ objs vm, alter (attach d) vm objs) (vm_objects (self m)) l)
                    (self m);
          proc := proc m |}).
Proof.
  induction l as [|vm l IH]; intros m; cbn [for_each foldl].
  - run. by destruct m as [[] ?].
  - rewrite run_bind. unfold append_disk_spec at 1. rewrite run_assign, IH.
    fields. by destruct m as [[] ?].
Qed.

Lemma carried_attach_all d r l :
  ∀ objs,
    carried (foldl (λ objs vm, alter (attach d) vm objs) objs l) !! r
    = (λ ds, ds ++ replicate (count_occ Nat.eq_dec l r) d) <$> carried objs !! r.
Proof.
  unfold carried. induction l as [|vm l IH]; intros objs; simpl.
  - rewrite !list_lookup_fmap. destruct (objs !! r); simpl; [|done].
    by rewrite app_nil_r.
  - rewrite IH, !list_lookup_fmap, list_lookup_alter.
    destruct (Nat.eq_dec vm r) as [->|Hne].
    + rewrite decide_True by done. destruct (objs !! r); simpl; [|done].
      by rewrite <- app_assoc.
    + rewrite decide_False by done. done.
Qed.

Lemma scratch_disks_attached alias l :
  ∀ m : machine,
    disk_alias (cloud (self m)) STANDARD = inr alias →
    ∃ objs,
      for_each l (λ i : nat,
        s ← get_self;
        alias ← check (disk_alias (cloud s) STANDARD);
        for_each (vms s)
          (append_disk_spec {| disk_size := FLAGS_scratch_disk_size FLAGS;
                               disk_type := alias;
                               mount_point := "/scratch" +:+ pretty i |})) m
      = (inr tt, {| self := set_vm_objects objs (self m); proc := proc m |}) ∧
      ∀ r, carried objs !! r
           = (λ ds, ds ++ concat ((λ i, replicate (count_occ Nat.eq_dec (vms (self m)) r)
                                          (scratch_disk_spec FLAGS alias i)) <$> l))
             <$> carried (vm_objects (self m)) !! r.
Proof.
  induction l as [|i l IH]; intros m Halias; simpl.
  - run. exists (vm_objects (self m)). split; [by destruct m as [[] ?]|].
    intros r. destruct (carried _ !! r); simpl; [|done]. by rewrite app_nil_r.
  - rewrite run_bind. run. rewrite Halias. run.
    rewrite append_disk_spec_all.
    match goal with
    | |- context [for_each l ?body ?m1] =>
        destruct (IH m1) as (objs & -> & Hobjs); [exact Halias|]
    end.
    fields. exists objs. split; [by destruct m as [[] ?]|].
    intros r. rewrite Hobjs. fields.
    rewrite (carried_attach_all _ r (vms (self m)) (vm_objects (self m))).
    destruct (carried (vm_objects (self m)) !! r); simpl; [|done].
    by rewrite <- app_assoc.
Qed.

Lemma keeps_carried_new_vm (D : list (list BaseDiskSpec)) cls spec :
  keeps (on_self (World := World) (Blob := Blob)
           (λ s, ∃ j, carried (vm_objects s) = D ++ replicate j []))
    (new_vm cls spec).
Proof.
  intros m [j Hj]. unfold new_vm. run. unfold on_self, carried in *. fields.
  exists (S j). rewrite fmap_app, Hj, <- app_assoc. simpl.
  by rewrite <- replicate_cons_app.
Qed.

Lemma keeps_carried_CreateVirtualMachine (D : list (list BaseDiskSpec)) opt_zone :
  keeps (on_self (World := World) (Blob := Blob)
           (λ s, ∃ j, carried (vm_objects s) = D ++ replicate j []))
    (CreateVirtualMachine opt_zone).
Proof.
  pose proof (keeps_carried_new_vm D) as Hnew.
  unfold CreateVirtualMachine, ensure_network, new_network. cbv zeta.
  auto 40 with keeps.
Qed.

Lemma keeps_vms_CreateVirtualMachine c l opt_zone :
  keeps (on_self (World := World) (Blob := Blob) (λ s, cloud s = c ∧ vms s = l))
    (CreateVirtualMachine opt_zone).
Proof. keeps_auto. Qed.

Lemma scratch_disks_of_init_body static info (p : process) alias :
  FLAGS_benchmark_config_pair FLAGS !! info_name info = None →
  disk_alias (FLAGS_cloud FLAGS) STANDARD = inr alias →
  match init_body FLAGS info {| self := blank static; proc := p |} with
  | (inr _, m) =>
      ∀ vm disks, carried (vm_objects (self m)) !! vm = Some disks →
        disks = vm_disk_specs (blank static) vm
                ++ concat ((λ i, replicate (count_occ Nat.eq_dec (vms (self m)) vm)
                                   (scratch_disk_spec FLAGS alias i))
                           <$> range (info_scratch_disk info))
  | (inl _, _) => True
  end.
Proof.
  intros Hnone Halias. unfold init_body. rewrite Hnone. run.
  unfold init_from_flags. run.
  destruct (getitem DEFAULTS (FLAGS_cloud FLAGS)) as [e|defaults]; run; [done|].
  rewrite run_bind.
  match goal with
  | |- context [comprehension ?l ?f ?m1] =>
      assert (keeps (on_self (λ s, ∃ j, carried (vm_objects s)
                                        = carried static ++ replicate j []))
                (comprehension l f)) as Hcarried
        by (pose proof (keeps_carried_CreateVirtualMachine (carried static));
            auto 20 with keeps);
      assert (keeps (on_self (λ s, cloud s = FLAGS_cloud FLAGS ∧ vms s = []))
                (comprehension l f)) as Hcloud
        by (pose proof (keeps_vms_CreateVirtualMachine (FLAGS_cloud FLAGS) []);
            auto 20 with keeps);
      specialize (Hcarried m1); specialize (Hcloud m1);
      destruct (comprehension l f m1) as [[e|created] m2]
  end; [done|].
  unfold on_self in Hcarried, Hcloud. fields.
  destruct Hcarried as [j Hj]; [exists 0%nat; simpl; by rewrite app_nil_r|].
  destruct Hcloud as [Hc _]; [done|].
  run. rewrite run_bind.
  match goal with
  | |- context [for_each (range _) _ ?m3] =>
      destruct (scratch_disks_attached alias (range (info_scratch_disk info)) m3)
        as (objs & -> & Hobjs); [fields; by rewrite Hc|]
  end.
  fields. run.
  destruct (getitem CLASSES (cloud (self m2))) as [e|entry]; run; [done|].
  intros vm disks. rewrite Hobjs. fields. rewrite Hj.
  unfold vm_disk_specs, carried. fields.
  destruct (decide (vm < length static)%nat) as [Hlt|Hge].
  - rewrite lookup_app_l by (by rewrite length_fmap).
    rewrite list_lookup_fmap. destruct (static !! vm); simpl; [|done].
    by intros [= <-].
  - rewrite lookup_app_r by (rewrite length_fmap; lia).
    rewrite (lookup_ge_None_2 static) by lia.
    intros Hd. destruct (replicate j [] !! _) as [ds|] eqn:Hr; [|done].
    apply lookup_replicate in Hr as [-> _]. simpl in Hd. by injection Hd as <-.
Qed.

(** Built from flags, [__init__] attaches to every virtual machine of
    [self.vms] one disk spec per scratch disk of the benchmark, in order:
    of the size [FLAGS.scratch_disk_size], of the provider's standard disk
    type, mounted at [/scratch<i>]; they come after the disk specs a
    virtual machine of the static pool had.  The list holds references: an
    object that occurs [k] times in [self.vms] gets each disk spec [k]
    times, and an object that does not occur gets none. *)
Theorem scratch_disks_of_flags static info (p p' : process) (s : BenchmarkSpec) alias :
  FLAGS_benchmark_config_pair FLAGS !! info_name info = None →
  disk_alias (FLAGS_cloud FLAGS) STANDARD = inr alias →
  __init__ FLAGS static info p = (inr s, p') →
  ∀ vm, (vm < length (vm_objects s))%nat →
    vm_disk_specs s vm
    = vm_disk_specs (blank static) vm
      ++ concat ((λ i, replicate (count_occ Nat.eq_dec (vms s) vm)
                         (scratch_disk_spec FLAGS alias i))
                 <$> range (info_scratch_disk info)).
Proof.
  intros Hnone Halias Hinit vm Hvm.
  pose proof (scratch_disks_of_init_body static info p alias Hnone Halias) as Hbody.
  unfold __init__ in Hinit.
  destruct (init_body FLAGS info _) as [[e|[]] m]; [discriminate|].
  injection Hinit as <- <-.
  destruct (lookup_lt_is_Some_2 _ _ Hvm) as [o Ho].
  specialize (Hbody vm (disk_specs o)). unfold carried in Hbody.
  rewrite list_lookup_fmap, Ho in Hbody.
  unfold vm_disk_specs at 1. rewrite Ho. by apply Hbody.
Qed.

End ScratchDisks.

(** ** The plan of a topology *)

Section Topology.

Context {World Blob : Type} `{!Externals World Blob}.
Variable FLAGS : Flags.

Local Abbreviation machine := (Machine World Blob).
Local Abbreviation process := (Process World Blob).

Lemma keeps_summary_append (P : BenchmarkSpec → Prop) read write x :
  (∀ s l, P s → read s = VList l → P (write (VList (l ++ [x])) s)) →
  keeps (on_self (World := World) (Blob := Blob) P) (append_if_absent read write x).
Proof.
  intros Hw m HP. unfold append_if_absent. rewrite run_bind_get_self.
  destruct (read (self m)) as [|str|l] eqn:Hr; unfold contains.
  - exact HP.
  - rewrite run_bind_check_inr. by destruct (str_contains str x).
  - rewrite run_bind_check_inr. case_bool_decide as Hin; [exact HP|].
    unfold append. rewrite run_bind_check_inr, run_assign. by apply Hw.
Qed.

Lemma keeps_of_cluster type cp zone node_section node_name :
  keeps (on_self (World := World) (Blob := Blob) (of_cluster type cp zone))
    (CreateVirtualMachineFromNodeSection node_section node_name).
Proof.
  unfold CreateVirtualMachineFromNodeSection.
  apply keeps_bind; [auto with keeps | intros s].
  apply keeps_bind; [auto with keeps | intros z].
  apply keeps_bind; [|intros _].
  { apply keeps_summary_append. intros s' l (Hc & Hp & [zs Hz] & Hi & Hm) Hl.
    split_and!; try done. simpl. rewrite Hl in Hz. injection Hz as ->. by eexists. }
  apply keeps_bind; [auto with keeps | intros node_image].
  apply keeps_bind; [|intros _].
  { apply keeps_summary_append. intros s' l (Hc & Hp & Hz & Hi & Hm) Hl.
    split_and!; try done. simpl. by eexists. }
  apply keeps_bind; [auto with keeps | intros vm_type].
  apply keeps_bind; [|intros _].
  { apply keeps_summary_append. intros s' l (Hc & Hp & Hz & Hi & Hm) Hl.
    split_and!; try done. simpl. by eexists. }
  keeps_auto.
Qed.

Lemma keeps_group name node_section node_name :
  keeps (on_self (World := World) (Blob := Blob) (λ s, is_Some (vm_dict s !! name)))
    (CreateVirtualMachineFromNodeSection node_section node_name).
Proof.
  assert (∀ new, keeps (on_self (World := World) (Blob := Blob)
                          (λ s, is_Some (vm_dict s !! name)))
                   (extend_group node_name new)) as Hext.
  { intros new m Hm. unfold extend_group. rewrite run_bind_get_self.
    unfold getitem. destruct (vm_dict (self m) !! node_name) as [[|l]|] eqn:Hl; run;
      try exact Hm.
    unfold on_self in *. fields.
    destruct (decide (node_name = name)) as [->|Hne].
    - by rewrite lookup_insert_eq.
    - by rewrite lookup_insert_ne. }
  unfold CreateVirtualMachineFromNodeSection, append_if_absent, ensure_network,
    new_vm, new_network, append_disk_spec. cbv zeta. auto 100 with keeps.
Qed.

Lemma keeps_groups_listed nodes node_section node_name :
  keeps (on_self (World := World) (Blob := Blob) (groups_listed nodes))
    (CreateVirtualMachineFromNodeSection node_section node_name).
Proof.
  intros m. unfold on_self, groups_listed. rewrite !Forall_forall.
  intros Hm node Hnode. destruct (Hm node Hnode) as (name & Hname & Hgroup).
  exists name. split; [done|]. by apply (keeps_group name node_section node_name m).
Qed.

Lemma group_lists_created nodes :
  ∀ (m m' : machine),
    for_each nodes (λ node,
      name ← check (node_name_of node);
      assign (λ s, set_vm_dict (<[name := Own []]> (vm_dict s)) s)) m = (inr tt, m') →
    groups_listed nodes (self m') ∧
    ∃ d, m' = {| self := set_vm_dict d (self m); proc := proc m |}.
Proof.
  induction nodes as [|node nodes IH]; intros m m'; cbn [for_each].
  - run. intros [= <-]. split; [constructor|].
    exists (vm_dict (self m)). by destruct m as [[] ?].
  - rewrite run_bind. destruct (node_name_of node) as [e|name] eqn:Hname; run;
      [discriminate|].
    intros Hrest. destruct (IH _ _ Hrest) as (Hgroups & d & ->). fields.
    split; [|by eexists].
    constructor; [|exact Hgroups]. exists name. split; [done|].
    assert (keeps (on_self (World := World) (Blob := Blob)
                     (λ s, is_Some (vm_dict s !! name)))
              (for_each nodes (λ node,
                 name ← check (node_name_of node);
                 assign (λ s, set_vm_dict (<[name := Own []]> (vm_dict s)) s)))) as Hk.
    { apply keeps_for_each. intros node'.
      apply keeps_bind; [auto with keeps | intros name'].
      apply keeps_assign. intros s Hs. simpl.
      destruct (decide (name' = name)) as [->|Hne].
      - by rewrite lookup_insert_eq.
      - by rewrite lookup_insert_ne. }
    match type of Hrest with
    | _ ?m1 = _ => specialize (Hk m1)
    end.
    rewrite Hrest in Hk. apply Hk. unfold on_self. fields.
    by rewrite lookup_insert_eq.
Qed.

Lemma topology_of_init_body static info (p : process) cfg :
  FLAGS_benchmark_config_pair FLAGS !! info_name info = Some cfg →
  match init_body FLAGS info {| self := blank static; proc := p |} with
  | (inr _, m) =>
      ∃ cluster type cluster_project cluster_zone zs images types,
        config_dict cfg !! "cluster" = Some cluster ∧
        alist_get cluster "type" = Some type ∧
        alist_get cluster "project" = Some cluster_project ∧
        alist_get cluster "zone" = Some cluster_zone ∧
        cloud (self m) = type ∧ project (self m) = Some cluster_project ∧
        zones (self m) = VStr (join "," (cluster_zone :: zs)) ∧
        image (self m) = VStr (join "," images) ∧
        machine_type (self m) = VStr (join "," types) ∧
        num_vms (self m) = Some (Z.of_nat (length (vms (self m)))) ∧
        groups_listed (node_sections cfg) (self m)
  | (inl _, _) => True
  end.
Proof.
  intros Hcfg. unfold init_body. rewrite Hcfg. run.
  unfold init_from_config, getitem, alist_getitem.
  destruct (config_dict cfg !! "cluster") as [cluster|] eqn:Hcluster; run; [|done].
  destruct (alist_get cluster "type") as [type|] eqn:Htype; run; [|done].
  destruct (alist_get cluster "project") as [cp|] eqn:Hproject; run; [|done].
  destruct (alist_get cluster "zone") as [zone|] eqn:Hzone; run; [|done].
  rewrite run_bind.
  match goal with
  | |- context [for_each (node_sections cfg) ?body ?m1] =>
      pose proof (group_lists_created (node_sections cfg) m1) as Hgroups;
      destruct (for_each (node_sections cfg) body m1) as [[e|[]] m2]
  end; [done|].
  destruct (Hgroups m2 eq_refl) as (Hlisted & d & ->). clear Hgroups.
  fields. rewrite !run_bind.
  match goal with
  | |- context [comprehension (node_sections cfg) ?f ?m2] =>
      assert (keeps (λ m, m = m2) (comprehension (node_sections cfg) f)) as Hargs
        by (apply keeps_comprehension; intros node;
            repeat (apply keeps_bind; [|intros ?]); auto with keeps);
      specialize (Hargs m2 eq_refl);
      destruct (comprehension (node_sections cfg) f m2) as [[e|args] m3]
  end; simpl in Hargs; subst; [done|].
  rewrite !run_bind.
  match goal with
  | |- context [RunThreaded ?target args ?m2] =>
      assert (keeps (on_self (of_cluster type cp zone)) (RunThreaded target args)) as Hc
        by (pose proof keeps_of_cluster; auto with keeps);
      assert (keeps (on_self (groups_listed (node_sections cfg)))
                (RunThreaded target args)) as Hg
        by (pose proof keeps_groups_listed; auto with keeps);
      specialize (Hc m2); specialize (Hg m2);
      destruct (RunThreaded target args m2) as [[e|failed] m3]
  end; [done|].
  unfold on_self in Hc, Hg. fields.
  destruct Hc as (Hcloud & Hproj & [zs Hzs] & [images Himages] & [types Htypes]).
  { split_and!; try done; by eexists. }
  specialize (Hg Hlisted).
  run. rewrite Himages. unfold join_value. run. rewrite Hzs. run. rewrite Htypes. run.
  destruct (CLASSES !! cloud (self m3)) as [entry|]; run; [|done].
  exists cluster, type, cp, zone, zs, images, types. by split_and!.
Qed.

(** Built from a topology, the plan that [__init__] returns has the
    provider and the project of the cluster section; its [zones], [image]
    and [machine_type] are comma-joined strings, [zones] beginning with the
    zone of the cluster whether or not a node section uses it; [num_vms] is
    the length of [self.vms]; and every node section listed has a name and
    a group of that name in [self.vm_dict]. *)
Theorem topology_summary static info (p p' : process) (s : BenchmarkSpec) cfg :
  FLAGS_benchmark_config_pair FLAGS !! info_name info = Some cfg →
  __init__ FLAGS static info p = (inr s, p') →
  ∃ cluster type cluster_project cluster_zone zs images types,
    config_dict cfg !! "cluster" = Some cluster ∧
    alist_get cluster "type" = Some type ∧
    alist_get cluster "project" = Some cluster_project ∧
    alist_get cluster "zone" = Some cluster_zone ∧
    cloud s = type ∧ project s = Some cluster_project ∧
    zones s = VStr (join "," (cluster_zone :: zs)) ∧
    image s = VStr (join "," images) ∧
    machine_type s = VStr (join "," types) ∧
    num_vms s = Some (Z.of_nat (length (vms s))) ∧
    groups_listed (node_sections cfg) s.
Proof.
  intros Hcfg Hinit. pose proof (topology_of_init_body static info p cfg Hcfg) as Hbody.
  unfold __init__ in Hinit.
  destruct (init_body FLAGS info _) as [[e|[]] m]; [discriminate|].
  by injection Hinit as <- <-.
Qed.

End Topology.

(** ** Prepare, then Delete *)

Section Lifecycle.

Context {World Blob : Type} `{!Externals World Blob}.
Variable FLAGS : Flags.

Local Abbreviation machine := (Machine World Blob).

Lemma elem_of_concat_fmap {A B} (f : A → list B) (l : list A) (y : B) :
  y ∈ concat (f <$> l) ↔ ∃ x, x ∈ l ∧ y ∈ f x.
Proof.
  induction l as [|a l IH]; simpl.
  - split; [by intros ?%elem_of_nil | by intros (x & ?%elem_of_nil & _)].
  - rewrite elem_of_app, IH. split.
    + intros [Hy | (x & Hx & Hy)]; [exists a | exists x];
        (split; [rewrite elem_of_cons; auto | done]).
    + intros (x & [-> | Hx]%elem_of_cons & Hy); [by left | right; by exists x].
Qed.

Lemma created_by_Prepare (s : BenchmarkSpec) fw c :
  c ∈ prepare_all_calls s fw →
  match c with
  | NetworkCreate net => net ∈ (map_to_list (networks s)).*2
  | VmCreate vm | VmCreateScratchDisk vm _ => vm ∈ vms s
  | FirewallAllowPort fw' vm _ => fw' = fw ∧ vm ∈ vms s
  | _ => True
  end.
Proof.
  unfold prepare_all_calls, prepare_calls. rewrite elem_of_app, elem_of_concat_fmap.
  intros [(net & -> & Hnet)%list_elem_of_fmap | (vm & Hvm & Hc)]; [done|].
  rewrite !elem_of_app, !elem_of_cons, list_elem_of_fmap in Hc.
  destruct Hc as [[->|[->|[->|[->|[]%elem_of_nil]]]] | [(d & -> & _) | [->|[]%elem_of_nil]]];
    done.
Qed.

Lemma creates_of_Prepare (s : BenchmarkSpec) fw :
  (∀ vm, vm ∈ vms s → VmCreate vm ∈ prepare_all_calls s fw) ∧
  (∀ net, net ∈ (map_to_list (networks s)).*2 →
          NetworkCreate net ∈ prepare_all_calls s fw).
Proof.
  unfold prepare_all_calls, prepare_calls. split.
  - intros vm Hvm. rewrite elem_of_app, elem_of_concat_fmap. right.
    exists vm. split; [done|]. rewrite elem_of_app. left. by left.
  - intros net Hnet. rewrite elem_of_app. left. by apply list_elem_of_fmap_2.
Qed.

Lemma deleted_by_Delete (s : BenchmarkSpec) fw :
  (∀ vm, vm ∈ vms s ↔ VmDelete vm ∈ delete_calls s fw) ∧
  (∀ vm, vm ∈ vms s ↔ VmDeleteScratchDisks vm ∈ delete_calls s fw) ∧
  (∀ net, net ∈ (map_to_list (networks s)).*2 ↔ NetworkDelete net ∈ delete_calls s fw) ∧
  FirewallDisallowAllPorts fw ∈ delete_calls s fw.
Proof.
  unfold delete_calls. split_and!.
  - intros vm. rewrite !elem_of_app, elem_of_concat_fmap. split.
    + intros Hvm. left. exists vm. split; [done | by left].
    + intros [(vm' & Hvm & Hc) | [Hc | Hc]].
      * rewrite !elem_of_cons in Hc.
        destruct Hc as [[= <-] | [[=] | []%elem_of_nil]]. done.
      * by apply list_elem_of_singleton in Hc.
      * by apply list_elem_of_fmap in Hc as (? & [=] & _).
  - intros vm. rewrite !elem_of_app, elem_of_concat_fmap. split.
    + intros Hvm. left. exists vm. split; [done | right; by left].
    + intros [(vm' & Hvm & Hc) | [Hc | Hc]].
      * rewrite !elem_of_cons in Hc.
        destruct Hc as [[=] | [[= <-] | []%elem_of_nil]]. done.
      * by apply list_elem_of_singleton in Hc.
      * by apply list_elem_of_fmap in Hc as (? & [=] & _).
  - intros net. rewrite !elem_of_app, elem_of_concat_fmap. split.
    + intros Hnet. right. right. by apply list_elem_of_fmap_2.
    + intros [(vm' & Hvm & Hc) | [Hc | Hc]].
      * rewrite !elem_of_cons in Hc.
        by destruct Hc as [[=] | [[=] | []%elem_of_nil]].
      * by apply list_elem_of_singleton in Hc.
      * by apply list_elem_of_fmap in Hc as (? & [= <-] & ?).
  - rewrite !elem_of_app. right. left. by left.
Qed.

(** [Delete] undoes [Prepare].  On providers that do not fail, in a
    cleanup stage, [Prepare] and then [Delete] on a plan that has a firewall
    and is not deleted both return, and of what the first created the
    second leaves nothing: a virtual machine is deleted exactly when it was
    created, and so is a network; the scratch disks of every virtual
    machine that got one are deleted, and the only firewall on which a
    port was opened is the plan's, whose ports are closed.  The plan differs only in [deleted = True]. *)
Theorem Delete_undoes_Prepare (m : machine) (fw : Firewall) :
  reliable_provider →
  cleanup_stage FLAGS →
  deleted (self m) = Some false →
  firewall (self m) = Some fw →
  let m1 := (Prepare m).2 in
  let m2 := (Delete FLAGS m1).2 in
  (Prepare m).1 = inr tt ∧ (Delete FLAGS m1).1 = inr tt ∧
  self m2 = set_deleted (Some true) (self m) ∧
  ∃ prepared torn_down,
    provider_calls (trace (proc m2))
    = provider_calls (trace (proc m)) ++ prepared ++ torn_down ∧
    (∀ vm, VmCreate vm ∈ prepared ↔ VmDelete vm ∈ torn_down) ∧
    (∀ net, NetworkCreate net ∈ prepared ↔ NetworkDelete net ∈ torn_down) ∧
    (∀ vm d, VmCreateScratchDisk vm d ∈ prepared → VmDeleteScratchDisks vm ∈ torn_down) ∧
    (∀ fw' vm port, FirewallAllowPort fw' vm port ∈ prepared → fw' = fw) ∧
    FirewallDisallowAllPorts fw ∈ torn_down.
Proof.
  intros Hok Hstage Hdel Hfw m1 m2.
  destruct (makes_Prepare m fw Hok Hfw) as ([[] Hp] & Hs1 & Hc1).
  fold m1 in Hs1, Hc1. simpl in Hs1.
  destruct (makes_Delete FLAGS m1 fw Hok Hstage) as ([[] Hd] & Hs2 & Hc2);
    [by rewrite Hs1 | by rewrite Hs1 |].
  fold m2 in Hs2, Hc2. rewrite Hs1 in Hs2, Hc2.
  split_and!; [exact Hp | exact Hd | exact Hs2 |].
  exists (prepare_all_calls (self m) fw), (delete_calls (self m) fw).
  destruct (creates_of_Prepare (self m) fw) as (Hvm & Hnet).
  destruct (deleted_by_Delete (self m) fw) as (Hdvm & Hdisks & Hdnet & Hdfw).
  split_and!.
  - by rewrite Hc2, Hc1, <- app_assoc.
  - intros vm. rewrite <- Hdvm. split; [apply (created_by_Prepare _ _ (VmCreate vm)) | auto].
  - intros net. rewrite <- Hdnet.
    split; [apply (created_by_Prepare _ _ (NetworkCreate net)) | auto].
  - intros vm d Hin. apply Hdisks. apply (created_by_Prepare _ _ _ Hin).
  - intros fw' vm port Hin. apply (created_by_Prepare _ _ _ Hin).
  - exact Hdfw.
Qed.

End Lifecycle.

(** ** The further properties on the sample plans *)

Lemma snapshot_names_do_not_interfere_witness :
  let ext := Sample.externals Sample.reliable in
  file_name SamplePlan.plan = Some (snapshot_path "/tmp/perfkitbenchmarker" "iperf") ∧
  "iperf" ≠ "netperf" ∧
  (GetSpecFromFile (Externals0 := ext) "netperf"
     (proc (PickleSpec (Externals0 := ext) SamplePlan.machine).2)).1
  = (GetSpecFromFile (Externals0 := ext) "netperf" Sample.process0).1.
Proof.
  intros ext.
  assert (file_name SamplePlan.plan
          = Some (snapshot_path "/tmp/perfkitbenchmarker" "iperf")) as Hname
    by (vm_compute; reflexivity).
  assert ("iperf" ≠ "netperf") as Hne by discriminate.
  split; [exact Hname|]. split; [exact Hne|].
  exact (snapshot_names_do_not_interfere (Externals0 := ext) SamplePlan.machine
           "iperf" "netperf" Hname Hne).
Defined.

Lemma snapshot_holds_last_saved_witness :
  let ext := Sample.externals Sample.reliable in
  let later := set_deleted (Some true) SamplePlan.plan in
  (∀ s, pickle_load (Externals := ext) (pickle_dump s) = inr s) ∧
  file_name SamplePlan.plan = Some (snapshot_path "/tmp/perfkitbenchmarker" "iperf") ∧
  file_name later = file_name SamplePlan.plan ∧
  usable (files Sample.process0) (snapshot_path "/tmp/perfkitbenchmarker" "iperf") ∧
  ∃ m1 m2,
    PickleSpec (Externals0 := ext) {| self := SamplePlan.plan; proc := Sample.process0 |}
    = (inr tt, m1) ∧
    PickleSpec (Externals0 := ext) {| self := later; proc := proc m1 |} = (inr tt, m2) ∧
    GetSpecFromFile (Externals0 := ext) "iperf" (proc m2) = (inr later, proc m2).
Proof.
  intros ext later.
  assert (∀ s, pickle_load (Externals := ext) (pickle_dump s) = inr s) as Hpickle
    by (intros s; reflexivity).
  assert (file_name SamplePlan.plan
          = Some (snapshot_path "/tmp/perfkitbenchmarker" "iperf")) as Hname
    by (vm_compute; reflexivity).
  assert (file_name later = file_name SamplePlan.plan) as Hlater by reflexivity.
  assert (usable (files Sample.process0)
            (snapshot_path "/tmp/perfkitbenchmarker" "iperf")) as Hu
    by (vm_compute; exact I).
  split; [exact Hpickle|]. split; [exact Hname|]. split; [exact Hlater|].
  split; [exact Hu|].
  exact (snapshot_holds_last_saved (Externals0 := ext) SamplePlan.plan later
           Sample.process0 "iperf" Hpickle Hname Hlater Hu).
Defined.

Lemma Delete_calls_witness :
  let ext := Sample.externals Sample.reliable in
  let fw := {| firewall_class := GceFirewall; firewall_project := Some "my-project" |} in
  reliable_provider (Externals0 := ext) ∧
  cleanup_stage Sample.flags ∧
  deleted SamplePlan.plan = Some false ∧
  firewall SamplePlan.plan = Some fw ∧
  (Delete (Externals0 := ext) Sample.flags SamplePlan.machine).1 = inr tt ∧
  self (Delete (Externals0 := ext) Sample.flags SamplePlan.machine).2
  = set_deleted (Some true) SamplePlan.plan.
Proof.
  intros ext fw.
  assert (reliable_provider (Externals0 := ext)) as Hok by (intros c w; reflexivity).
  assert (cleanup_stage Sample.flags) as Hstage by (by left).
  assert (deleted SamplePlan.plan = Some false) as Hdel by (vm_compute; reflexivity).
  assert (firewall SamplePlan.plan = Some fw) as Hfw by (vm_compute; reflexivity).
  split; [exact Hok|]. split; [exact Hstage|]. split; [exact Hdel|].
  split; [exact Hfw|].
  destruct (Delete_calls (Externals0 := ext) Sample.flags SamplePlan.machine fw
              Hok Hstage Hdel Hfw) as (Hret & Hself & _).
  split; [exact Hret | exact Hself].
Defined.

Lemma Prepare_calls_witness :
  let ext := Sample.externals Sample.reliable in
  let fw := {| firewall_class := GceFirewall; firewall_project := Some "my-project" |} in
  reliable_provider (Externals0 := ext) ∧
  firewall SamplePlan.plan = Some fw ∧
  (Prepare (Externals0 := ext) SamplePlan.machine).1 = inr tt ∧
  self (Prepare (Externals0 := ext) SamplePlan.machine).2 = SamplePlan.plan.
Proof.
  intros ext fw.
  assert (reliable_provider (Externals0 := ext)) as Hok by (intros c w; reflexivity).
  assert (firewall SamplePlan.plan = Some fw) as Hfw by (vm_compute; reflexivity).
  split; [exact Hok|]. split; [exact Hfw|].
  destruct (Prepare_calls (Externals0 := ext) SamplePlan.machine fw Hok Hfw)
    as (Hret & Hself & _).
  split; [exact Hret | exact Hself].
Defined.

Lemma Delete_stops_at_firewall_failure_witness :
  let ext := StuckFirewall.externals in
  let fw := {| firewall_class := GceFirewall; firewall_project := Some "my-project" |} in
  let e := ProviderError "DisallowAllPorts failed" in
  (∀ w, (provider_call (Externals := ext) (FirewallDisallowAllPorts fw) w).1 = Some e) ∧
  cleanup_stage Sample.flags ∧
  deleted SamplePlan.plan = Some false ∧
  firewall SamplePlan.plan = Some fw ∧
  (Delete (Externals0 := ext) Sample.flags SamplePlan.machine).1 = inl e ∧
  self (Delete (Externals0 := ext) Sample.flags SamplePlan.machine).2 = SamplePlan.plan.
Proof.
  intros ext fw e.
  assert (∀ w, (provider_call (Externals := ext) (FirewallDisallowAllPorts fw) w).1
               = Some e) as Hfail by (intros w; reflexivity).
  assert (cleanup_stage Sample.flags) as Hstage by (by left).
  assert (deleted SamplePlan.plan = Some false) as Hdel by (vm_compute; reflexivity).
  assert (firewall SamplePlan.plan = Some fw) as Hfw by (vm_compute; reflexivity).
  split; [exact Hfail|]. split; [exact Hstage|]. split; [exact Hdel|].
  split; [exact Hfw|].
  destruct (Delete_stops_at_firewall_failure (Externals0 := ext) Sample.flags
              SamplePlan.machine fw e Hfail Hstage Hdel Hfw) as (Hret & Hself & _).
  split; [exact Hret | exact Hself].
Defined.

Lemma CreateVirtualMachine_fails_cleanly_witness :
  let ext := Sample.externals Sample.reliable in
  let m := {| self := set_cloud "nowhere" SamplePlan.plan; proc := Sample.process0 |} in
  (CreateVirtualMachine (Externals0 := ext) (Some "z1") m).1 = inl (KeyError "nowhere") ∧
  self (CreateVirtualMachine (Externals0 := ext) (Some "z1") m).2
  = set_cloud "nowhere" SamplePlan.plan.
Proof.
  intros ext m.
  assert ((CreateVirtualMachine (Externals0 := ext) (Some "z1") m).1
          = inl (KeyError "nowhere")) as Hraise by (vm_compute; reflexivity).
  split; [exact Hraise|].
  exact (proj1 (CreateVirtualMachine_fails_cleanly (Externals0 := ext)
                  (Some "z1") m (KeyError "nowhere") Hraise)).
Defined.

Lemma summaries_stay_distinct_witness :
  let ext := Sample.externals Sample.reliable in
  let cs := [ByNodeSection SampleTopology.node_section "workers";
             ByCreateVirtualMachine None] in
  summaries_distinct SampleTopology.plan ∧
  summaries_distinct (self (construct_all (Externals0 := ext) cs SampleTopology.machine)).
Proof.
  intros ext cs.
  assert (summaries_distinct SampleTopology.plan) as Hd.
  { split_and!; cbn; [apply NoDup_singleton | apply NoDup_nil_2 | apply NoDup_nil_2]. }
  split; [exact Hd|].
  exact (summaries_stay_distinct (Externals0 := ext) cs SampleTopology.machine Hd).
Defined.

Lemma node_section_without_image_witness :
  let ext := Sample.externals Sample.reliable in
  let node_section := [("zone", "europe-west1-b"); ("vm_type", "n1-standard-4");
                       ("count", "3")] in
  zones SampleTopology.plan = VList ["us-central1-a"] ∧
  alist_get node_section "zone" = Some "europe-west1-b" ∧
  alist_get node_section "image" = None ∧
  ∃ m',
    CreateVirtualMachineFromNodeSection (Externals0 := ext) node_section "workers"
      SampleTopology.machine = (inl (KeyError "image"), m') ∧
    zones (self m') = VList ["us-central1-a"; "europe-west1-b"].
Proof.
  intros ext node_section.
  assert (zones (self SampleTopology.machine) = VList ["us-central1-a"]) as Hzs
    by reflexivity.
  assert (match alist_get node_section "zone" with
          | Some z => inr z
          | None => first (zones (self SampleTopology.machine))
          end = inr "europe-west1-b") as Hzone by reflexivity.
  assert (alist_get node_section "image" = None) as Himg by reflexivity.
  split; [exact Hzs|]. split; [reflexivity|]. split; [exact Himg|].
  destruct (node_section_without_image (Externals0 := ext) node_section "workers"
              "europe-west1-b" ["us-central1-a"] SampleTopology.machine Hzs Hzone Himg)
    as (m' & Hrun & Hself & _).
  exists m'. split; [exact Hrun|]. rewrite Hself. reflexivity.
Defined.

Lemma node_section_for_unknown_group_witness :
  let ext := Sample.externals Sample.reliable in
  let entry := {| VIRTUAL_MACHINE := GceVirtualMachine; NETWORK := GceNetwork;
                  FIREWALL := GceFirewall |} in
  vm_dict SampleTopology.plan !! "clients" = None ∧
  ∃ m',
    CreateVirtualMachineFromNodeSection (Externals0 := ext)
      SampleTopology.node_section "clients" SampleTopology.machine
    = (inl (KeyError "clients"), m') ∧
    vms (self m') = [0; 1; 2]%nat ∧
    vm_dict (self m') = vm_dict SampleTopology.plan.
Proof.
  intros ext entry.
  assert (vm_dict (self SampleTopology.machine) !! "clients" = None) as Hgroup
    by (vm_compute; reflexivity).
  split; [exact Hgroup|].
  destruct (node_section_for_unknown_group (Externals0 := ext)
              SampleTopology.node_section "clients" "us-central1-a"
              "debian-7-backports" "n1-standard-4" "3" 3 entry SampleTopology.machine)
    as (m' & net & Hrun & Hvms & Hdict & _);
    [by eexists | by eexists | by eexists | reflexivity | reflexivity | reflexivity
    | reflexivity | vm_compute; reflexivity | vm_compute; reflexivity | exact Hgroup |].
  exists m'. split; [exact Hrun|]. split; [exact Hvms | exact Hdict].
Defined.

Lemma init_from_incomplete_config_witness :
  let ext := Sample.externals Sample.reliable in
  FLAGS_benchmark_config_pair Colonless.flags !! info_name Sample.info
  = Some Colonless.cfg ∧
  Exists (λ node, occurs ascii_colon node = false) (node_sections Colonless.cfg) ∧
  (__init__ (Externals0 := ext) Colonless.flags [] Sample.info Sample.process0).1
  = inl IndexError.
Proof.
  intros ext.
  assert (FLAGS_benchmark_config_pair Colonless.flags !! info_name Sample.info
          = Some Colonless.cfg) as Hcfg by (vm_compute; reflexivity).
  assert (Exists (λ node, occurs ascii_colon node = false)
            (node_sections Colonless.cfg)) as Hex by (left; reflexivity).
  split; [exact Hcfg|]. split; [exact Hex|].
  pose proof (init_from_incomplete_config (Externals0 := ext) Colonless.flags []
                Sample.info Sample.process0 Colonless.cfg Hcfg) as [_ Hcluster].
  destruct (Hcluster _ ltac:(vm_compute; reflexivity)) as [_ Htype].
  destruct (Htype _ eq_refl) as [_ Hproject].
  destruct (Hproject _ eq_refl) as [_ Hzone].
  exact (Hzone _ eq_refl Hex).
Defined.

Lemma constructed_plan_well_formed_witness :
  let ext := Sample.externals Sample.reliable in
  __init__ (Externals0 := ext) Sample.flags [] Sample.info Sample.process0
  = (inr SamplePlan.plan, Sample.process0) ∧
  deleted SamplePlan.plan = Some false ∧
  one_network_per_zone SamplePlan.plan ∧ vms_share_zone_network SamplePlan.plan.
Proof.
  intros ext.
  assert (__init__ (Externals0 := ext) Sample.flags [] Sample.info Sample.process0
          = (inr SamplePlan.plan, Sample.process0)) as Hinit by (vm_compute; reflexivity).
  split; [exact Hinit|].
  destruct (constructed_plan_well_formed (Externals0 := ext) Sample.flags []
              Sample.info Sample.process0 Sample.process0 SamplePlan.plan Hinit)
    as (Hdel & _ & _ & _ & Hnet).
  split; [exact Hdel|]. apply Hnet; [vm_compute; reflexivity | constructor].
Defined.

Lemma scratch_disks_of_flags_witness :
  let ext := Sample.externals Sample.reliable in
  FLAGS_benchmark_config_pair Sample.flags !! info_name Sample.info = None ∧
  disk_alias (FLAGS_cloud Sample.flags) STANDARD = inr (Some "pd-standard") ∧
  __init__ (Externals0 := ext) Sample.flags [] Sample.info Sample.process0
  = (inr SamplePlan.plan, Sample.process0) ∧
  vm_disk_specs SamplePlan.plan 4
  = [{| disk_size := 500; disk_type := Some "pd-standard"; mount_point := "/scratch0" |}].
Proof.
  intros ext.
  assert (FLAGS_benchmark_config_pair Sample.flags !! info_name Sample.info = None)
    as Hnone by (vm_compute; reflexivity).
  assert (disk_alias (FLAGS_cloud Sample.flags) STANDARD = inr (Some "pd-standard"))
    as Halias by (vm_compute; reflexivity).
  assert (__init__ (Externals0 := ext) Sample.flags [] Sample.info Sample.process0
          = (inr SamplePlan.plan, Sample.process0)) as Hinit by (vm_compute; reflexivity).
  split; [exact Hnone|]. split; [exact Halias|]. split; [exact Hinit|].
  rewrite (scratch_disks_of_flags (Externals0 := ext) Sample.flags [] Sample.info
             Sample.process0 Sample.process0 SamplePlan.plan (Some "pd-standard")
             Hnone Halias Hinit 4%nat) by (vm_compute; lia).
  vm_compute. reflexivity.
Defined.

Lemma topology_summary_witness :
  let ext := Sample.externals Sample.reliable in
  let cfg := {| sections := [("cluster", [("type", "GCP"); ("project", "my-project");
                                          ("zone", "us-central1-a")]);
                             ("node:workers", SampleTopology.node_section)];
                node_sections := ["node:workers"] |} in
  FLAGS_benchmark_config_pair SampleTopology.flags !! info_name Sample.info = Some cfg ∧
  __init__ (Externals0 := ext) SampleTopology.flags [] Sample.info Sample.process0
  = (inr TopologyPlan.plan, Sample.process0) ∧
  num_vms TopologyPlan.plan = Some (Z.of_nat (length (vms TopologyPlan.plan))) ∧
  groups_listed ["node:workers"] TopologyPlan.plan.
Proof.
  intros ext cfg.
  assert (FLAGS_benchmark_config_pair SampleTopology.flags !! info_name Sample.info
          = Some cfg) as Hcfg by (vm_compute; reflexivity).
  assert (__init__ (Externals0 := ext) SampleTopology.flags [] Sample.info
            Sample.process0 = (inr TopologyPlan.plan, Sample.process0)) as Hinit
    by (vm_compute; reflexivity).
  split; [exact Hcfg|]. split; [exact Hinit|].
  destruct (topology_summary (Externals0 := ext) SampleTopology.flags [] Sample.info
              Sample.process0 Sample.process0 TopologyPlan.plan cfg Hcfg Hinit)
    as (cluster & type & cluster_project & cluster_zone & zs & images & types
        & _ & _ & _ & _ & _ & _ & _ & _ & _ & Hnum & Hgroups).
  split; [exact Hnum | exact Hgroups].
Defined.

Lemma Delete_undoes_Prepare_witness :
  let ext := Sample.externals Sample.reliable in
  let fw := {| firewall_class := GceFirewall; firewall_project := Some "my-project" |} in
  let m1 := (Prepare (Externals0 := ext) SamplePlan.machine).2 in
  reliable_provider (Externals0 := ext) ∧
  cleanup_stage Sample.flags ∧
  deleted SamplePlan.plan = Some false ∧
  firewall SamplePlan.plan = Some fw ∧
  (Delete (Externals0 := ext) Sample.flags m1).1 = inr tt ∧
  self (Delete (Externals0 := ext) Sample.flags m1).2
  = set_deleted (Some true) SamplePlan.plan.
Proof.
  intros ext fw m1.
  assert (reliable_provider (Externals0 := ext)) as Hok by (intros c w; reflexivity).
  assert (cleanup_stage Sample.flags) as Hstage by (by left).
  assert (deleted SamplePlan.plan = Some false) as Hdel by (vm_compute; reflexivity).
  assert (firewall SamplePlan.plan = Some fw) as Hfw by (vm_compute; reflexivity).
  split; [exact Hok|]. split; [exact Hstage|]. split; [exact Hdel|].
  split; [exact Hfw|].
  destruct (Delete_undoes_Prepare (Externals0 := ext) Sample.flags SamplePlan.machine fw
              Hok Hstage Hdel Hfw) as (_ & Hret & Hself & _).
  split; [exact Hret | exact Hself].
Defined.
